(** * todos-service: the in-memory storage engine, validation and the task
    service, embedded from the Go sources and checked against the
    specification.

    Layout (one Rocq module per Go package or receiver type):
    - [errors], [context], [domain]: error values, the cancellation signal,
      the task records;
    - [InMemory]: internal/storage, the generic store ([Save], [GetByID],
      [GetAll], [Delete]);
    - [utf8], [unicode], [GoStrings]: what [strings.TrimSpace] of the Go
      standard library computes, on bytes and UTF-8 encoded runes;
    - [utils]: [Validate];
    - [TaskStorage], [TaskService]: internal/usecases, the service over any
      storage backend; [Spy] is a backend that records the calls it gets;
    - [strconv], [dto], [handlers], [TaskHandler]: the HTTP transport, from
      the parsed request to the status and the value written;
    - [Firing]: the in-memory store seen through a context that fires
      between two storage calls of one request.
    Conventions:
    - a [uint64] is a [Z] in [0, 2^64); [serialID++] wraps modulo 2^64;
    - a Go map is a [gmap]; a method with a pointer receiver takes the
      receiver's state and returns the new state next to its results;
    - a Go result pair [(T, error)] is a pair [(T * option error)], with
      [None] for the nil error; a slice is a list, the nil slice and the
      empty slice both the empty list. *)

From Stdlib Require Import ZArith String Ascii List Bool Sorted Lia.
From stdpp Require Import base option list gmap strings fin_maps.

Local Open Scope Z_scope.

(** ** Machine integers *)

Definition uint64_modulus : Z := 2 ^ 64.

(** The value of a 64-bit unsigned result: arithmetic wraps around. *)
Definition wrap64 (z : Z) : Z := z mod uint64_modulus.

Definition is_uint64 (z : Z) : Prop := 0 <= z < uint64_modulus.

(** ** Package errors (the part of Go's error model the service uses) *)

Module errors.

(** The error values that occur: the two sentinels of package context, the
    two sentinels of internal/domain, any other value made by [errors.New]
    (a storage backend's own failure), and the wrapper that
    [fmt.Errorf] builds for a [%w] verb: its message and the wrapped
    error. *)
Inductive error : Type :=
| Canceled
| DeadlineExceeded
| ErrNotExists
| ErrEmptyTitle
| errorString (s : string)
| wrapError (msg : string) (err : error).

(** [err == target]. Go compares these values by identity; the model
    compares them by structure, so two values that [errors.New] or
    [fmt.Errorf] made with the same content count as one. *)
Fixpoint error_eqb (a b : error) : bool :=
  match a, b with
  | Canceled, Canceled => true
  | DeadlineExceeded, DeadlineExceeded => true
  | ErrNotExists, ErrNotExists => true
  | ErrEmptyTitle, ErrEmptyTitle => true
  | errorString s, errorString t => String.eqb s t
  | wrapError m e, wrapError n f => String.eqb m n && error_eqb e f
  | _, _ => false
  end.

(** [err.Error()] *)
Definition Error (e : error) : string :=
  match e with
  | Canceled => "context canceled"
  | DeadlineExceeded => "context deadline exceeded"
  | ErrNotExists => "resource not found in storage"
  | ErrEmptyTitle => "task must have non empty title"
  | errorString s => s
  | wrapError msg _ => msg
  end.

(** [fmt.Errorf(prefix + "%w", err)]: the message is the prefix followed
    by the wrapped error's message, and the wrapped error is kept. *)
Definition Errorf_w (prefix : string) (err : error) : error :=
  wrapError (prefix ++ Error err) err.

(** [errors.Unwrap] *)
Definition Unwrap (e : error) : option error :=
  match e with
  | wrapError _ inner => Some inner
  | _ => None
  end.

(** [errors.Is(err, target)]: [err] or an error in its chain of wrapped
    errors equals [target]. *)
Fixpoint Is (err target : error) : bool :=
  error_eqb err target ||
  match err with
  | wrapError _ inner => Is inner target
  | _ => false
  end.

End errors.
Export errors(error).

(** ** Package context: the cancellation/deadline signal *)

Module context.

(** What a call sees of its context: it has not fired, it was cancelled,
    or its deadline passed. A call samples the signal as it stands when the
    call is made; a signal that fires while a call runs is a matter of
    concurrency and is outside this sequential model. *)
Inductive Context : Type :=
| Background
| WithCancel_cancelled
| WithDeadline_expired.

(** [ctx.Err()] *)
Definition Err (ctx : Context) : option error :=
  match ctx with
  | Background => None
  | WithCancel_cancelled => Some errors.Canceled
  | WithDeadline_expired => Some errors.DeadlineExceeded
  end.

End context.
Export context(Context).

(** ** Package domain *)

Module domain.

Definition ErrNotExists : error := errors.ErrNotExists.
Definition ErrEmptyTitle : error := errors.ErrEmptyTitle.

Record TaskSchema : Type := {
  Title : string;
  Description : string;
  IsDone : bool
}.

(** [Task] embeds [TaskSchema]. *)
Record Task : Type := {
  ID : Z;
  Schema : TaskSchema
}.

(** Modelled from the spec: the declaration of [domain.Elem] is not among
    the sources; it is the "Stored Record" of the data model, "the pairing
    of an identifier with a value", with the two fields [ID] and [Value]
    that storage and service use. *)
Record Elem (V : Type) : Type := {
  Elem_ID : Z;
  Elem_Value : V
}.
Arguments Elem_ID {V} _.
Arguments Elem_Value {V} _.

End domain.

(** Go's zero value of a type ([var zero V]). *)
Class GoZero (V : Type) : Type := zero : V.

#[export] Instance TaskSchema_zero : GoZero domain.TaskSchema :=
  {| domain.Title := ""; domain.Description := ""; domain.IsDone := false |}.

#[export] Instance Task_zero : GoZero domain.Task :=
  {| domain.ID := 0; domain.Schema := zero |}.

(** ** internal/storage: type InMemory[V] *)

Module InMemory.
Section Storage.

Context {V : Type} `{GoZero V}.

(** The lock [rwm] serialises the calls; in this sequential model every
    call runs alone and the lock has no state of its own. *)
Record InMemory : Type := {
  serialID : Z;
  data : gmap Z V
}.

Definition NewInMemory : InMemory :=
  {| serialID := 1; data := ∅ |}.

Definition Save (ctx : Context) (value : V) (id : Z) (m : InMemory)
  : (Z * option error) * InMemory :=
  match context.Err ctx with
  | Some err => ((0, Some err), m)
  | None =>
    (* m.rwm.Lock() *)
    match context.Err ctx with
    | Some err => ((0, Some err), m)
    | None =>
      let '(id, m) :=
        if id =? 0
        then (serialID m,
              {| serialID := wrap64 (serialID m + 1); data := data m |})
        else (id, m) in
      ((id, None),
       {| serialID := serialID m; data := <[id := value]> (data m) |})
    end
  end.

Definition GetByID (ctx : Context) (id : Z) (m : InMemory)
  : (V * option error) * InMemory :=
  match context.Err ctx with
  | Some err => ((zero, Some err), m)
  | None =>
    (* m.rwm.RLock() *)
    match context.Err ctx with
    | Some err => ((zero, Some err), m)
    | None =>
      match data m !! id with
      | None => ((zero, Some domain.ErrNotExists), m)
      | Some value => ((value, None), m)
      end
    end
  end.

(** The order in which Go ranges over a map is unspecified; the model
    lists the entries in the order of [map_to_list]. *)
Definition GetAll (ctx : Context) (m : InMemory)
  : (list (domain.Elem V) * option error) * InMemory :=
  match context.Err ctx with
  | Some err => (([], Some err), m)
  | None =>
    (* m.rwm.RLock() *)
    match context.Err ctx with
    | Some err => (([], Some err), m)
    | None =>
      let elems :=
        map (fun kv : Z * V =>
               {| domain.Elem_ID := kv.1; domain.Elem_Value := kv.2 |})
            (map_to_list (data m)) in
      ((elems, None), m)
    end
  end.

Definition Delete (ctx : Context) (id : Z) (m : InMemory)
  : option error * InMemory :=
  match context.Err ctx with
  | Some err => (Some err, m)
  | None =>
    (* m.rwm.Lock() *)
    match context.Err ctx with
    | Some err => (Some err, m)
    | None =>
      match data m !! id with
      | None => (Some domain.ErrNotExists, m)
      | Some _ =>
        (None, {| serialID := serialID m; data := delete id (data m) |})
      end
    end
  end.

(** A run of auto-assigned Saves ([id = 0]), one per value, each with its
    own context: the results in issuance order and the final store. *)
Fixpoint auto_saves (calls : list (Context * V)) (m : InMemory)
  : list (Z * option error) * InMemory :=
  match calls with
  | [] => ([], m)
  | (ctx, v) :: calls' =>
    let '(r, m1) := Save ctx v 0 m in
    let '(rs, m2) := auto_saves calls' m1 in
    (r :: rs, m2)
  end.

End Storage.
Arguments InMemory V : clear implicits.
End InMemory.

(** ** Go strings: byte sequences *)

(** A Go string is a sequence of bytes: a [string] of 8-bit characters. *)
Definition byte (c : ascii) : Z := Z.of_N (N_of_ascii c).

(** [s[i]] (the uses below are all within bounds, where Go does not panic). *)
Definition byte_at (s : string) (i : Z) : Z :=
  match String.get (Z.to_nat i) s with
  | Some c => byte c
  | None => 0
  end.

(** [s[i:]] *)
Fixpoint slice_from (s : string) (i : nat) {struct i} : string :=
  match i, s with
  | O, _ => s
  | S i', String _ s' => slice_from s' i'
  | S _, EmptyString => EmptyString
  end.

(** [s[:j]] *)
Fixpoint slice_to (s : string) (j : nat) {struct j} : string :=
  match j, s with
  | O, _ => EmptyString
  | S j', String c s' => String c (slice_to s' j')
  | S _, EmptyString => EmptyString
  end.

(** [s[i:j]] *)
Definition slice (s : string) (i j : nat) : string :=
  slice_to (slice_from s i) (j - i).

(** ** Package unicode/utf8 (standard library, as far as TrimSpace uses it) *)

Module utf8.

Definition RuneError : Z := 0xFFFD.
Definition RuneSelf : Z := 0x80.
Definition UTFMax : Z := 4.

Definition maskx : Z := 0x3F.
Definition mask2 : Z := 0x1F.
Definition mask3 : Z := 0x0F.
Definition mask4 : Z := 0x07.

Definition locb : Z := 0x80.
Definition hicb : Z := 0xBF.

(** The codes of the table [first]: [xx] an invalid first byte, [as_] an
    ASCII byte, the others a size in the low bits and the index of the
    accepted range of the second byte in the high bits. *)
Definition xx : Z := 0xF1.
Definition as_ : Z := 0xF0.
Definition s1 : Z := 0x02.
Definition s2 : Z := 0x13.
Definition s3 : Z := 0x03.
Definition s4 : Z := 0x23.
Definition s5 : Z := 0x34.
Definition s6 : Z := 0x04.
Definition s7 : Z := 0x44.

Definition first (b : Z) : Z :=
  if b <? 0x80 then as_
  else if b <? 0xC2 then xx
  else if b <? 0xE0 then s1
  else if b =? 0xE0 then s2
  else if b <? 0xED then s3
  else if b =? 0xED then s4
  else if b <? 0xF0 then s3
  else if b =? 0xF0 then s5
  else if b <? 0xF4 then s6
  else if b =? 0xF4 then s7
  else xx.

Definition acceptRanges (i : Z) : Z * Z :=
  if i =? 0 then (locb, hicb)
  else if i =? 1 then (0xA0, hicb)
  else if i =? 2 then (locb, 0x9F)
  else if i =? 3 then (0x90, hicb)
  else if i =? 4 then (locb, 0x8F)
  else (0, 0).

(** The first rune of [s] and its width in bytes; [(RuneError, 1)] for an
    invalid encoding, [(RuneError, 0)] for the empty string. *)
Definition DecodeRuneInString (s : string) : Z * nat :=
  let n := String.length s in
  if (n <? 1)%nat then (RuneError, 0%nat) else
  let s0 := byte_at s 0 in
  let x := first s0 in
  if as_ <=? x then
    (* the mask of the source selects s0 for [as_], RuneError for [xx] *)
    (if x =? xx then RuneError else s0, 1%nat)
  else
  let sz := Z.to_nat (Z.land x 7) in
  let accept := acceptRanges (Z.shiftr x 4) in
  if (n <? sz)%nat then (RuneError, 1%nat) else
  let s1 := byte_at s 1 in
  if (s1 <? accept.1) || (accept.2 <? s1) then (RuneError, 1%nat) else
  if (sz <=? 2)%nat then
    (Z.lor (Z.shiftl (Z.land s0 mask2) 6) (Z.land s1 maskx), 2%nat)
  else
  let s2 := byte_at s 2 in
  if (s2 <? locb) || (hicb <? s2) then (RuneError, 1%nat) else
  if (sz <=? 3)%nat then
    (Z.lor (Z.lor (Z.shiftl (Z.land s0 mask3) 12)
                  (Z.shiftl (Z.land s1 maskx) 6))
           (Z.land s2 maskx), 3%nat)
  else
  let s3 := byte_at s 3 in
  if (s3 <? locb) || (hicb <? s3) then (RuneError, 1%nat) else
  (Z.lor (Z.lor (Z.lor (Z.shiftl (Z.land s0 mask4) 18)
                       (Z.shiftl (Z.land s1 maskx) 12))
                (Z.shiftl (Z.land s2 maskx) 6))
         (Z.land s3 maskx), 4%nat).

(** [RuneStart(b)]: [b] is not a continuation byte. *)
Definition RuneStart (b : Z) : bool :=
  negb (Z.land b 0xC0 =? 0x80).

(** The loop [for start--; start >= lim; start-- { if RuneStart(s[start])
    { break } }] of DecodeLastRuneInString, entered after [start--]; it
    runs at most [UTFMax] times. *)
Fixpoint back_to_start (fuel : nat) (s : string) (lim start : Z) : Z :=
  match fuel with
  | O => start
  | S fuel' =>
    if lim <=? start then
      if RuneStart (byte_at s start) then start
      else back_to_start fuel' s lim (start - 1)
    else start
  end.

(** The last rune of [s] and its width. *)
Definition DecodeLastRuneInString (s : string) : Z * nat :=
  let end_ := Z.of_nat (String.length s) in
  if end_ =? 0 then (RuneError, 0%nat) else
  let start := end_ - 1 in
  let r := byte_at s start in
  if r <? RuneSelf then (r, 1%nat) else
  let lim := end_ - UTFMax in
  let lim := if lim <? 0 then 0 else lim in
  let start := back_to_start (Z.to_nat UTFMax) s lim (start - 1) in
  let start := if start <? 0 then 0 else start in
  let '(r, size) :=
    DecodeRuneInString (slice s (Z.to_nat start) (Z.to_nat end_)) in
  if start + Z.of_nat size =? end_ then (r, size) else (RuneError, 1%nat).

End utf8.

(** ** Package unicode *)

Module unicode.

Definition MaxLatin1 : Z := 0xFF.

(** The ranges of the table [White_Space] above Latin-1. *)
Definition White_Space_above_Latin1 (r : Z) : bool :=
  (r =? 0x1680) || ((0x2000 <=? r) && (r <=? 0x200A)) ||
  (r =? 0x2028) || (r =? 0x2029) || (r =? 0x202F) || (r =? 0x205F) ||
  (r =? 0x3000).

Definition IsSpace (r : Z) : bool :=
  if r <=? MaxLatin1 then
    (r =? 0x09) || (r =? 0x0A) || (r =? 0x0B) || (r =? 0x0C) ||
    (r =? 0x0D) || (r =? 0x20) || (r =? 0x85) || (r =? 0xA0)
  else White_Space_above_Latin1 r.

End unicode.

(** ** Package strings (standard library): TrimSpace *)

Module GoStrings.

(** The table [asciiSpace]: 1 at tab, newline, vertical tab, form feed,
    carriage return and space. *)
Definition asciiSpace (c : Z) : Z :=
  if (c =? 0x09) || (c =? 0x0A) || (c =? 0x0B) || (c =? 0x0C) ||
     (c =? 0x0D) || (c =? 0x20)
  then 1 else 0.

(** [for i, r := range s]: the byte offsets and runes of [s], decoded from
    the left; [rest] is [s[i:]]. Every step consumes at least one byte, so
    [length rest] steps are enough. *)
Fixpoint range_loop (fuel : nat) (i : nat) (rest : string)
  : list (nat * Z) :=
  match fuel with
  | O => []
  | S fuel' =>
    match rest with
    | EmptyString => []
    | String _ _ =>
      let '(r, size) := utf8.DecodeRuneInString rest in
      (i, r) :: range_loop fuel' (i + size) (slice_from rest size)
    end
  end.

Definition range (s : string) : list (nat * Z) :=
  range_loop (String.length s) 0 s.

(** [[]rune(s)] *)
Definition runes (s : string) : list Z := map snd (range s).

Fixpoint first_index (f : Z -> bool) (truth : bool) (l : list (nat * Z))
  : Z :=
  match l with
  | [] => -1
  | (i, r) :: l' =>
    if Bool.eqb (f r) truth then Z.of_nat i else first_index f truth l'
  end.

Definition indexFunc (s : string) (f : Z -> bool) (truth : bool) : Z :=
  first_index f truth (range s).

(** [for i := len(s); i > 0; { ... }]: [i] decreases by the width of a
    rune, at least one, in every turn. *)
Fixpoint lastIndexFunc_loop (fuel : nat) (s : string) (f : Z -> bool)
  (truth : bool) (i : nat) : Z :=
  match fuel with
  | O => -1
  | S fuel' =>
    if (0 <? i)%nat then
      let '(r, size) := utf8.DecodeLastRuneInString (slice s 0 i) in
      let i := (i - size)%nat in
      if Bool.eqb (f r) truth then Z.of_nat i
      else lastIndexFunc_loop fuel' s f truth i
    else -1
  end.

Definition lastIndexFunc (s : string) (f : Z -> bool) (truth : bool) : Z :=
  lastIndexFunc_loop (String.length s) s f truth (String.length s).

Definition TrimLeftFunc (s : string) (f : Z -> bool) : string :=
  let i := indexFunc s f false in
  if i =? -1 then EmptyString else slice_from s (Z.to_nat i).

Definition TrimRightFunc (s : string) (f : Z -> bool) : string :=
  let i := lastIndexFunc s f false in
  let i :=
    if (0 <=? i) && (utf8.RuneSelf <=? byte_at s i) then
      i + Z.of_nat (utf8.DecodeRuneInString (slice_from s (Z.to_nat i))).2
    else i + 1 in
  slice s 0 (Z.to_nat i).

Definition TrimFunc (s : string) (f : Z -> bool) : string :=
  TrimRightFunc (TrimLeftFunc s f) f.

(** The first loop of TrimSpace, over [rest = s[start:]]: the final
    [start], and whether the loop left through the non-ASCII return. *)
Fixpoint TrimSpace_start (rest : string) (start : nat) : bool * nat :=
  match rest with
  | EmptyString => (false, start)
  | String c rest' =>
    if utf8.RuneSelf <=? byte c then (true, start)
    else if asciiSpace (byte c) =? 0 then (false, start)
    else TrimSpace_start rest' (S start)
  end.

(** The second loop of TrimSpace: the final [stop], and whether the loop
    left through the non-ASCII return. *)
Fixpoint TrimSpace_stop (s : string) (start stop : nat) : bool * nat :=
  match stop with
  | O => (false, stop)
  | S stop' =>
    if (start <? stop)%nat then
      let c := byte_at s (Z.of_nat stop') in
      if utf8.RuneSelf <=? c then (true, stop)
      else if asciiSpace c =? 0 then (false, stop)
      else TrimSpace_stop s start stop'
    else (false, stop)
  end.

Definition TrimSpace (s : string) : string :=
  let '(non_ascii, start) := TrimSpace_start s 0 in
  if non_ascii then TrimFunc (slice_from s start) unicode.IsSpace else
  let '(non_ascii, stop) := TrimSpace_stop s start (String.length s) in
  if non_ascii then TrimRightFunc (slice s start stop) unicode.IsSpace
  else slice s start stop.

End GoStrings.

(** ** internal/usecases/utils *)

Module utils.

Definition Validate (task : domain.TaskSchema) : option error :=
  if String.eqb (GoStrings.TrimSpace (domain.Title task)) "" then
    Some domain.ErrEmptyTitle
  else None.

End utils.

(** ** internal/usecases: the interface TaskStorage *)

Module TaskStorage.

(** A storage backend with state [R]; each method returns its results and
    the backend's new state. *)
Class TaskStorage (R : Type) : Type := {
  Save : Context -> domain.TaskSchema -> Z -> R -> (Z * option error) * R;
  GetByID : Context -> Z -> R -> (domain.TaskSchema * option error) * R;
  GetAll : Context -> R ->
           (list (domain.Elem domain.TaskSchema) * option error) * R;
  Delete : Context -> Z -> R -> option error * R
}.

End TaskStorage.
Export TaskStorage(TaskStorage).

(** [*storage.InMemory[domain.TaskSchema]] implements the interface (it is
    the backend that cmd/main.go hands to the service). *)
#[export] Instance InMemory_TaskStorage
  : TaskStorage (InMemory.InMemory domain.TaskSchema) := {|
  TaskStorage.Save := InMemory.Save;
  TaskStorage.GetByID := InMemory.GetByID;
  TaskStorage.GetAll := InMemory.GetAll;
  TaskStorage.Delete := InMemory.Delete
|}.

(** ** internal/usecases: type TaskService *)

Module TaskService.

(** The assignments [task.Title = title] and so on. *)
Definition set_Title (title : string) (task : domain.TaskSchema) :=
  {| domain.Title := title;
     domain.Description := domain.Description task;
     domain.IsDone := domain.IsDone task |}.

Definition set_Description (description : string)
  (task : domain.TaskSchema) :=
  {| domain.Title := domain.Title task;
     domain.Description := description;
     domain.IsDone := domain.IsDone task |}.

Definition set_IsDone (isDone : bool) (task : domain.TaskSchema) :=
  {| domain.Title := domain.Title task;
     domain.Description := domain.Description task;
     domain.IsDone := isDone |}.

Section Service.

Context {R : Type} `{TaskStorage R}.

Definition Create (ctx : Context) (title description : string) (repo : R)
  : (domain.Task * option error) * R :=
  let task := {| domain.Title := title;
                 domain.Description := description;
                 domain.IsDone := false |} in
  match utils.Validate task with
  | Some err =>
    ((zero, Some (errors.Errorf_w "validation failed: " err)), repo)
  | None =>
    let '((id, err), repo) := TaskStorage.Save ctx task 0 repo in
    match err with
    | Some err =>
      ((zero, Some (errors.Errorf_w "failed to save task: " err)), repo)
    | None =>
      (({| domain.ID := id; domain.Schema := task |}, None), repo)
    end
  end.

Definition GetByID (ctx : Context) (id : Z) (repo : R)
  : (domain.Task * option error) * R :=
  let '((task, err), repo) := TaskStorage.GetByID ctx id repo in
  match err with
  | Some err => ((zero, Some err), repo)
  | None => (({| domain.ID := id; domain.Schema := task |}, None), repo)
  end.

Definition GetAll (ctx : Context) (repo : R)
  : (list domain.Task * option error) * R :=
  let '((elems, err), repo) := TaskStorage.GetAll ctx repo in
  match err with
  | Some err =>
    (([], Some (errors.Errorf_w "failed to get tasks: " err)), repo)
  | None =>
    let tasks :=
      map (fun elem : domain.Elem domain.TaskSchema =>
             {| domain.ID := domain.Elem_ID elem;
                domain.Schema := domain.Elem_Value elem |}) elems in
    ((tasks, None), repo)
  end.

Definition Update (ctx : Context) (id : Z) (title description : string)
  (isDone : bool) (repo : R) : option error * R :=
  let '((task, err), repo) := TaskStorage.GetByID ctx id repo in
  match err with
  | Some err => (Some err, repo)
  | None =>
    let task := set_Title title task in
    let task := set_Description description task in
    let task := set_IsDone isDone task in
    match utils.Validate task with
    | Some err =>
      (Some (errors.Errorf_w "validation failed: " err), repo)
    | None =>
      let '((_, err), repo) := TaskStorage.Save ctx task id repo in
      match err with
      | Some err =>
        (Some (errors.Errorf_w "failed to update task: " err), repo)
      | None => (None, repo)
      end
    end
  end.

Definition Delete (ctx : Context) (id : Z) (repo : R)
  : option error * R :=
  let '(err, repo) := TaskStorage.Delete ctx id repo in
  match err with
  | Some err => (Some err, repo)
  | None => (None, repo)
  end.

(** A request to the service, and the store after a sequence of them. *)
Inductive Request : Type :=
| ReqCreate (ctx : Context) (title description : string)
| ReqGetByID (ctx : Context) (id : Z)
| ReqGetAll (ctx : Context)
| ReqUpdate (ctx : Context) (id : Z) (title description : string)
            (isDone : bool)
| ReqDelete (ctx : Context) (id : Z).

Definition serve (repo : R) (req : Request) : R :=
  match req with
  | ReqCreate ctx title description =>
    (Create ctx title description repo).2
  | ReqGetByID ctx id => (GetByID ctx id repo).2
  | ReqGetAll ctx => (GetAll ctx repo).2
  | ReqUpdate ctx id title description isDone =>
    (Update ctx id title description isDone repo).2
  | ReqDelete ctx id => (Delete ctx id repo).2
  end.

Definition serve_all (reqs : list Request) (repo : R) : R :=
  fold_left serve reqs repo.

End Service.
End TaskService.

(** ** A recording backend

    The service tests hand the service a mock whose [Save] fails the test
    when "Save should not be called"; [Spy] wraps any backend, forwards
    every call and keeps the list of the calls made, latest first. *)

Module Spy.

Inductive Call : Type :=
| CallSave (task : domain.TaskSchema) (id : Z)
| CallGetByID (id : Z)
| CallGetAll
| CallDelete (id : Z).

Record Spy (R : Type) : Type := {
  inner : R;
  calls : list Call
}.
Arguments inner {R} _.
Arguments calls {R} _.

Definition record {R A : Type} (c : Call) (s : Spy R) (res : A * R)
  : A * Spy R :=
  (res.1, {| inner := res.2; calls := c :: calls s |}).

#[export] Instance Spy_TaskStorage {R : Type} `{TaskStorage R}
  : TaskStorage (Spy R) := {|
  TaskStorage.Save ctx task id s :=
    record (CallSave task id) s (TaskStorage.Save ctx task id (inner s));
  TaskStorage.GetByID ctx id s :=
    record (CallGetByID id) s (TaskStorage.GetByID ctx id (inner s));
  TaskStorage.GetAll ctx s :=
    record CallGetAll s (TaskStorage.GetAll ctx (inner s));
  TaskStorage.Delete ctx id s :=
    record (CallDelete id) s (TaskStorage.Delete ctx id (inner s))
|}.

End Spy.

#[export] Existing Instance Spy.Spy_TaskStorage.

(** ** Package strconv (standard library): ParseUint, as the handlers call it *)

Module strconv.

(** The error kinds of ParseUint. The [*NumError] that ParseUint returns is
    represented by the error it wraps; its function name, its copy of the
    input and its message are not modelled (the handlers drop them). *)
Definition ErrRange : error := errors.errorString "value out of range".
Definition ErrSyntax : error := errors.errorString "invalid syntax".

Definition maxUint64 : Z := 2 ^ 64 - 1.

(** [lower(c)]: [c | ('x' - 'X')] *)
Definition lower (c : Z) : Z := Z.lor c (0x78 - 0x58).

(** The loop [for _, c := range []byte(s)] of ParseUint for a base given
    explicitly (no underscores) and 64 bits; [n] is the value read so far. *)
Fixpoint ParseUint_loop (base cutoff maxVal : Z) (s : string) (n : Z)
  : Z * option error :=
  match s with
  | EmptyString => (n, None)
  | String c0 s' =>
    let c := byte c0 in
    let digit :=
      if (0x30 <=? c) && (c <=? 0x39) then Some (c - 0x30)
      else if (0x61 <=? lower c) && (lower c <=? 0x7A)
           then Some (lower c - 0x61 + 10)
      else None in
    match digit with
    | None => (0, Some ErrSyntax)
    | Some d =>
      if base <=? d then (0, Some ErrSyntax)
      else if cutoff <=? n then (maxVal, Some ErrRange)
      else
        let n := wrap64 (n * base) in
        let n1 := wrap64 (n + d) in
        if (n1 <? n) || (maxVal <? n1) then (maxVal, Some ErrRange)
        else ParseUint_loop base cutoff maxVal s' n1
    end
  end.

(** [ParseUint(s, 10, 64)] *)
Definition ParseUint (s : string) : Z * option error :=
  if String.eqb s "" then (0, Some ErrSyntax) else
  let base := 10 in
  let cutoff := maxUint64 / 10 + 1 in
  let maxVal := 2 ^ 64 - 1 in
  ParseUint_loop base cutoff maxVal s 0.

(** The reading of a string as a decimal numeral, with no bound: the
    reference that ParseUint is compared with. *)
Definition is_digit (c : ascii) : bool :=
  (0x30 <=? byte c) && (byte c <=? 0x39).

Fixpoint all_digits (s : string) : bool :=
  match s with
  | EmptyString => true
  | String c s' => is_digit c && all_digits s'
  end.

Fixpoint decimal_from (n : Z) (s : string) : Z :=
  match s with
  | EmptyString => n
  | String c s' => decimal_from (n * 10 + (byte c - 0x30)) s'
  end.

Definition decimal_value (s : string) : Z := decimal_from 0 s.

End strconv.

(** ** internal/transport/http/dto *)

Module dto.

Record CreateTaskRequest : Type := {
  CreateTaskRequest_Title : string;
  CreateTaskRequest_Description : string
}.

Record UpdateTaskRequest : Type := {
  UpdateTaskRequest_Title : string;
  UpdateTaskRequest_Description : string;
  UpdateTaskRequest_IsDone : bool
}.

Record TaskResponse : Type := {
  TaskResponse_ID : Z;
  TaskResponse_Title : string;
  TaskResponse_Description : string;
  TaskResponse_IsDone : bool
}.

Record TaskListResponse : Type := {
  TaskListResponse_Tasks : list TaskResponse;
  TaskListResponse_Total : Z
}.

Record ErrorResponse : Type := {
  ErrorResponse_Error : string
}.

(** The argument is a pointer: [None] is nil. *)
Definition ToTaskResponse (task : option domain.Task) : TaskResponse :=
  match task with
  | None =>
    {| TaskResponse_ID := 0; TaskResponse_Title := "";
       TaskResponse_Description := ""; TaskResponse_IsDone := false |}
  | Some task =>
    {| TaskResponse_ID := domain.ID task;
       TaskResponse_Title := domain.Title (domain.Schema task);
       TaskResponse_Description := domain.Description (domain.Schema task);
       TaskResponse_IsDone := domain.IsDone (domain.Schema task) |}
  end.

(** The nil slice is the empty list; the source answers nil and the empty
    slice alike, with no tasks and the total 0. *)
Definition ToTaskListResponse (tasks : list domain.Task) : TaskListResponse :=
  match tasks with
  | [] => {| TaskListResponse_Tasks := []; TaskListResponse_Total := 0 |}
  | _ :: _ =>
    let responses := map (fun task => ToTaskResponse (Some task)) tasks in
    {| TaskListResponse_Tasks := responses;
       TaskListResponse_Total := Z.of_nat (length responses) |}
  end.

End dto.

(** ** internal/transport/http/handlers

    The boundary to net/http and encoding/json is modelled by what crosses
    it: of a request, its context, the path value [id] and the outcome of
    decoding its body; of a response, the Content-Type header, the status
    and the value handed to the JSON encoder (which cannot fail on the
    response types). *)

Module handlers.

Definition StatusOK : Z := 200.
Definition StatusCreated : Z := 201.
Definition StatusNoContent : Z := 204.
Definition StatusBadRequest : Z := 400.
Definition StatusNotFound : Z := 404.
Definition StatusInternalServerError : Z := 500.

(** [r.Context()], [r.PathValue("id")], and the struct and error that
    [json.NewDecoder(r.Body).Decode(&req)] leaves. *)
Record Request (B : Type) : Type := {
  Ctx : Context;
  PathValue_id : string;
  Decode : B * option error
}.
Arguments Ctx {B} _.
Arguments PathValue_id {B} _.
Arguments Decode {B} _.

Inductive Body : Type :=
| NoBody
| ErrorBody (e : dto.ErrorResponse)
| TaskBody (t : dto.TaskResponse)
| TaskListBody (l : dto.TaskListResponse).

Record Response : Type := {
  ContentType : option string;
  Status : Z;
  Written : Body
}.

(** The interface TaskService of the handlers; [S] is the service's state. *)
Class TaskService (S : Type) : Type := {
  Create : Context -> string -> string -> S -> (domain.Task * option error) * S;
  GetByID : Context -> Z -> S -> (domain.Task * option error) * S;
  GetAll : Context -> S -> (list domain.Task * option error) * S;
  Update : Context -> Z -> string -> string -> bool -> S -> option error * S;
  Delete : Context -> Z -> S -> option error * S
}.

Definition parseIDFromPath {B : Type} (r : Request B) : Z * option error :=
  let idStr := PathValue_id r in
  if String.eqb idStr "" then
    (0, Some (errors.errorString "task id is required"))
  else
    let '(id, err) := strconv.ParseUint idStr in
    match err with
    | Some _ => (0, Some (errors.errorString "invalid task id format"))
    | None => (id, None)
    end.

Definition writeJSON (data : Body) (status : Z) : Response :=
  {| ContentType := Some "application/json"; Status := status;
     Written := data |}.

(** [w.WriteHeader(status)] on a writer nothing was written to. *)
Definition WriteHeader (status : Z) : Response :=
  {| ContentType := None; Status := status; Written := NoBody |}.

Definition errorJSON (msg : string) (status : Z) : Response :=
  writeJSON (ErrorBody {| dto.ErrorResponse_Error := msg |}) status.

End handlers.

(** The methods of [*TaskHandler]; the handler's state is its service's. *)

Module TaskHandler.
Section Handler.

Context {S : Type} `{handlers.TaskService S}.

Definition Create (r : handlers.Request dto.CreateTaskRequest) (h : S)
  : handlers.Response * S :=
  let '(req, err) := handlers.Decode r in
  match err with
  | Some _ =>
    (handlers.errorJSON "invalid request body" handlers.StatusBadRequest, h)
  | None =>
    let '((task, err), h) :=
      handlers.Create (handlers.Ctx r) (dto.CreateTaskRequest_Title req)
                      (dto.CreateTaskRequest_Description req) h in
    match err with
    | Some err =>
      if errors.Is err domain.ErrEmptyTitle then
        (handlers.errorJSON (errors.Error err) handlers.StatusBadRequest, h)
      else
        (handlers.errorJSON "internal server error"
                            handlers.StatusInternalServerError, h)
    | None =>
      (handlers.writeJSON (handlers.TaskBody (dto.ToTaskResponse (Some task)))
                          handlers.StatusCreated, h)
    end
  end.

Definition GetByID {B : Type} (r : handlers.Request B) (h : S)
  : handlers.Response * S :=
  let '(id, err) := handlers.parseIDFromPath r in
  match err with
  | Some err =>
    (handlers.errorJSON (errors.Error err) handlers.StatusBadRequest, h)
  | None =>
    let '((task, err), h) := handlers.GetByID (handlers.Ctx r) id h in
    match err with
    | Some err =>
      if errors.Is err domain.ErrNotExists then
        (handlers.errorJSON "task not found" handlers.StatusNotFound, h)
      else
        (handlers.errorJSON "internal server error"
                            handlers.StatusInternalServerError, h)
    | None =>
      (handlers.writeJSON (handlers.TaskBody (dto.ToTaskResponse (Some task)))
                          handlers.StatusOK, h)
    end
  end.

Definition GetAll {B : Type} (r : handlers.Request B) (h : S)
  : handlers.Response * S :=
  let '((tasks, err), h) := handlers.GetAll (handlers.Ctx r) h in
  match err with
  | Some _ =>
    (handlers.errorJSON "internal server error"
                        handlers.StatusInternalServerError, h)
  | None =>
    (handlers.writeJSON (handlers.TaskListBody (dto.ToTaskListResponse tasks))
                        handlers.StatusOK, h)
  end.

Definition Update (r : handlers.Request dto.UpdateTaskRequest) (h : S)
  : handlers.Response * S :=
  let '(id, err) := handlers.parseIDFromPath r in
  match err with
  | Some err =>
    (handlers.errorJSON (errors.Error err) handlers.StatusBadRequest, h)
  | None =>
    let '(req, err) := handlers.Decode r in
    match err with
    | Some _ =>
      (handlers.errorJSON "invalid request body" handlers.StatusBadRequest, h)
    | None =>
      let '(err, h) :=
        handlers.Update (handlers.Ctx r) id (dto.UpdateTaskRequest_Title req)
                        (dto.UpdateTaskRequest_Description req)
                        (dto.UpdateTaskRequest_IsDone req) h in
      match err with
      | Some err =>
        if errors.Is err domain.ErrNotExists then
          (handlers.errorJSON "task not found" handlers.StatusNotFound, h)
        else if errors.Is err domain.ErrEmptyTitle then
          (handlers.errorJSON (errors.Error err) handlers.StatusBadRequest, h)
        else
          (handlers.errorJSON "internal server error"
                              handlers.StatusInternalServerError, h)
      | None => (handlers.WriteHeader handlers.StatusNoContent, h)
      end
    end
  end.

Definition Delete {B : Type} (r : handlers.Request B) (h : S)
  : handlers.Response * S :=
  let '(id, err) := handlers.parseIDFromPath r in
  match err with
  | Some err =>
    (handlers.errorJSON (errors.Error err) handlers.StatusBadRequest, h)
  | None =>
    let '(err, h) := handlers.Delete (handlers.Ctx r) id h in
    match err with
    | Some err =>
      if errors.Is err domain.ErrNotExists then
        (handlers.errorJSON "task not found" handlers.StatusNotFound, h)
      else
        (handlers.errorJSON "internal server error"
                            handlers.StatusInternalServerError, h)
    | None => (handlers.WriteHeader handlers.StatusNoContent, h)
    end
  end.

End Handler.
End TaskHandler.

(** [*usecases.TaskService] over a storage backend implements the handlers'
    interface (cmd/main.go hands it to NewTaskHandler). *)
#[export] Instance usecases_TaskService {R : Type} `{TaskStorage R}
  : handlers.TaskService R := {|
  handlers.Create := TaskService.Create;
  handlers.GetByID := TaskService.GetByID;
  handlers.GetAll := TaskService.GetAll;
  handlers.Update := TaskService.Update;
  handlers.Delete := TaskService.Delete
|}.

(** ** The in-memory store under a signal that fires between two calls

    Every storage call reads the context afresh, so a context that is live
    at one storage call of a request can have fired at the next. [Firing] is
    the in-memory store with the number of storage calls that still see the
    caller's context as it is; the calls after them see it cancelled. *)

Module Firing.

Record Firing : Type := {
  store : InMemory.InMemory domain.TaskSchema;
  live_calls : nat
}.

Definition seen (ctx : Context) (f : Firing) : Context :=
  match live_calls f with
  | O => context.WithCancel_cancelled
  | S _ => ctx
  end.

Definition after {A : Type} (f : Firing)
  (res : A * InMemory.InMemory domain.TaskSchema) : A * Firing :=
  (res.1, {| store := res.2; live_calls := Nat.pred (live_calls f) |}).

#[export] Instance Firing_TaskStorage : TaskStorage Firing := {|
  TaskStorage.Save ctx task id f :=
    after f (InMemory.Save (seen ctx f) task id (store f));
  TaskStorage.GetByID ctx id f :=
    after f (InMemory.GetByID (seen ctx f) id (store f));
  TaskStorage.GetAll ctx f :=
    after f (InMemory.GetAll (seen ctx f) (store f));
  TaskStorage.Delete ctx id f :=
    after f (InMemory.Delete (seen ctx f) id (store f))
|}.

End Firing.

#[export] Existing Instance Firing.Firing_TaskStorage.

(** ** The identifiers a sequence of requests hands out

    The identifiers that the successful Create requests of a sequence
    return, in the order of the requests. *)
Fixpoint created_ids {R : Type} `{TaskStorage R}
  (reqs : list TaskService.Request) (repo : R) : list Z :=
  match reqs with
  | [] => []
  | req :: reqs' =>
    let rest := created_ids reqs' (TaskService.serve repo req) in
    match req with
    | TaskService.ReqCreate ctx title description =>
      match (TaskService.Create ctx title description repo).1 with
      | (task, None) => domain.ID task :: rest
      | (_, Some _) => rest
      end
    | _ => rest
    end
  end.

(** ** Sample data for the worked instances *)

Definition milk : domain.TaskSchema :=
  {| domain.Title := "Buy milk"; domain.Description := "2 l";
     domain.IsDone := false |}.

Definition bob : domain.TaskSchema :=
  {| domain.Title := "Call Bob"; domain.Description := "";
     domain.IsDone := true |}.

(** The store of a process that has just started. *)
Definition fresh : InMemory.InMemory domain.TaskSchema := InMemory.NewInMemory.

(** Sample requests: POST /todos with a task, and a request without a body
    for the path value "1". *)
Definition post_milk : handlers.Request dto.CreateTaskRequest :=
  {| handlers.Ctx := context.Background;
     handlers.PathValue_id := "";
     handlers.Decode :=
       ({| dto.CreateTaskRequest_Title := "Buy milk";
           dto.CreateTaskRequest_Description := "2 l" |}, None) |}.

Definition at_1 : handlers.Request unit :=
  {| handlers.Ctx := context.Background;
     handlers.PathValue_id := "1";
     handlers.Decode := (tt, None) |}.

(** PUT /todos/1 with the record [bob]. *)
Definition put_bob_at_1 : handlers.Request dto.UpdateTaskRequest :=
  {| handlers.Ctx := context.Background;
     handlers.PathValue_id := "1";
     handlers.Decode :=
       ({| dto.UpdateTaskRequest_Title := "Call Bob";
           dto.UpdateTaskRequest_Description := "";
           dto.UpdateTaskRequest_IsDone := true |}, None) |}.

(** The store after one task was saved with an auto-assigned identifier. *)
Definition one_task : InMemory.InMemory domain.TaskSchema :=
  (InMemory.Save context.Background milk 0 fresh).2.

(** * Properties of the storage engine *)

Section StorageFacts.

Context {V : Type} `{GoZero V}.
Implicit Types (m : InMemory.InMemory V) (ctx : Context) (v : V) (id : Z).

Lemma wrap64_range z : is_uint64 (wrap64 z).
Proof. unfold is_uint64, wrap64, uint64_modulus. apply Z.mod_pos_bound. lia. Qed.

Lemma wrap64_small z : is_uint64 z -> wrap64 z = z.
Proof. unfold is_uint64, wrap64. intros Hz. apply Z.mod_small. exact Hz. Qed.

Lemma wrap64_add_l a b : wrap64 (wrap64 a + b) = wrap64 (a + b).
Proof. unfold wrap64. apply Zplus_mod_idemp_l. Qed.

(** Save with a live context and [id = 0]: the counter's value is the
    identifier, and the counter advances (modulo 2^64). *)
Lemma Save_auto ctx v m :
  context.Err ctx = None ->
  InMemory.Save ctx v 0 m
  = ((InMemory.serialID m, None),
     {| InMemory.serialID := wrap64 (InMemory.serialID m + 1);
        InMemory.data := <[InMemory.serialID m := v]> (InMemory.data m) |}).
Proof. intros Hctx. unfold InMemory.Save. rewrite Hctx. reflexivity. Qed.

(** Save with a live context and an identifier other than 0: an upsert at
    that identifier, the counter untouched. *)
Lemma Save_explicit ctx v id m :
  context.Err ctx = None -> id <> 0 ->
  InMemory.Save ctx v id m
  = ((id, None),
     {| InMemory.serialID := InMemory.serialID m;
        InMemory.data := <[id := v]> (InMemory.data m) |}).
Proof.
  intros Hctx Hid. unfold InMemory.Save. rewrite Hctx.
  destruct (Z.eqb_spec id 0) as [E | _]; [contradiction | reflexivity].
Qed.

Lemma GetByID_live ctx id m :
  context.Err ctx = None ->
  InMemory.GetByID ctx id m
  = (match InMemory.data m !! id with
     | Some value => (value, None)
     | None => (zero, Some domain.ErrNotExists)
     end, m).
Proof.
  intros Hctx. unfold InMemory.GetByID. rewrite Hctx.
  destruct (InMemory.data m !! id); reflexivity.
Qed.

Lemma Delete_live ctx id m :
  context.Err ctx = None ->
  InMemory.Delete ctx id m
  = match InMemory.data m !! id with
    | Some _ =>
      (None, {| InMemory.serialID := InMemory.serialID m;
                InMemory.data := delete id (InMemory.data m) |})
    | None => (Some domain.ErrNotExists, m)
    end.
Proof. intros Hctx. unfold InMemory.Delete. rewrite Hctx. reflexivity. Qed.

(** The identifiers of a run of auto-assigned Saves from any store whose
    counter is a uint64: the counter's values [s, s+1, ...] modulo 2^64;
    every call succeeds, and the counter ends at [s + N] modulo 2^64. *)
Lemma auto_saves_results (calls : list (Context * V)) : forall m,
  Forall (fun c => context.Err c.1 = None) calls ->
  is_uint64 (InMemory.serialID m) ->
  (InMemory.auto_saves calls m).1
  = map (fun k => (wrap64 (InMemory.serialID m + k), None))
        (seqZ 0 (Z.of_nat (length calls)))
  /\ InMemory.serialID (InMemory.auto_saves calls m).2
     = wrap64 (InMemory.serialID m + Z.of_nat (length calls)).
Proof.
  induction calls as [| [ctx v] calls IH]; intros m Hlive Hs.
  - simpl. rewrite Z.add_0_r, wrap64_small by exact Hs. split; reflexivity.
  - inversion Hlive as [| c cs Hctx Hrest]; subst. simpl in Hctx.
    cbn [InMemory.auto_saves]. rewrite (Save_auto ctx v m Hctx).
    set (m1 := {| InMemory.serialID := wrap64 (InMemory.serialID m + 1);
                  InMemory.data := _ |}).
    destruct (IH m1 Hrest (wrap64_range _)) as [IHr IHs].
    destruct (InMemory.auto_saves calls m1) as [rs m2] eqn:Eruns.
    simpl in IHr, IHs. simpl fst. simpl snd. split.
    + rewrite IHr. cbn [length].
      rewrite (seqZ_cons 0 (Z.of_nat (S (length calls)))) by lia.
      replace (Z.pred (Z.of_nat (S (length calls))))
        with (Z.of_nat (length calls)) by lia.
      change (Z.succ 0) with (1 + 0).
      rewrite <- (fmap_add_seqZ 1 0 (Z.of_nat (length calls))).
      cbn [map]. rewrite Z.add_0_r.
      rewrite (wrap64_small (InMemory.serialID m)) by exact Hs. f_equal.
      change (Z.add 1 <$> seqZ 0 (Z.of_nat (length calls)))
        with (map (Z.add 1) (seqZ 0 (Z.of_nat (length calls)))).
      rewrite map_map.
      apply map_ext. intros k. f_equal. subst m1. simpl InMemory.serialID.
      rewrite wrap64_add_l. f_equal. lia.
    + rewrite IHs. subst m1. simpl InMemory.serialID.
      rewrite wrap64_add_l. f_equal. cbn [length]. lia.
Qed.

(** The counter is cyclic: from [s] it stands at [id] after
    [(id - s) mod 2^64] steps. *)
Lemma counter_reaches id s :
  is_uint64 id -> is_uint64 s ->
  wrap64 (s + Z.of_nat (Z.to_nat (wrap64 (id - s)))) = id.
Proof.
  intros Hid Hs. pose proof (wrap64_range (id - s)) as Hr.
  rewrite Z2Nat.id by (unfold is_uint64 in Hr; lia).
  unfold wrap64. rewrite Zplus_mod_idemp_r.
  replace (s + (id - s)) with id by lia.
  apply Z.mod_small. exact Hid.
Qed.

Lemma seqZ_StronglySorted (n : nat) : forall a,
  StronglySorted Z.lt (seqZ a (Z.of_nat n)).
Proof.
  induction n as [| n IH]; intros a.
  - rewrite seqZ_nil by lia. constructor.
  - rewrite seqZ_cons by lia.
    replace (Z.pred (Z.of_nat (S n))) with (Z.of_nat n) by lia.
    constructor; [apply IH |].
    apply Forall_seqZ. intros k Hk. lia.
Qed.

(** C1. On a freshly constructed store, N auto-assigned Saves (id = 0, the
    contexts live, N below 2^64, the range of the uint64 counter) all
    succeed and return 1, 2, ..., N in issuance order: the identifiers are
    pairwise distinct, strictly increasing, and the first one is 1. *)
Theorem auto_assigned_ids_on_fresh_store (calls : list (Context * V)) :
  Forall (fun c => context.Err c.1 = None) calls ->
  Z.of_nat (length calls) < uint64_modulus ->
  let results := (InMemory.auto_saves calls InMemory.NewInMemory).1 in
  let ids := map fst results in
  Forall (fun r => r.2 = None) results /\
  ids = seqZ 1 (Z.of_nat (length calls)) /\
  NoDup ids /\
  StronglySorted Z.lt ids /\
  (calls <> [] -> head ids = Some 1).
Proof.
  intros Hlive Hbound results ids.
  assert (Hone : is_uint64 (InMemory.serialID (@InMemory.NewInMemory V)))
    by (unfold is_uint64, uint64_modulus; simpl; lia).
  destruct (auto_saves_results calls InMemory.NewInMemory Hlive Hone)
    as [Hres _].
  fold results in Hres. simpl InMemory.serialID in Hres.
  assert (Hids : ids = seqZ 1 (Z.of_nat (length calls))).
  { unfold ids. rewrite Hres, map_map. cbn [fst].
    transitivity (map (Z.add 1) (seqZ 0 (Z.of_nat (length calls))));
      [| exact (fmap_add_seqZ 1 0 (Z.of_nat (length calls)))].
    apply map_ext_in. intros k Hk.
    apply list_elem_of_In, elem_of_seqZ in Hk.
    apply wrap64_small. unfold is_uint64. lia. }
  split; [| split; [exact Hids | split; [| split]]].
  - rewrite Hres. apply Forall_forall. intros r Hr.
    apply list_elem_of_In, in_map_iff in Hr.
    destruct Hr as [k [<- _]]. reflexivity.
  - rewrite Hids. apply NoDup_seqZ.
  - rewrite Hids. apply seqZ_StronglySorted.
  - intros Hne. rewrite Hids. destruct calls as [| c calls']; [contradiction |].
    rewrite seqZ_cons by (cbn [length]; lia). reflexivity.
Qed.

(** C2. Called with a context that has already fired, each of Save,
    GetByID, GetAll and Delete fails with the context's error, which is
    Canceled or DeadlineExceeded, and returns the store as it was: the
    map and the sequence counter are unchanged. *)
Theorem fired_context_fails_and_keeps_store ctx e v id m :
  context.Err ctx = Some e ->
  (e = errors.Canceled \/ e = errors.DeadlineExceeded) /\
  InMemory.Save ctx v id m = ((0, Some e), m) /\
  InMemory.GetByID ctx id m = ((zero, Some e), m) /\
  InMemory.GetAll ctx m = (([], Some e), m) /\
  InMemory.Delete ctx id m = (Some e, m).
Proof.
  intros Hfired.
  unfold InMemory.Save, InMemory.GetByID, InMemory.GetAll, InMemory.Delete.
  rewrite Hfired. repeat split; try reflexivity.
  destruct ctx; simpl in Hfired; inversion Hfired; auto.
Qed.

(** C4. For every value, every identifier other than 0 and every prior
    store, whether or not the identifier is present, Save (live context)
    succeeds and returns the identifier, and a GetByID of it that follows
    immediately (live context) returns the value. *)
Theorem Save_then_GetByID ctx ctx' v id m :
  id <> 0 ->
  context.Err ctx = None ->
  context.Err ctx' = None ->
  (InMemory.Save ctx v id m).1 = (id, None) /\
  InMemory.GetByID ctx' id (InMemory.Save ctx v id m).2
  = ((v, None), (InMemory.Save ctx v id m).2).
Proof.
  intros Hid Hctx Hctx'. rewrite (Save_explicit ctx v id m Hctx Hid).
  split; [reflexivity |].
  rewrite (GetByID_live ctx' id _ Hctx'). simpl.
  rewrite lookup_insert_eq. reflexivity.
Qed.

(** C8. In a store where the identifier is present, Delete (live context)
    succeeds; after it GetByID of the identifier fails with NotFound and a
    second Delete of it fails with NotFound too. *)
Theorem Delete_is_final ctx ctx1 ctx2 id m :
  is_Some (InMemory.data m !! id) ->
  context.Err ctx = None ->
  context.Err ctx1 = None ->
  context.Err ctx2 = None ->
  let m' := (InMemory.Delete ctx id m).2 in
  (InMemory.Delete ctx id m).1 = None /\
  InMemory.GetByID ctx1 id m' = ((zero, Some domain.ErrNotExists), m') /\
  InMemory.Delete ctx2 id m' = (Some domain.ErrNotExists, m').
Proof.
  intros [v Hv] Hctx Hctx1 Hctx2 m'. subst m'.
  rewrite (Delete_live ctx id m Hctx), Hv. simpl.
  split; [reflexivity |].
  rewrite (GetByID_live ctx1 id _ Hctx1), (Delete_live ctx2 id _ Hctx2).
  simpl. rewrite lookup_delete_eq. split; reflexivity.
Qed.

(** C9. For every identifier other than 0 and every store, Save (live
    context) returns the identifier, puts the value at exactly that key
    (the map is the old map with that one key set) and leaves the sequence
    counter as it was. The counter therefore still reaches the identifier:
    after (id - serialID) mod 2^64 further auto-assigned Saves, none when
    the counter stands at id, the next auto-assigned Save returns the same
    identifier and overwrites the record. *)
Theorem explicit_Save_keeps_counter ctx v id m :
  id <> 0 ->
  context.Err ctx = None ->
  let m' := (InMemory.Save ctx v id m).2 in
  (InMemory.Save ctx v id m).1 = (id, None) /\
  InMemory.data m' = <[id := v]> (InMemory.data m) /\
  InMemory.serialID m' = InMemory.serialID m /\
  (is_uint64 id -> is_uint64 (InMemory.serialID m) ->
   forall ctx' w, context.Err ctx' = None ->
     let n := Z.to_nat (wrap64 (id - InMemory.serialID m)) in
     let later := (InMemory.auto_saves (replicate n (ctx', w)) m').2 in
     (InMemory.Save ctx' w 0 later).1 = (id, None) /\
     InMemory.data (InMemory.Save ctx' w 0 later).2 !! id = Some w).
Proof.
  intros Hid Hctx m'. subst m'.
  rewrite (Save_explicit ctx v id m Hctx Hid). simpl.
  split; [reflexivity | split; [reflexivity | split; [reflexivity |]]].
  intros Hrange Hs ctx' w Hctx'.
  set (m' := {| InMemory.serialID := InMemory.serialID m;
                InMemory.data := <[id := v]> (InMemory.data m) |}).
  set (calls := replicate _ (ctx', w)).
  assert (Hlive : Forall (fun c : Context * V => context.Err c.1 = None)
                         calls).
  { apply Forall_forall. intros c Hc.
    apply elem_of_replicate in Hc as [-> _]. exact Hctx'. }
  destruct (auto_saves_results calls m' Hlive Hs) as [_ Hlater].
  rewrite (Save_auto ctx' w _ Hctx'). simpl.
  assert (Hreach : InMemory.serialID (InMemory.auto_saves calls m').2 = id).
  { rewrite Hlater. unfold calls. rewrite length_replicate.
    apply counter_reaches; assumption. }
  rewrite Hreach. split; [reflexivity | apply lookup_insert_eq].
Qed.

End StorageFacts.

(** * Properties of validation

    Validate accepts a title exactly when TrimSpace leaves something of it,
    which is exactly when the title holds a rune that is not white space
    ([TrimSpace_nonempty_iff], [Validate_accepts_iff]). *)

Section ValidationFacts.

Lemma byte_range c : 0 <= byte c < 256.
Proof.
  unfold byte. pose proof (N_ascii_bounded c) as Hb. lia.
Qed.

(** A byte below [RuneSelf] is a rune of width one. *)
Lemma DecodeRuneInString_ascii c rest :
  byte c < utf8.RuneSelf ->
  utf8.DecodeRuneInString (String c rest) = (byte c, 1%nat).
Proof.
  intros Hc. unfold utf8.DecodeRuneInString, utf8.RuneSelf in *.
  cbn [String.length Nat.ltb Nat.leb].
  change (byte_at (String c rest) 0) with (byte c).
  unfold utf8.first.
  destruct (Z.ltb_spec (byte c) 0x80) as [_ | Hge]; [reflexivity | lia].
Qed.

(** The runes that a range loop yields do not depend on the offset it
    starts to count from. *)
Lemma range_loop_runes fuel : forall i j rest,
  map snd (GoStrings.range_loop fuel i rest)
  = map snd (GoStrings.range_loop fuel j rest).
Proof.
  induction fuel as [| fuel IH]; intros i j rest; [reflexivity |].
  cbn [GoStrings.range_loop]. destruct rest as [| c rest']; [reflexivity |].
  destruct (utf8.DecodeRuneInString (String c rest')) as [r size].
  cbn [map snd]. f_equal. apply IH.
Qed.

Lemma runes_ascii c rest :
  byte c < utf8.RuneSelf ->
  GoStrings.runes (String c rest) = byte c :: GoStrings.runes rest.
Proof.
  intros Hc. unfold GoStrings.runes, GoStrings.range.
  cbn [String.length GoStrings.range_loop].
  rewrite (DecodeRuneInString_ascii c rest Hc).
  cbn [map snd slice_from]. f_equal. apply range_loop_runes.
Qed.

Lemma first_index_found f truth (l : list (nat * Z)) :
  GoStrings.first_index f truth l <> -1 ->
  exists r, In r (map snd l) /\ f r = truth.
Proof.
  induction l as [| [i r] l IH]; cbn [GoStrings.first_index]; intros Hne.
  - contradiction.
  - destruct (Bool.eqb (f r) truth) eqn:E.
    + exists r. split; [left; reflexivity | apply Bool.eqb_prop, E].
    + destruct (IH Hne) as [r' [Hin Hr']]. exists r'.
      split; [right; exact Hin | exact Hr'].
Qed.

Lemma TrimRightFunc_empty f : GoStrings.TrimRightFunc "" f = "".
Proof. reflexivity. Qed.

(** What TrimFunc leaves is empty unless some rune fails the predicate. *)
Lemma TrimFunc_nonempty s f :
  GoStrings.TrimFunc s f <> "" ->
  exists r, In r (GoStrings.runes s) /\ f r = false.
Proof.
  unfold GoStrings.TrimFunc, GoStrings.TrimLeftFunc, GoStrings.indexFunc.
  intros Hne.
  destruct (Z.eqb_spec (GoStrings.first_index f false (GoStrings.range s))
                       (-1)) as [E | E].
  - rewrite TrimRightFunc_empty in Hne. contradiction.
  - apply first_index_found in E. exact E.
Qed.

Lemma ascii_non_space c :
  byte c < utf8.RuneSelf -> GoStrings.asciiSpace (byte c) = 0 ->
  unicode.IsSpace (byte c) = false.
Proof.
  unfold utf8.RuneSelf, GoStrings.asciiSpace, unicode.IsSpace,
    unicode.MaxLatin1.
  intros Hc Hsp. pose proof (byte_range c) as Hb.
  destruct (Z.leb_spec (byte c) 255) as [_ | Hgt]; [| lia].
  destruct (Z.eqb_spec (byte c) 9); [discriminate |].
  destruct (Z.eqb_spec (byte c) 10); [discriminate |].
  destruct (Z.eqb_spec (byte c) 11); [discriminate |].
  destruct (Z.eqb_spec (byte c) 12); [discriminate |].
  destruct (Z.eqb_spec (byte c) 13); [discriminate |].
  destruct (Z.eqb_spec (byte c) 32); [discriminate |].
  destruct (Z.eqb_spec (byte c) 133); [lia |].
  destruct (Z.eqb_spec (byte c) 160); [lia |].
  reflexivity.
Qed.

(** The first loop of TrimSpace skips [k] bytes; the runes of what is left
    are runes of the string, and unless the loop met a non-ASCII byte, what
    is left is empty or begins with an ASCII byte that is not a space. *)
Lemma TrimSpace_start_spec rest : forall start non_ascii start',
  GoStrings.TrimSpace_start rest start = (non_ascii, start') ->
  exists k : nat,
    start' = (start + k)%nat /\
    (forall r, In r (GoStrings.runes (slice_from rest k)) ->
               In r (GoStrings.runes rest)) /\
    (non_ascii = false ->
     (slice_from rest k = "" /\ k = String.length rest) \/
     exists c t, slice_from rest k = String c t /\
                 byte c < utf8.RuneSelf /\
                 GoStrings.asciiSpace (byte c) = 0).
Proof.
  induction rest as [| c rest' IH]; intros start non_ascii start' Hloop;
    cbn [GoStrings.TrimSpace_start] in Hloop.
  - inversion Hloop; subst. exists 0%nat.
    split; [lia | split; [auto |]]. intros _. left. split; reflexivity.
  - destruct (Z.leb_spec utf8.RuneSelf (byte c)) as [Hhigh | Hlow].
    + inversion Hloop; subst. exists 0%nat.
      split; [lia | split; [auto | discriminate]].
    + destruct (Z.eqb_spec (GoStrings.asciiSpace (byte c)) 0) as [Hsp | Hsp].
      * inversion Hloop; subst. exists 0%nat.
        split; [lia | split; [auto |]]. intros _. right.
        exists c, rest'. cbn [slice_from]. auto.
      * destruct (IH _ _ _ Hloop) as [k [Hk [Hrunes Hleft]]].
        exists (S k). split; [lia |]. cbn [slice_from String.length].
        split.
        -- intros r Hr. rewrite (runes_ascii c rest' Hlow).
           right. apply Hrunes, Hr.
        -- intros Hna. destruct (Hleft Hna) as [[He Hlen] | Hc].
           ++ left. split; [exact He | congruence].
           ++ right. exact Hc.
Qed.

Lemma TrimSpace_stop_at_start s start stop :
  (stop <= start)%nat ->
  GoStrings.TrimSpace_stop s start stop = (false, stop).
Proof.
  intros Hle. destruct stop as [| stop']; [reflexivity |].
  cbn [GoStrings.TrimSpace_stop].
  destruct (Nat.ltb_spec start (S stop')) as [Hlt | _]; [lia | reflexivity].
Qed.

Lemma slice_empty s i : slice s i i = "".
Proof.
  unfold slice. rewrite Nat.sub_diag. reflexivity.
Qed.

(** A string whose trimmed form is not empty holds a rune that is not
    white space. *)
Lemma TrimSpace_nonempty_has_non_space s :
  GoStrings.TrimSpace s <> "" ->
  exists r, In r (GoStrings.runes s) /\ unicode.IsSpace r = false.
Proof.
  unfold GoStrings.TrimSpace.
  destruct (GoStrings.TrimSpace_start s 0) as [non_ascii start] eqn:Estart.
  destruct (TrimSpace_start_spec s 0 non_ascii start Estart)
    as [k [Hk [Hrunes Hleft]]].
  simpl in Hk. subst start. destruct non_ascii.
  - intros Hne. apply TrimFunc_nonempty in Hne.
    destruct Hne as [r [Hin Hr]]. exists r. split; [apply Hrunes, Hin | exact Hr].
  - destruct (Hleft eq_refl) as [[He Hlen] | [c [t [Hsuf [Hlow Hsp]]]]].
    + subst k. rewrite TrimSpace_stop_at_start by lia.
      rewrite slice_empty. intros Hne. contradiction.
    + intros _. exists (byte c). split.
      * apply Hrunes. rewrite Hsuf, (runes_ascii c t Hlow). left. reflexivity.
      * apply ascii_non_space; assumption.
Qed.

Lemma Validate_ok_iff task :
  utils.Validate task = None <->
  GoStrings.TrimSpace (domain.Title task) <> "".
Proof.
  unfold utils.Validate.
  destruct (String.eqb_spec (GoStrings.TrimSpace (domain.Title task)) "")
    as [E | E]; split; intros Hv; try congruence; try reflexivity.
Qed.

Lemma Validate_error task err :
  utils.Validate task = Some err -> err = domain.ErrEmptyTitle.
Proof.
  unfold utils.Validate.
  destruct (String.eqb _ _); intros Hv; inversion Hv; reflexivity.
Qed.

(** ** The decoders consume what they should *)

Lemma first_cases b :
  In (utf8.first b)
     [utf8.as_; utf8.xx; utf8.s1; utf8.s2; utf8.s3; utf8.s4; utf8.s5;
      utf8.s6; utf8.s7].
Proof.
  unfold utf8.first.
  repeat match goal with
         | |- context [if ?t then _ else _] => destruct t
         end; simpl; tauto.
Qed.

(** Splits on the code of the first byte and evaluates what the decoder
    reads off the code: the class, the width, the accepted range. *)
Ltac first_byte_cases b :=
  let E := fresh "Efirst" in
  destruct (first_cases b)
    as [E | [E | [E | [E | [E | [E | [E | [E | [E | []]]]]]]]]];
  rewrite <- ?E;
  repeat match goal with
         | |- context [utf8.as_ <=? ?x] =>
           let v := eval vm_compute in (utf8.as_ <=? x) in
           change (utf8.as_ <=? x) with v
         | |- context [?x =? utf8.xx] =>
           let v := eval vm_compute in (x =? utf8.xx) in
           change (x =? utf8.xx) with v
         | |- context [Z.to_nat (Z.land ?x 7)] =>
           let v := eval vm_compute in (Z.to_nat (Z.land x 7)) in
           change (Z.to_nat (Z.land x 7)) with v
         | |- context [utf8.acceptRanges (Z.shiftr ?x 4)] =>
           let v := eval vm_compute in (utf8.acceptRanges (Z.shiftr x 4)) in
           change (utf8.acceptRanges (Z.shiftr x 4)) with v
         end;
  cbn [fst snd];
  change (2 <=? 2)%nat with true; change (3 <=? 2)%nat with false;
  change (4 <=? 2)%nat with false; change (3 <=? 3)%nat with true;
  change (4 <=? 3)%nat with false;
  cbv iota.

(** Splits on the remaining tests, turning the tests on lengths into
    inequalities. *)
Ltac case_tests :=
  repeat match goal with
         | |- context [(?n <? ?k)%nat] => destruct (Nat.ltb_spec n k)
         | |- context [if ?t then _ else _] => destruct t eqn:?
         end.

(** A non-empty string yields a rune of width at least one, at most four,
    and at most the string's length. *)
Lemma DecodeRuneInString_size s :
  s <> "" ->
  (1 <= (utf8.DecodeRuneInString s).2 <= String.length s)%nat /\
  ((utf8.DecodeRuneInString s).2 <= 4)%nat.
Proof.
  intros Hne.
  assert (Hn : (1 <= String.length s)%nat)
    by (destruct s; [contradiction | cbn [String.length]; lia]).
  unfold utf8.DecodeRuneInString. cbv zeta.
  destruct (Nat.ltb_spec (String.length s) 1) as [Hlt | _]; [lia |].
  first_byte_cases (byte_at s 0); case_tests; cbn [snd]; lia.
Qed.

Lemma slice_from_length s : forall k,
  String.length (slice_from s k) = (String.length s - k)%nat.
Proof.
  induction s as [| c s IH]; intros [| k]; cbn [slice_from String.length];
    try reflexivity.
  apply IH.
Qed.

Lemma slice_from_add s : forall a b,
  slice_from (slice_from s a) b = slice_from s (a + b).
Proof.
  induction s as [| c s IH]; intros [| a] b; cbn [slice_from Nat.add];
    try reflexivity.
  - destruct b; reflexivity.
  - apply IH.
Qed.

Lemma slice_to_length s : forall k,
  String.length (slice_to s k) = Nat.min k (String.length s).
Proof.
  induction s as [| c s IH]; intros [| k];
    cbn [slice_to String.length Nat.min]; try reflexivity.
  f_equal. apply IH.
Qed.

Lemma slice_to_all s : forall k,
  (String.length s <= k)%nat -> slice_to s k = s.
Proof.
  induction s as [| c s IH]; intros [| k] Hk;
    cbn [slice_to String.length] in *; try reflexivity; try lia.
  f_equal. apply IH. lia.
Qed.

Lemma get_slice_to s : forall k j,
  (j < k)%nat -> String.get j (slice_to s k) = String.get j s.
Proof.
  induction s as [| c s IH]; intros [| k] [| j] Hj;
    cbn [slice_to String.get]; try reflexivity; try lia.
  apply IH. lia.
Qed.

Lemma byte_at_slice_to s k j :
  0 <= j < Z.of_nat k -> byte_at (slice_to s k) j = byte_at s j.
Proof.
  intros Hj. unfold byte_at. rewrite get_slice_to by lia. reflexivity.
Qed.

Lemma length_zero_empty s : String.length s = 0%nat -> s = "".
Proof. destruct s; [reflexivity | discriminate]. Qed.

Lemma nonempty_length s : s <> "" <-> (1 <= String.length s)%nat.
Proof.
  destruct s; cbn [String.length]; split; intros Hs; try lia; congruence.
Qed.

(** ** The fuel of the loops is enough *)

(** With fuel for every byte a range loop reads the whole string: more fuel
    changes nothing. *)
Lemma range_loop_fuel fuel1 : forall fuel2 i rest,
  (String.length rest <= fuel1)%nat ->
  (String.length rest <= fuel2)%nat ->
  GoStrings.range_loop fuel1 i rest = GoStrings.range_loop fuel2 i rest.
Proof.
  induction fuel1 as [| fuel1 IH]; intros [| fuel2] i rest H1 H2;
    destruct rest as [| c rest']; cbn [String.length] in *;
    try reflexivity; try lia.
  cbn [GoStrings.range_loop].
  destruct (DecodeRuneInString_size (String c rest')) as [[Hlo Hhi] _];
    [discriminate |].
  destruct (utf8.DecodeRuneInString (String c rest')) as [r size].
  cbn [snd] in Hlo, Hhi. f_equal.
  apply IH; rewrite slice_from_length; cbn [String.length]; lia.
Qed.

(** What a range loop yields at offset [i0 + k] is the rune that begins at
    byte [k]. *)
Lemma range_loop_spec fuel : forall i0 rest i r,
  In (i, r) (GoStrings.range_loop fuel i0 rest) ->
  exists k : nat,
    i = (i0 + k)%nat /\ (k < String.length rest)%nat /\
    (utf8.DecodeRuneInString (slice_from rest k)).1 = r.
Proof.
  induction fuel as [| fuel IH]; intros i0 rest i r Hin;
    cbn [GoStrings.range_loop] in Hin; [contradiction |].
  destruct rest as [| c rest']; [contradiction |].
  destruct (DecodeRuneInString_size (String c rest')) as [[Hlo Hhi] _];
    [discriminate |].
  destruct (utf8.DecodeRuneInString (String c rest')) as [r0 size] eqn:Edec.
  cbn [snd] in Hlo, Hhi. destruct Hin as [Hhead | Htail].
  - inversion Hhead; subst. exists 0%nat. cbn [slice_from String.length].
    rewrite Edec. split; [lia | split; [lia | reflexivity]].
  - destruct (IH _ _ _ _ Htail) as [k [Hi [Hk Hr]]].
    rewrite slice_from_length in Hk. rewrite slice_from_add in Hr.
    exists (size + k)%nat. split; [lia | split; [lia | exact Hr]].
Qed.

Lemma first_index_spec f truth (l : list (nat * Z)) :
  GoStrings.first_index f truth l <> -1 ->
  exists i r, In (i, r) l /\ f r = truth /\
              GoStrings.first_index f truth l = Z.of_nat i.
Proof.
  induction l as [| [i r] l IH]; cbn [GoStrings.first_index]; intros Hne.
  - contradiction.
  - destruct (Bool.eqb (f r) truth) eqn:E.
    + exists i, r. split; [left; reflexivity |].
      split; [apply Bool.eqb_prop, E | reflexivity].
    + destruct (IH Hne) as [i' [r' [Hin [Hr' Hidx]]]]. exists i', r'.
      split; [right; exact Hin | split; [exact Hr' | exact Hidx]].
Qed.

Lemma first_index_none f truth (l : list (nat * Z)) :
  GoStrings.first_index f truth l = -1 ->
  forall r, In r (map snd l) -> f r = negb truth.
Proof.
  induction l as [| [i r] l IH]; cbn [GoStrings.first_index map snd];
    intros Hnone r' Hin; [contradiction |].
  destruct (Bool.eqb (f r) truth) eqn:E; [lia |].
  destruct Hin as [<- | Hin]; [| exact (IH Hnone r' Hin)].
  apply Bool.eqb_false_iff in E. destruct (f r), truth; cbn; congruence.
Qed.

Lemma IsSpace_RuneError : unicode.IsSpace utf8.RuneError = false.
Proof. reflexivity. Qed.

(** A white-space rune that the decoder reads from the first [k] bytes of a
    string, all [k] of them, is the rune it reads from the whole string. *)
Lemma DecodeRuneInString_prefix t k r :
  unicode.IsSpace r = true ->
  utf8.DecodeRuneInString (slice_to t k) = (r, k) ->
  utf8.DecodeRuneInString t = (r, k).
Proof.
  intros Hsp Hdec.
  assert (Hne : slice_to t k <> "").
  { intros He. rewrite He in Hdec. cbn in Hdec. inversion Hdec; subst.
    rewrite IsSpace_RuneError in Hsp. discriminate. }
  destruct (DecodeRuneInString_size _ Hne) as [[Hlo Hhi] H4].
  rewrite Hdec in Hlo, Hhi, H4. cbn [snd] in Hlo, Hhi, H4.
  rewrite slice_to_length in Hhi.
  assert (Hlen : String.length (slice_to t k) = k)
    by (rewrite slice_to_length; lia).
  assert (Hk : (k <= String.length t)%nat) by lia.
  revert Hdec. unfold utf8.DecodeRuneInString. cbv zeta. rewrite Hlen.
  rewrite (byte_at_slice_to t k 0) by lia.
  destruct (Nat.ltb_spec k 1) as [Hlt | _]; [lia |].
  destruct (Nat.ltb_spec (String.length t) 1) as [Hlt | _]; [lia |].
  assert (Hcases : k = 1%nat \/ k = 2%nat \/ k = 3%nat \/ k = 4%nat) by lia.
  destruct Hcases as [-> | [-> | [-> | ->]]];
    rewrite ?(byte_at_slice_to t _ 1) by lia;
    rewrite ?(byte_at_slice_to t _ 2) by lia;
    rewrite ?(byte_at_slice_to t _ 3) by lia;
    first_byte_cases (byte_at t 0); case_tests;
    intros Hdec; inversion Hdec; subst;
    try reflexivity; try lia;
    try (rewrite IsSpace_RuneError in Hsp; discriminate).
Qed.

Lemma back_to_start_le fuel s lim : forall start,
  utf8.back_to_start fuel s lim start <= start.
Proof.
  induction fuel as [| fuel IH]; intros start; cbn [utf8.back_to_start];
    [lia |].
  destruct (lim <=? start); [| lia].
  destruct (utf8.RuneStart _); [lia |].
  specialize (IH (start - 1)). lia.
Qed.

Lemma slice_whole s : slice s 0 (String.length s) = s.
Proof.
  unfold slice. cbn [slice_from]. rewrite Nat.sub_0_r.
  apply slice_to_all. lia.
Qed.

(** The last rune of a non-empty string has a width of at least one and at
    most the string's length; when it is a white-space rune that spans the
    whole string, it is the string's first rune too. *)
Lemma DecodeLastRuneInString_spec s r size :
  s <> "" ->
  utf8.DecodeLastRuneInString s = (r, size) ->
  (1 <= size <= String.length s)%nat /\
  (unicode.IsSpace r = true -> size = String.length s ->
   utf8.DecodeRuneInString s = (r, size)).
Proof.
  intros Hne. apply nonempty_length in Hne.
  unfold utf8.DecodeLastRuneInString. cbv zeta.
  destruct (Z.eqb_spec (Z.of_nat (String.length s)) 0) as [E | _]; [lia |].
  destruct (Z.ltb_spec (byte_at s (Z.of_nat (String.length s) - 1))
                       utf8.RuneSelf) as [Hascii | Hhigh].
  - intros Hdec. inversion Hdec; subst. split; [lia |].
    intros _ Hlen. destruct s as [| c [| c' s']];
      cbn [String.length] in *; try lia.
    change (byte_at (String c "") (Z.of_nat 1 - 1)) with (byte c) in *.
    apply DecodeRuneInString_ascii. exact Hascii.
  - set (lim := if Z.of_nat (String.length s) - utf8.UTFMax <? 0
                then 0 else Z.of_nat (String.length s) - utf8.UTFMax).
    pose proof (back_to_start_le (Z.to_nat utf8.UTFMax) s lim
                  (Z.of_nat (String.length s) - 1 - 1)) as Hback.
    set (back := utf8.back_to_start _ _ _ _) in *.
    set (start := if back <? 0 then 0 else back).
    assert (Hstart : 0 <= start < Z.of_nat (String.length s))
      by (subst start; destruct (Z.ltb_spec back 0); lia).
    destruct (utf8.DecodeRuneInString
                (slice s (Z.to_nat start)
                       (Z.to_nat (Z.of_nat (String.length s)))))
      as [r' size'] eqn:Edec.
    destruct (Z.eqb_spec (start + Z.of_nat size')
                         (Z.of_nat (String.length s))) as [Eend | _];
      intros Hdec; inversion Hdec; subst.
    + split; [lia |]. intros _ Hlen.
      assert (Hzero : start = 0) by lia.
      rewrite Hzero, Nat2Z.id in Edec. change (Z.to_nat 0) with 0%nat in Edec.
      rewrite slice_whole in Edec. exact Edec.
    + split; [lia |]. intros Hsp _.
      rewrite IsSpace_RuneError in Hsp. discriminate.
Qed.

Lemma slice_0 s i : slice s 0 i = slice_to s i.
Proof. unfold slice. cbn [slice_from]. rewrite Nat.sub_0_r. reflexivity. Qed.

(** With fuel for every byte the backward loop runs to its end: more fuel
    changes nothing. *)
Lemma lastIndexFunc_loop_fuel s f truth fuel1 : forall fuel2 i,
  (i <= String.length s)%nat -> (i <= fuel1)%nat -> (i <= fuel2)%nat ->
  GoStrings.lastIndexFunc_loop fuel1 s f truth i
  = GoStrings.lastIndexFunc_loop fuel2 s f truth i.
Proof.
  induction fuel1 as [| fuel1 IH]; intros [| fuel2] i Hlen H1 H2;
    cbn [GoStrings.lastIndexFunc_loop]; try reflexivity;
    destruct (Nat.ltb_spec 0 i) as [Hpos | Hzero]; try reflexivity; try lia.
  rewrite slice_0.
  destruct (utf8.DecodeLastRuneInString (slice_to s i)) as [r size] eqn:Edec.
  apply DecodeLastRuneInString_spec in Edec as [[Hlo Hhi] _].
  - destruct (Bool.eqb (f r) truth); [reflexivity |]. apply IH; lia.
  - apply nonempty_length. rewrite slice_to_length. lia.
Qed.

(** Scanning backwards over a string whose first rune is not white space,
    the loop finds a rune that is not white space. *)
Lemma lastIndexFunc_loop_finds t fuel : forall i,
  unicode.IsSpace (utf8.DecodeRuneInString t).1 = false ->
  (i <= fuel)%nat -> (0 < i <= String.length t)%nat ->
  0 <= GoStrings.lastIndexFunc_loop fuel t unicode.IsSpace false i
    < Z.of_nat i.
Proof.
  intros i Hfirst. revert i.
  induction fuel as [| fuel IH]; intros i Hfuel Hi; [lia |].
  cbn [GoStrings.lastIndexFunc_loop].
  destruct (Nat.ltb_spec 0 i) as [_ | Hzero]; [| lia].
  rewrite slice_0.
  destruct (utf8.DecodeLastRuneInString (slice_to t i)) as [r size] eqn:Edec.
  assert (Hlen : String.length (slice_to t i) = i)
    by (rewrite slice_to_length; lia).
  apply DecodeLastRuneInString_spec in Edec as [[Hlo Hhi] Hwhole];
    [| apply nonempty_length; lia].
  rewrite Hlen in Hhi, Hwhole.
  destruct (unicode.IsSpace r) eqn:Hr; cbn [Bool.eqb]; [| lia].
  destruct (Nat.eq_dec size i) as [Hall | Hpart].
  - exfalso. specialize (Hwhole eq_refl Hall). rewrite Hall in Hwhole.
    apply (DecodeRuneInString_prefix t i r Hr) in Hwhole.
    rewrite Hwhole in Hfirst. cbn [fst] in Hfirst. congruence.
  - specialize (IH (i - size)%nat). lia.
Qed.

Lemma slice_to_nonempty s k :
  s <> "" -> (1 <= k)%nat -> slice_to s k <> "".
Proof.
  destruct s as [| c s]; [contradiction |]. destruct k as [| k]; [lia |].
  discriminate.
Qed.

(** TrimRightFunc leaves something of a string whose first rune is not
    white space. *)
Lemma TrimRightFunc_nonempty t :
  t <> "" ->
  unicode.IsSpace (utf8.DecodeRuneInString t).1 = false ->
  GoStrings.TrimRightFunc t unicode.IsSpace <> "".
Proof.
  intros Hne Hfirst. unfold GoStrings.TrimRightFunc, GoStrings.lastIndexFunc.
  cbv zeta. apply nonempty_length in Hne.
  pose proof (lastIndexFunc_loop_finds t (String.length t) (String.length t)
                Hfirst (Nat.le_refl _)) as Hfound.
  set (j := GoStrings.lastIndexFunc_loop _ _ _ _ _) in *.
  assert (Hj : 0 <= j < Z.of_nat (String.length t)) by (apply Hfound; lia).
  rewrite slice_0. apply slice_to_nonempty; [apply nonempty_length, Hne |].
  destruct ((0 <=? j) && (utf8.RuneSelf <=? byte_at t j)); [| lia].
  assert (Hrest : slice_from t (Z.to_nat j) <> "")
    by (apply nonempty_length; rewrite slice_from_length; lia).
  destruct (DecodeRuneInString_size _ Hrest) as [[Hlo _] _]. lia.
Qed.

(** TrimFunc leaves something of a string that holds a rune that is not
    white space. *)
Lemma TrimFunc_has_non_space s r :
  In r (GoStrings.runes s) -> unicode.IsSpace r = false ->
  GoStrings.TrimFunc s unicode.IsSpace <> "".
Proof.
  intros Hin Hr. unfold GoStrings.TrimFunc, GoStrings.TrimLeftFunc,
    GoStrings.indexFunc. cbv zeta.
  destruct (Z.eqb_spec
              (GoStrings.first_index unicode.IsSpace false (GoStrings.range s))
              (-1)) as [Enone | Esome].
  - pose proof (first_index_none _ _ _ Enone r Hin) as Hall.
    cbn [negb] in Hall. congruence.
  - destruct (first_index_spec _ _ _ Esome) as [i [r' [Hrange [Hr' Hidx]]]].
    rewrite Hidx, Nat2Z.id.
    destruct (range_loop_spec _ _ _ _ _ Hrange) as [k [Hi [Hk Hdec]]].
    cbn [Nat.add] in Hi. subst i.
    apply TrimRightFunc_nonempty.
    + apply nonempty_length. rewrite slice_from_length. lia.
    + rewrite Hdec. exact Hr'.
Qed.

Lemma ascii_space c :
  GoStrings.asciiSpace (byte c) <> 0 -> unicode.IsSpace (byte c) = true.
Proof.
  unfold GoStrings.asciiSpace, unicode.IsSpace, unicode.MaxLatin1.
  pose proof (byte_range c) as Hb.
  destruct (Z.leb_spec (byte c) 255) as [_ | Hgt]; [| lia].
  destruct (Z.eqb_spec (byte c) 9); [reflexivity |].
  destruct (Z.eqb_spec (byte c) 10); [reflexivity |].
  destruct (Z.eqb_spec (byte c) 11); [reflexivity |].
  destruct (Z.eqb_spec (byte c) 12); [reflexivity |].
  destruct (Z.eqb_spec (byte c) 13); [reflexivity |].
  destruct (Z.eqb_spec (byte c) 32); [reflexivity |].
  cbn [orb]. intros Hsp. contradiction.
Qed.

(** The bytes that the first loop of TrimSpace skips are white space: a
    rune of the string that is not white space is a rune of what is left. *)
Lemma TrimSpace_start_skips rest : forall start non_ascii start',
  GoStrings.TrimSpace_start rest start = (non_ascii, start') ->
  forall r, In r (GoStrings.runes rest) -> unicode.IsSpace r = false ->
            In r (GoStrings.runes (slice_from rest (start' - start))).
Proof.
  induction rest as [| c rest' IH]; intros start non_ascii start' Hloop;
    cbn [GoStrings.TrimSpace_start] in Hloop.
  - inversion Hloop; subst. rewrite Nat.sub_diag. auto.
  - destruct (Z.leb_spec utf8.RuneSelf (byte c)) as [Hhigh | Hlow].
    + inversion Hloop; subst. rewrite Nat.sub_diag. auto.
    + destruct (Z.eqb_spec (GoStrings.asciiSpace (byte c)) 0) as [Hsp | Hsp].
      * inversion Hloop; subst. rewrite Nat.sub_diag. auto.
      * intros r Hin Hr. rewrite (runes_ascii c rest' Hlow) in Hin.
        destruct (TrimSpace_start_spec _ _ _ _ Hloop) as [k [Hk _]].
        replace (start' - start)%nat with (S k) by lia.
        cbn [slice_from].
        replace k with (start' - S start)%nat by lia.
        apply (IH _ _ _ Hloop). destruct Hin as [<- | Hin]; [| exact Hin].
        rewrite (ascii_space c Hsp) in Hr. discriminate.
        exact Hr.
Qed.

Lemma get_slice_from s : forall a b,
  String.get b (slice_from s a) = String.get (a + b) s.
Proof.
  induction s as [| c s IH]; intros [| a] b; cbn [slice_from Nat.add];
    try reflexivity.
  cbn [String.get]. apply IH.
Qed.

(** The second loop of TrimSpace does not pass an ASCII byte that is not a
    space. *)
Lemma TrimSpace_stop_spec s start c t :
  slice_from s start = String c t ->
  byte c < utf8.RuneSelf -> GoStrings.asciiSpace (byte c) = 0 ->
  forall stop non_ascii stop',
    (start < stop)%nat ->
    GoStrings.TrimSpace_stop s start stop = (non_ascii, stop') ->
    (start < stop' <= stop)%nat.
Proof.
  intros Hsuf Hlow Hsp.
  assert (Hat : byte_at s (Z.of_nat start) = byte c).
  { unfold byte_at. rewrite Nat2Z.id.
    replace start with (start + 0)%nat at 1 by lia.
    rewrite <- get_slice_from, Hsuf. reflexivity. }
  induction stop as [| stop IH]; intros non_ascii stop' Hlt Hloop; [lia |].
  cbn [GoStrings.TrimSpace_stop] in Hloop.
  destruct (Nat.ltb_spec start (S stop)) as [_ | Hge]; [| lia].
  destruct (Z.leb_spec utf8.RuneSelf (byte_at s (Z.of_nat stop)))
    as [Hhigh | Hlow'].
  - inversion Hloop; subst. lia.
  - destruct (Z.eqb_spec (GoStrings.asciiSpace (byte_at s (Z.of_nat stop))) 0)
      as [Hsp' | Hsp'].
    + inversion Hloop; subst. lia.
    + destruct (Nat.eq_dec start stop) as [-> | Hne].
      * rewrite Hat in Hsp'. contradiction.
      * assert (Hlt' : (start < stop)%nat) by lia.
        specialize (IH non_ascii stop' Hlt' Hloop). lia.
Qed.

(** TrimSpace leaves something of a string exactly when the string holds a
    rune that is not white space. *)
Theorem TrimSpace_nonempty_iff s :
  GoStrings.TrimSpace s <> "" <->
  exists r, In r (GoStrings.runes s) /\ unicode.IsSpace r = false.
Proof.
  split; [apply TrimSpace_nonempty_has_non_space |].
  intros [r [Hin Hr]]. unfold GoStrings.TrimSpace.
  destruct (GoStrings.TrimSpace_start s 0) as [non_ascii start] eqn:Estart.
  pose proof (TrimSpace_start_skips s 0 non_ascii start Estart r Hin Hr)
    as Hleft.
  rewrite Nat.sub_0_r in Hleft.
  destruct (TrimSpace_start_spec s 0 non_ascii start Estart)
    as [k [Hk [_ Hshape]]].
  cbn [Nat.add] in Hk. subst k. destruct non_ascii.
  - exact (TrimFunc_has_non_space _ r Hleft Hr).
  - destruct (Hshape eq_refl) as [[He _] | [c [t [Hsuf [Hlow Hsp]]]]].
    + rewrite He in Hleft. contradiction.
    + assert (Hlen : (start < String.length s)%nat).
      { pose proof (slice_from_length s start) as Hl.
        rewrite Hsuf in Hl. cbn [String.length] in Hl. lia. }
      destruct (GoStrings.TrimSpace_stop s start (String.length s))
        as [non_ascii stop] eqn:Estop.
      pose proof (TrimSpace_stop_spec s start c t Hsuf Hlow Hsp _ _ _
                    Hlen Estop) as Hstop.
      assert (Hslice : exists t', slice s start stop = String c t').
      { unfold slice. rewrite Hsuf.
        destruct (stop - start)%nat as [| n] eqn:En; [lia |].
        cbn [slice_to]. eauto. }
      destruct Hslice as [t' Hslice]. rewrite Hslice.
      destruct non_ascii; [| discriminate].
      apply TrimRightFunc_nonempty; [discriminate |].
      rewrite (DecodeRuneInString_ascii c t' Hlow). cbn [fst].
      apply ascii_non_space; assumption.
Qed.

(** X11. Validate accepts exactly the tasks whose title holds a rune that is not
    white space. *)
Corollary Validate_accepts_iff task :
  utils.Validate task = None <->
  exists r, In r (GoStrings.runes (domain.Title task)) /\
            unicode.IsSpace r = false.
Proof.
  rewrite Validate_ok_iff. apply TrimSpace_nonempty_iff.
Qed.

End ValidationFacts.

(** * Properties of the task service over the in-memory store *)

Section ServiceFacts.

Implicit Types (m : InMemory.InMemory domain.TaskSchema) (ctx : Context).

Lemma InMemory_GetByID_state ctx id m : (InMemory.GetByID ctx id m).2 = m.
Proof.
  unfold InMemory.GetByID.
  destruct (context.Err ctx); [reflexivity |].
  destruct (InMemory.data m !! id); reflexivity.
Qed.

(** Save either fails and returns the store as it was, or sets one key of
    the map to the value. *)
Lemma InMemory_Save_data ctx (task : domain.TaskSchema) id m :
  (InMemory.Save ctx task id m).2 = m \/
  exists k, InMemory.data (InMemory.Save ctx task id m).2
            = <[k := task]> (InMemory.data m).
Proof.
  unfold InMemory.Save. destruct (context.Err ctx); [left; reflexivity |].
  right. destruct (id =? 0); eexists; reflexivity.
Qed.

(** After its three assignments Update holds exactly the record of its
    arguments. *)
Lemma Update_record title description isDone (task : domain.TaskSchema) :
  TaskService.set_IsDone isDone
    (TaskService.set_Description description
       (TaskService.set_Title title task))
  = {| domain.Title := title; domain.Description := description;
       domain.IsDone := isDone |}.
Proof. reflexivity. Qed.

(** Create with a valid title and a live context. *)
Lemma Create_valid ctx title description m :
  GoStrings.TrimSpace title <> "" ->
  context.Err ctx = None ->
  let task := {| domain.Title := title; domain.Description := description;
                 domain.IsDone := false |} in
  TaskService.Create ctx title description m
  = (({| domain.ID := InMemory.serialID m; domain.Schema := task |}, None),
     {| InMemory.serialID := wrap64 (InMemory.serialID m + 1);
        InMemory.data := <[InMemory.serialID m := task]> (InMemory.data m) |}).
Proof.
  intros Hvalid Hctx task. unfold TaskService.Create. fold task.
  assert (Hv : utils.Validate task = None)
    by (apply Validate_ok_iff; exact Hvalid).
  rewrite Hv. cbn [TaskStorage.Save InMemory_TaskStorage].
  rewrite (Save_auto ctx task m Hctx). reflexivity.
Qed.

(** Update of a present identifier with a valid title and a live context:
    the store is the one that storage Save of the new record at the
    identifier leaves. *)
Lemma Update_valid ctx id title description isDone m :
  GoStrings.TrimSpace title <> "" ->
  context.Err ctx = None ->
  is_Some (InMemory.data m !! id) ->
  let task := {| domain.Title := title; domain.Description := description;
                 domain.IsDone := isDone |} in
  TaskService.Update ctx id title description isDone m
  = (None, (InMemory.Save ctx task id m).2).
Proof.
  intros Hvalid Hctx [old Hold] task. unfold TaskService.Update.
  cbn [TaskStorage.GetByID TaskStorage.Save InMemory_TaskStorage].
  rewrite (GetByID_live ctx id m Hctx), Hold, Update_record. fold task.
  assert (Hv : utils.Validate task = None)
    by (apply Validate_ok_iff; exact Hvalid).
  rewrite Hv. unfold InMemory.Save. rewrite Hctx.
  destruct (id =? 0); reflexivity.
Qed.

(** C6. For every title whose trimmed form is not empty and every
    description, Create (live context) succeeds and returns the task with
    the identifier storage assigned; GetByID of that identifier (live
    context) yields the task with the same title and description, the
    completion flag false, and that identifier attached. *)
Theorem Create_then_GetByID ctx ctx' title description m :
  GoStrings.TrimSpace title <> "" ->
  context.Err ctx = None ->
  context.Err ctx' = None ->
  let created := (TaskService.Create ctx title description m).1 in
  let m' := (TaskService.Create ctx title description m).2 in
  created.2 = None /\
  TaskService.GetByID ctx' (domain.ID created.1) m'
  = (({| domain.ID := domain.ID created.1;
         domain.Schema := {| domain.Title := title;
                             domain.Description := description;
                             domain.IsDone := false |} |}, None), m') /\
  created.1 = {| domain.ID := domain.ID created.1;
                 domain.Schema := {| domain.Title := title;
                                     domain.Description := description;
                                     domain.IsDone := false |} |}.
Proof.
  intros Hvalid Hctx Hctx' created m'. subst created m'.
  rewrite (Create_valid ctx title description m Hvalid Hctx).
  cbn [fst snd domain.ID]. split; [reflexivity |]. split; [| reflexivity].
  unfold TaskService.GetByID. cbn [TaskStorage.GetByID InMemory_TaskStorage].
  rewrite (GetByID_live ctx' _ _ Hctx'). cbn [InMemory.data].
  rewrite lookup_insert_eq. reflexivity.
Qed.

(** C10. For every title that validation accepts (its trimmed form is not
    empty) and every description, Create and Update (live context) store
    the title and description exactly as given: the record Create puts at
    the new identifier and the record Update hands to storage Save are
    made of the argument strings themselves, also when the title differs
    from its trimmed form. TrimSpace is applied in Validate only. *)
Theorem titles_are_stored_verbatim ctx id title description isDone m :
  GoStrings.TrimSpace title <> "" ->
  context.Err ctx = None ->
  (let created := TaskService.Create ctx title description m in
   InMemory.data created.2 !! domain.ID created.1.1
   = Some {| domain.Title := title; domain.Description := description;
             domain.IsDone := false |}) /\
  (is_Some (InMemory.data m !! id) ->
   let task := {| domain.Title := title; domain.Description := description;
                  domain.IsDone := isDone |} in
   let updated := TaskService.Update ctx id title description isDone m in
   updated = (None, (InMemory.Save ctx task id m).2) /\
   (id <> 0 -> InMemory.data updated.2 !! id = Some task)).
Proof.
  intros Hvalid Hctx. split.
  - rewrite (Create_valid ctx title description m Hvalid Hctx).
    cbn [fst snd domain.ID InMemory.data]. apply lookup_insert_eq.
  - intros Hpresent task updated. subst updated.
    rewrite (Update_valid ctx id title description isDone m
               Hvalid Hctx Hpresent).
    split; [reflexivity |]. intros Hid. fold task.
    rewrite (Save_explicit ctx task id m Hctx Hid).
    cbn [snd InMemory.data]. apply lookup_insert_eq.
Qed.

(** Every request keeps the property that all stored titles have a
    non-empty trimmed form. *)
Lemma serve_keeps_titles m req :
  (forall id task, InMemory.data m !! id = Some task ->
                   GoStrings.TrimSpace (domain.Title task) <> "") ->
  forall id task,
    InMemory.data (TaskService.serve m req) !! id = Some task ->
    GoStrings.TrimSpace (domain.Title task) <> "".
Proof.
  intros Hinv.
  assert (Hsave : forall ctx task id0,
    utils.Validate task = None ->
    forall id t, InMemory.data (InMemory.Save ctx task id0 m).2 !! id
                 = Some t ->
                 GoStrings.TrimSpace (domain.Title t) <> "").
  { intros ctx task id0 Hv id t Hlook.
    destruct (InMemory_Save_data ctx task id0 m) as [Hsame | [k Hk]].
    - rewrite Hsame in Hlook. exact (Hinv id t Hlook).
    - rewrite Hk in Hlook. destruct (decide (k = id)) as [-> | Hne].
      + rewrite lookup_insert_eq in Hlook. inversion Hlook; subst.
        apply Validate_ok_iff, Hv.
      + rewrite lookup_insert_ne in Hlook by exact Hne.
        exact (Hinv id t Hlook). }
  destruct req as [ctx title description | ctx id0 | ctx
                  | ctx id0 title description isDone | ctx id0];
    cbn [TaskService.serve]; intros id task.
  - unfold TaskService.Create.
    destruct (utils.Validate _) eqn:Hv; [exact (Hinv id task) |].
    cbn [TaskStorage.Save InMemory_TaskStorage].
    specialize (Hsave ctx _ 0 Hv id task).
    destruct (InMemory.Save ctx _ 0 m) as [[id1 [err |]] m1];
      exact Hsave.
  - unfold TaskService.GetByID.
    cbn [TaskStorage.GetByID InMemory_TaskStorage].
    pose proof (InMemory_GetByID_state ctx id0 m) as Hst.
    destruct (InMemory.GetByID ctx id0 m) as [[t [err |]] m1];
      simpl in Hst; subst m1; exact (Hinv id task).
  - unfold TaskService.GetAll, InMemory_TaskStorage, TaskStorage.GetAll,
      InMemory.GetAll.
    destruct (context.Err ctx); exact (Hinv id task).
  - unfold TaskService.Update.
    cbn [TaskStorage.GetByID TaskStorage.Save InMemory_TaskStorage].
    pose proof (InMemory_GetByID_state ctx id0 m) as Hst.
    destruct (InMemory.GetByID ctx id0 m) as [[t [err |]] m1];
      simpl in Hst; subst m1; [exact (Hinv id task) |].
    destruct (utils.Validate _) eqn:Hv; [exact (Hinv id task) |].
    specialize (Hsave ctx _ id0 Hv id task).
    destruct (InMemory.Save ctx _ id0 m) as [[id1 [err |]] m1];
      exact Hsave.
  - unfold TaskService.Delete, InMemory_TaskStorage, TaskStorage.Delete,
      InMemory.Delete.
    destruct (context.Err ctx); [exact (Hinv id task) |].
    destruct (InMemory.data m !! id0); [| exact (Hinv id task)].
    cbn [snd InMemory.data]. intros Hlook.
    apply lookup_delete_Some in Hlook as [_ Hlook].
    exact (Hinv id task Hlook).
Qed.

Lemma serve_all_keeps_titles reqs : forall m,
  (forall id task, InMemory.data m !! id = Some task ->
                   GoStrings.TrimSpace (domain.Title task) <> "") ->
  forall id task,
    InMemory.data (TaskService.serve_all reqs m) !! id = Some task ->
    GoStrings.TrimSpace (domain.Title task) <> "".
Proof.
  induction reqs as [| req reqs IH]; intros m Hinv; [exact Hinv |].
  unfold TaskService.serve_all. cbn [fold_left].
  apply IH. apply serve_keeps_titles. exact Hinv.
Qed.

(** C3. Every task that is in the store after any sequence of service
    requests (Create, GetByID, GetAll, Update, Delete, with any contexts)
    on an empty store has a title whose trimmed form is not empty, so the
    title holds a rune that is not white space: Create and Update validate
    before they persist. *)
Theorem stored_titles_are_not_blank (reqs : list TaskService.Request)
  id task :
  InMemory.data (TaskService.serve_all reqs InMemory.NewInMemory) !! id
  = Some task ->
  GoStrings.TrimSpace (domain.Title task) <> "" /\
  exists r, In r (GoStrings.runes (domain.Title task)) /\
            unicode.IsSpace r = false.
Proof.
  intros Hlook.
  assert (Htrim : GoStrings.TrimSpace (domain.Title task) <> "").
  { apply (serve_all_keeps_titles reqs InMemory.NewInMemory) with (id := id).
    - intros id0 t Hempty. cbn [InMemory.NewInMemory InMemory.data] in Hempty.
      rewrite lookup_empty in Hempty. discriminate.
    - exact Hlook. }
  split; [exact Htrim | apply TrimSpace_nonempty_has_non_space, Htrim].
Qed.

End ServiceFacts.

(** * The validation gate, seen through the recording backend *)

Section ValidationGate.

Implicit Types (s : Spy.Spy (InMemory.InMemory domain.TaskSchema)).

Lemma blank_title_rejected title description isDone :
  GoStrings.TrimSpace title = "" ->
  utils.Validate {| domain.Title := title; domain.Description := description;
                    domain.IsDone := isDone |} = Some domain.ErrEmptyTitle.
Proof.
  intros Hblank. unfold utils.Validate. cbn [domain.Title].
  rewrite Hblank. reflexivity.
Qed.

(** C5, as the code has it. Take any title whose trimmed form is empty:
    the empty title, three spaces, any title of white space only
    ([TrimSpace_nonempty_iff]). For every store and every context, Create
    with it fails with the validation error, makes no storage call and
    leaves the store as it was. Update with it makes one storage call, the
    read GetByID, and never Save, and leaves the store as it was; it fails
    with the validation error when the context is live and the identifier
    is present, with NotFound when the context is live and the identifier
    is absent, and with the context's error when the context has fired. *)
Theorem blank_titles_do_not_reach_Save ctx id title description isDone s :
  GoStrings.TrimSpace title = "" ->
  TaskService.Create ctx title description s
  = ((zero, Some (errors.Errorf_w "validation failed: "
                                  domain.ErrEmptyTitle)), s) /\
  (let updated := TaskService.Update ctx id title description isDone s in
   Spy.inner updated.2 = Spy.inner s /\
   Spy.calls updated.2 = Spy.CallGetByID id :: Spy.calls s /\
   (context.Err ctx = None ->
    is_Some (InMemory.data (Spy.inner s) !! id) ->
    updated.1 = Some (errors.Errorf_w "validation failed: "
                                      domain.ErrEmptyTitle)) /\
   (context.Err ctx = None ->
    InMemory.data (Spy.inner s) !! id = None ->
    updated.1 = Some domain.ErrNotExists) /\
   (forall e, context.Err ctx = Some e -> updated.1 = Some e)).
Proof.
  intros Hblank. split.
  - unfold TaskService.Create.
    rewrite (blank_title_rejected title description false Hblank).
    reflexivity.
  - unfold TaskService.Update.
    cbn [TaskStorage.GetByID Spy.Spy_TaskStorage InMemory_TaskStorage].
    unfold Spy.record. rewrite InMemory_GetByID_state.
    unfold InMemory.GetByID.
    destruct (context.Err ctx) as [e |] eqn:Hctx.
    + cbn. repeat split; try discriminate.
      intros e' He'. inversion He'; reflexivity.
    + destruct (InMemory.data (Spy.inner s) !! id) as [old |] eqn:Hold.
      * cbn [fst snd]. rewrite Update_record.
        rewrite (blank_title_rejected title description isDone Hblank).
        cbn. repeat split; try discriminate.
      * cbn. repeat split; try discriminate.
        intros _ [x Hx]. discriminate.
Qed.

End ValidationGate.

(** * Error propagation through the service, for any storage backend *)

Section ErrorPropagation.

Context {R : Type} `{TaskStorage R}.
Implicit Types (repo : R) (ctx : Context) (e : error).

Lemma error_eqb_refl e : errors.error_eqb e e = true.
Proof.
  induction e as [| | | | msg | msg e IH]; cbn; try reflexivity.
  - apply String.eqb_refl.
  - rewrite String.eqb_refl, IH. reflexivity.
Qed.

Lemma Is_refl e : errors.Is e e = true.
Proof. destruct e; cbn; rewrite ?String.eqb_refl, ?error_eqb_refl; reflexivity. Qed.

Lemma Is_Errorf_w prefix e : errors.Is (errors.Errorf_w prefix e) e = true.
Proof.
  unfold errors.Errorf_w. cbn [errors.Is]. rewrite Is_refl.
  apply orb_true_r.
Qed.

(** C7, as the code has it. Whatever error a storage method returns, the
    service method that called it returns an error that matches it under
    errors.Is: the storage error is never dropped and never replaced.
    Create, GetAll and the Save step of Update wrap it with a message
    naming the operation; GetByID, Delete and the read step of Update
    return the storage error itself, with nothing added. *)
Theorem storage_errors_reach_the_caller ctx id title description isDone
  repo e :
  let created := {| domain.Title := title;
                    domain.Description := description;
                    domain.IsDone := false |} in
  let updated := {| domain.Title := title;
                    domain.Description := description;
                    domain.IsDone := isDone |} in
  (utils.Validate created = None ->
   (TaskStorage.Save ctx created 0 repo).1.2 = Some e ->
   (TaskService.Create ctx title description repo).1.2
   = Some (errors.Errorf_w "failed to save task: " e)) /\
  ((TaskStorage.GetByID ctx id repo).1.2 = Some e ->
   (TaskService.GetByID ctx id repo).1.2 = Some e) /\
  ((TaskStorage.GetAll ctx repo).1.2 = Some e ->
   (TaskService.GetAll ctx repo).1.2
   = Some (errors.Errorf_w "failed to get tasks: " e)) /\
  ((TaskStorage.GetByID ctx id repo).1.2 = Some e ->
   (TaskService.Update ctx id title description isDone repo).1 = Some e) /\
  (utils.Validate updated = None ->
   (TaskStorage.GetByID ctx id repo).1.2 = None ->
   (TaskStorage.Save ctx updated id (TaskStorage.GetByID ctx id repo).2).1.2
   = Some e ->
   (TaskService.Update ctx id title description isDone repo).1
   = Some (errors.Errorf_w "failed to update task: " e)) /\
  ((TaskStorage.Delete ctx id repo).1 = Some e ->
   (TaskService.Delete ctx id repo).1 = Some e) /\
  errors.Is e e = true /\
  (forall prefix, errors.Is (errors.Errorf_w prefix e) e = true).
Proof.
  intros created updated.
  split; [| split; [| split; [| split; [| split; [| split; [| split]]]]]].
  - intros Hv Hsave. unfold TaskService.Create. fold created. rewrite Hv.
    destruct (TaskStorage.Save ctx created 0 repo) as [[id1 err] repo1].
    simpl in Hsave. subst err. reflexivity.
  - intros Hget. unfold TaskService.GetByID.
    destruct (TaskStorage.GetByID ctx id repo) as [[task err] repo1].
    simpl in Hget. subst err. reflexivity.
  - intros Hall. unfold TaskService.GetAll.
    destruct (TaskStorage.GetAll ctx repo) as [[elems err] repo1].
    simpl in Hall. subst err. reflexivity.
  - intros Hget. unfold TaskService.Update.
    destruct (TaskStorage.GetByID ctx id repo) as [[task err] repo1].
    simpl in Hget. subst err. reflexivity.
  - intros Hv Hget Hsave. unfold TaskService.Update.
    destruct (TaskStorage.GetByID ctx id repo) as [[task err] repo1].
    simpl in Hget, Hsave. subst err. rewrite Update_record.
    fold updated. rewrite Hv.
    destruct (TaskStorage.Save ctx updated id repo1) as [[id1 err] repo2].
    simpl in Hsave. subst err. reflexivity.
  - intros Hdel. unfold TaskService.Delete.
    destruct (TaskStorage.Delete ctx id repo) as [err repo1].
    simpl in Hdel. subst err. reflexivity.
  - apply Is_refl.
  - intros prefix. apply Is_Errorf_w.
Qed.

End ErrorPropagation.

(** * The theorems at concrete inputs *)

Section Instances.

Lemma auto_assigned_ids_on_fresh_store_witness :
  let calls := [(context.Background, milk); (context.Background, bob);
                (context.Background, milk)] in
  Forall (fun c => context.Err c.1 = None) calls /\
  Z.of_nat (length calls) < uint64_modulus /\
  map fst (InMemory.auto_saves calls fresh).1 = [1; 2; 3].
Proof.
  intros calls.
  assert (Hlive : Forall (fun c : Context * domain.TaskSchema =>
                            context.Err c.1 = None) calls)
    by (repeat constructor).
  assert (Hbound : Z.of_nat (length calls) < uint64_modulus)
    by reflexivity.
  split; [exact Hlive | split; [exact Hbound |]].
  exact (proj1 (proj2
    (auto_assigned_ids_on_fresh_store calls Hlive Hbound))).
Defined.

Lemma fired_context_fails_and_keeps_store_witness :
  context.Err context.WithCancel_cancelled = Some errors.Canceled /\
  InMemory.Save context.WithCancel_cancelled milk 0 fresh
  = ((0, Some errors.Canceled), fresh) /\
  InMemory.Delete context.WithCancel_cancelled 1
                  (InMemory.Save context.Background milk 0 fresh).2
  = (Some errors.Canceled,
     (InMemory.Save context.Background milk 0 fresh).2).
Proof.
  split; [reflexivity |]. split.
  - exact (proj1 (proj2 (fired_context_fails_and_keeps_store
      context.WithCancel_cancelled errors.Canceled milk 0 fresh eq_refl))).
  - exact (proj2 (proj2 (proj2 (proj2 (fired_context_fails_and_keeps_store
      context.WithCancel_cancelled errors.Canceled milk 1
      (InMemory.Save context.Background milk 0 fresh).2 eq_refl))))).
Defined.

Lemma Save_then_GetByID_witness :
  100 <> 0 /\
  context.Err context.Background = None /\
  (InMemory.Save context.Background milk 100 fresh).1 = (100, None) /\
  InMemory.GetByID context.Background 100
    (InMemory.Save context.Background milk 100 fresh).2
  = ((milk, None), (InMemory.Save context.Background milk 100 fresh).2).
Proof.
  assert (Hid : 100 <> 0) by discriminate.
  split; [exact Hid | split; [reflexivity |]].
  exact (Save_then_GetByID context.Background context.Background milk 100
           fresh Hid eq_refl eq_refl).
Defined.

Lemma Delete_is_final_witness :
  let m := (InMemory.Save context.Background milk 0 fresh).2 in
  is_Some (InMemory.data m !! 1) /\
  context.Err context.Background = None /\
  (InMemory.Delete context.Background 1 m).1 = None /\
  InMemory.GetByID context.Background 1
    (InMemory.Delete context.Background 1 m).2
  = ((zero, Some domain.ErrNotExists),
     (InMemory.Delete context.Background 1 m).2) /\
  InMemory.Delete context.Background 1
    (InMemory.Delete context.Background 1 m).2
  = (Some domain.ErrNotExists, (InMemory.Delete context.Background 1 m).2).
Proof.
  intros m.
  assert (Hpresent : is_Some (InMemory.data m !! 1))
    by (exists milk; reflexivity).
  split; [exact Hpresent | split; [reflexivity |]].
  exact (Delete_is_final context.Background context.Background
           context.Background 1 m Hpresent eq_refl eq_refl eq_refl).
Defined.

Lemma explicit_Save_keeps_counter_witness :
  1 <> 0 /\
  context.Err context.Background = None /\
  (InMemory.Save context.Background milk 1 fresh).1 = (1, None) /\
  InMemory.serialID (InMemory.Save context.Background milk 1 fresh).2 = 1 /\
  (InMemory.Save context.Background bob 0
     (InMemory.Save context.Background milk 1 fresh).2).1 = (1, None) /\
  InMemory.data
    (InMemory.Save context.Background bob 0
       (InMemory.Save context.Background milk 1 fresh).2).2 !! 1
  = Some bob.
Proof.
  assert (Hid : 1 <> 0) by discriminate.
  assert (Hrange : is_uint64 1) by (split; [discriminate | reflexivity]).
  destruct (explicit_Save_keeps_counter context.Background milk 1 fresh
              Hid eq_refl) as (Hret & _ & Hcounter & Hcollide).
  destruct (Hcollide Hrange Hrange context.Background bob eq_refl)
    as [Hsame Hover].
  split; [exact Hid | split; [reflexivity |]].
  split; [exact Hret | split; [exact Hcounter |]].
  split; [exact Hsame | exact Hover].
Defined.

Lemma Create_then_GetByID_witness :
  GoStrings.TrimSpace "Buy milk" <> "" /\
  context.Err context.Background = None /\
  (TaskService.Create context.Background "Buy milk" "2 l" fresh).1
  = ({| domain.ID := 1; domain.Schema := milk |}, None) /\
  TaskService.GetByID context.Background 1
    (TaskService.Create context.Background "Buy milk" "2 l" fresh).2
  = (({| domain.ID := 1; domain.Schema := milk |}, None),
     (TaskService.Create context.Background "Buy milk" "2 l" fresh).2).
Proof.
  assert (Hvalid : GoStrings.TrimSpace "Buy milk" <> "") by discriminate.
  split; [exact Hvalid | split; [reflexivity |]].
  split; [reflexivity |].
  exact (proj1 (proj2 (Create_then_GetByID context.Background
    context.Background "Buy milk" "2 l" fresh Hvalid eq_refl eq_refl))).
Defined.

Lemma titles_are_stored_verbatim_witness :
  GoStrings.TrimSpace "  Buy milk " = "Buy milk" /\
  GoStrings.TrimSpace "  Buy milk " <> "" /\
  context.Err context.Background = None /\
  InMemory.data
    (TaskService.Create context.Background "  Buy milk " " d " fresh).2 !! 1
  = Some {| domain.Title := "  Buy milk "; domain.Description := " d ";
            domain.IsDone := false |} /\
  (let m := (InMemory.Save context.Background bob 7 fresh).2 in
   InMemory.data
     (TaskService.Update context.Background 7 "  Buy milk " " d " true m).2
     !! 7
   = Some {| domain.Title := "  Buy milk "; domain.Description := " d ";
             domain.IsDone := true |}).
Proof.
  assert (Hvalid : GoStrings.TrimSpace "  Buy milk " <> "") by discriminate.
  split; [reflexivity | split; [exact Hvalid | split; [reflexivity |]]].
  split.
  - exact (proj1 (titles_are_stored_verbatim context.Background 7
             "  Buy milk " " d " true fresh Hvalid eq_refl)).
  - intros m.
    assert (Hpresent : is_Some (InMemory.data m !! 7))
      by (exists bob; reflexivity).
    assert (Hid : 7 <> 0) by discriminate.
    exact (proj2 (proj2 (titles_are_stored_verbatim context.Background 7
             "  Buy milk " " d " true m Hvalid eq_refl) Hpresent) Hid).
Defined.

Lemma stored_titles_are_not_blank_witness :
  let reqs := [TaskService.ReqCreate context.Background "  Buy milk " "2 l";
               TaskService.ReqCreate context.Background "   " "blank";
               TaskService.ReqUpdate context.Background 1 "Call Bob" "" true;
               TaskService.ReqUpdate context.Background 1 "" "" false] in
  InMemory.data (TaskService.serve_all reqs fresh) !! 1 = Some bob /\
  GoStrings.TrimSpace (domain.Title bob) <> "" /\
  exists r, In r (GoStrings.runes (domain.Title bob)) /\
            unicode.IsSpace r = false.
Proof.
  intros reqs.
  assert (Hstored : InMemory.data (TaskService.serve_all reqs fresh) !! 1
                    = Some bob) by reflexivity.
  split; [exact Hstored |].
  exact (stored_titles_are_not_blank reqs 1 bob Hstored).
Defined.

(** C5, as the claim states it, fails: on the empty store Update with the
    title of three spaces fails with NotFound, from the read that comes
    before validation, and NotFound is not a validation error. *)
Lemma Update_blank_title_of_absent_id_is_NotFound :
  (TaskService.Update context.Background 1 "   " "D" true fresh).1
  = Some domain.ErrNotExists /\
  errors.Is domain.ErrNotExists domain.ErrEmptyTitle = false /\
  ~ (exists e,
       (TaskService.Update context.Background 1 "   " "D" true fresh).1
       = Some e /\ errors.Is e domain.ErrEmptyTitle = true).
Proof.
  split; [reflexivity | split; [reflexivity |]].
  intros [e [He Hvalidation]].
  change (Some domain.ErrNotExists = Some e) in He.
  inversion He; subst e. discriminate Hvalidation.
Qed.

Lemma blank_titles_do_not_reach_Save_witness :
  let s := {| Spy.inner := (InMemory.Save context.Background milk 0 fresh).2;
              Spy.calls := [] |} in
  GoStrings.TrimSpace "" = "" /\
  GoStrings.TrimSpace "   " = "" /\
  TaskService.Create context.Background "" "D" s
  = ((zero, Some (errors.wrapError
                    "validation failed: task must have non empty title"
                    domain.ErrEmptyTitle)), s) /\
  (TaskService.Update context.Background 1 "   " "D" true s).1
  = Some (errors.wrapError
            "validation failed: task must have non empty title"
            domain.ErrEmptyTitle) /\
  (TaskService.Update context.Background 2 "   " "D" true s).1
  = Some domain.ErrNotExists /\
  Spy.calls (TaskService.Update context.Background 1 "   " "D" true s).2
  = [Spy.CallGetByID 1] /\
  Spy.inner (TaskService.Update context.Background 1 "   " "D" true s).2
  = Spy.inner s.
Proof.
  intros s.
  destruct (blank_titles_do_not_reach_Save context.Background 1 "" "D" true s
              eq_refl) as (Hcreate & _).
  destruct (blank_titles_do_not_reach_Save context.Background 1 "   " "D" true
              s eq_refl) as (_ & Hstore & Hcalls & Hpresent & _ & _).
  destruct (blank_titles_do_not_reach_Save context.Background 2 "   " "D" true
              s eq_refl) as (_ & _ & _ & _ & Habsent & _).
  split; [reflexivity | split; [reflexivity |]].
  split; [exact Hcreate |].
  split; [apply Hpresent; [reflexivity | exists milk; reflexivity] |].
  split; [apply Habsent; reflexivity |].
  split; [exact Hcalls | exact Hstore].
Defined.

(** C7, as the claim states it, fails: the service's GetByID and Delete
    return the error of storage as it is, not a wrapper around it that
    would add the operation. *)
Lemma GetByID_returns_the_storage_error_bare :
  (InMemory.GetByID context.Background 1 fresh).1.2
  = Some domain.ErrNotExists /\
  (TaskService.GetByID context.Background 1 fresh).1.2
  = Some domain.ErrNotExists /\
  (TaskService.Delete context.Background 1 fresh).1
  = Some domain.ErrNotExists /\
  errors.Unwrap domain.ErrNotExists = None /\
  ~ (exists msg,
       (TaskService.GetByID context.Background 1 fresh).1.2
       = Some (errors.wrapError msg domain.ErrNotExists)).
Proof.
  repeat (split; [reflexivity |]).
  intros [msg Hwrapped].
  change (Some domain.ErrNotExists
          = Some (errors.wrapError msg domain.ErrNotExists)) in Hwrapped.
  discriminate Hwrapped.
Qed.

Lemma storage_errors_reach_the_caller_witness :
  (TaskService.Create context.WithCancel_cancelled "Buy milk" "2 l" fresh).1.2
  = Some (errors.wrapError "failed to save task: context canceled"
                           errors.Canceled) /\
  (TaskService.GetAll context.WithDeadline_expired fresh).1.2
  = Some (errors.wrapError "failed to get tasks: context deadline exceeded"
                           errors.DeadlineExceeded) /\
  (TaskService.GetByID context.Background 1 fresh).1.2
  = Some domain.ErrNotExists /\
  (TaskService.Update context.Background 1 "Buy milk" "2 l" true fresh).1
  = Some domain.ErrNotExists /\
  (TaskService.Delete context.Background 1 fresh).1
  = Some domain.ErrNotExists /\
  errors.Is (errors.wrapError "failed to save task: context canceled"
                              errors.Canceled) errors.Canceled = true.
Proof.
  destruct (storage_errors_reach_the_caller context.WithCancel_cancelled 1
              "Buy milk" "2 l" true fresh errors.Canceled)
    as (Hcreate & _ & _ & _ & _ & _ & _ & Hwrapped).
  destruct (storage_errors_reach_the_caller context.WithDeadline_expired 1
              "Buy milk" "2 l" true fresh errors.DeadlineExceeded)
    as (_ & _ & Hall & _).
  destruct (storage_errors_reach_the_caller context.Background 1
              "Buy milk" "2 l" true fresh domain.ErrNotExists)
    as (_ & Hget & _ & Hupdate & _ & Hdelete & _).
  split; [exact (Hcreate eq_refl eq_refl) |].
  split; [exact (Hall eq_refl) |].
  split; [exact (Hget eq_refl) |].
  split; [exact (Hupdate eq_refl) |].
  split; [exact (Hdelete eq_refl) |].
  exact (Hwrapped "failed to save task: ").
Defined.

End Instances.

(** * Further properties of the storage engine *)

Section StorageMore.

Context {V : Type} `{GoZero V}.
Implicit Types (m : InMemory.InMemory V) (ctx : Context) (v : V) (id : Z).

(** X1. GetAll with a live context succeeds, leaves the store as it was, and
    returns a snapshot of the map: a pair for every entry and no other pair,
    every identifier once, as many pairs as the map has entries. *)
Theorem GetAll_lists_every_entry_once ctx m :
  context.Err ctx = None ->
  let elems := (InMemory.GetAll ctx m).1.1 in
  (InMemory.GetAll ctx m).1.2 = None /\
  (InMemory.GetAll ctx m).2 = m /\
  (forall id v,
     In {| domain.Elem_ID := id; domain.Elem_Value := v |} elems <->
     InMemory.data m !! id = Some v) /\
  NoDup (map domain.Elem_ID elems) /\
  length elems = size (InMemory.data m).
Proof.
  intros Hctx elems. subst elems. unfold InMemory.GetAll. rewrite Hctx.
  cbn [fst snd]. split; [reflexivity | split; [reflexivity |]].
  split; [| split].
  - intros id v. rewrite in_map_iff. split.
    + intros [[k x] [Heq Hin]]. inversion Heq; subst.
      apply list_elem_of_In, elem_of_map_to_list in Hin. exact Hin.
    + intros Hlook. exists (id, v). split; [reflexivity |].
      apply list_elem_of_In, elem_of_map_to_list. exact Hlook.
  - rewrite map_map. cbn [domain.Elem_ID].
    apply (NoDup_fst_map_to_list (InMemory.data m)).
  - rewrite length_map. apply length_map_to_list.
Qed.

(** X2. Delete with a live context: of a present identifier it removes that one
    entry and nothing else (the other entries and the counter stay, the map
    has one entry less); of an absent identifier it fails with NotFound and
    returns the store as it was. *)
Theorem Delete_removes_exactly_one_entry ctx id m :
  context.Err ctx = None ->
  let err := (InMemory.Delete ctx id m).1 in
  let m' := (InMemory.Delete ctx id m).2 in
  (is_Some (InMemory.data m !! id) ->
   err = None /\
   InMemory.data m' !! id = None /\
   (forall k, k <> id -> InMemory.data m' !! k = InMemory.data m !! k) /\
   InMemory.serialID m' = InMemory.serialID m /\
   S (size (InMemory.data m')) = size (InMemory.data m)) /\
  (InMemory.data m !! id = None ->
   err = Some domain.ErrNotExists /\ m' = m).
Proof.
  intros Hctx err m'. subst err m'. rewrite (Delete_live ctx id m Hctx).
  split.
  - intros [v Hv]. rewrite Hv. cbn [fst snd InMemory.data InMemory.serialID].
    split; [reflexivity |]. split; [apply lookup_delete_eq |].
    split; [intros k Hk; apply lookup_delete_ne; congruence |].
    split; [reflexivity |].
    rewrite <- (insert_delete_id (InMemory.data m) id v Hv) at 2.
    rewrite map_size_insert_None by apply lookup_delete_eq. reflexivity.
  - intros Hnone. rewrite Hnone. split; reflexivity.
Qed.

Lemma Save_error_keeps_store ctx v id m :
  (InMemory.Save ctx v id m).1.2 <> None -> (InMemory.Save ctx v id m).2 = m.
Proof.
  unfold InMemory.Save. destruct (context.Err ctx); [reflexivity |].
  destruct (id =? 0); cbn [fst snd]; congruence.
Qed.

Lemma Delete_error_keeps_store ctx id m :
  (InMemory.Delete ctx id m).1 <> None -> (InMemory.Delete ctx id m).2 = m.
Proof.
  unfold InMemory.Delete. destruct (context.Err ctx); [reflexivity |].
  destruct (InMemory.data m !! id); cbn [fst snd]; [congruence | reflexivity].
Qed.

(** X3. A storage call that returns an error, whatever the error, returns the
    store as it was: no failure path changes the map or the counter. *)
Theorem storage_failure_keeps_store ctx v id m :
  ((InMemory.Save ctx v id m).1.2 <> None ->
   (InMemory.Save ctx v id m).2 = m) /\
  ((InMemory.GetByID ctx id m).1.2 <> None ->
   (InMemory.GetByID ctx id m).2 = m) /\
  ((InMemory.GetAll ctx m).1.2 <> None ->
   (InMemory.GetAll ctx m).2 = m) /\
  ((InMemory.Delete ctx id m).1 <> None ->
   (InMemory.Delete ctx id m).2 = m).
Proof.
  split; [apply Save_error_keeps_store |].
  split; [| split; [| apply Delete_error_keeps_store]].
  - unfold InMemory.GetByID. destruct (context.Err ctx); [reflexivity |].
    destruct (InMemory.data m !! id); reflexivity.
  - unfold InMemory.GetAll. destruct (context.Err ctx); reflexivity.
Qed.

(** The map after a run of auto-assigned Saves whose identifiers do not
    pass the end of the uint64 range: the [i]-th value sits at the counter's
    start plus [i], every other key is as before. *)
Lemma auto_saves_data (calls : list (Context * V)) : forall m k,
  Forall (fun c => context.Err c.1 = None) calls ->
  is_uint64 (InMemory.serialID m) ->
  InMemory.serialID m + Z.of_nat (length calls) <= uint64_modulus ->
  InMemory.data (InMemory.auto_saves calls m).2 !! k
  = if (InMemory.serialID m <=? k) &&
       (k <? InMemory.serialID m + Z.of_nat (length calls))
    then snd <$> calls !! Z.to_nat (k - InMemory.serialID m)
    else InMemory.data m !! k.
Proof.
  induction calls as [| [ctx v] calls IH]; intros m k Hlive Hs Hbound.
  - cbn [InMemory.auto_saves snd length].
    destruct (Z.leb_spec (InMemory.serialID m) k);
      destruct (Z.ltb_spec k (InMemory.serialID m + Z.of_nat 0));
      cbn [andb]; try reflexivity; lia.
  - inversion Hlive as [| c cs Hctx Hrest]; subst. cbn [fst] in Hctx.
    cbn [InMemory.auto_saves]. rewrite (Save_auto ctx v m Hctx).
    set (m1 := {| InMemory.serialID := wrap64 (InMemory.serialID m + 1);
                  InMemory.data := _ |}).
    destruct (InMemory.auto_saves calls m1) as [rs m2] eqn:Eruns.
    cbn [snd]. replace m2 with (InMemory.auto_saves calls m1).2
      by (rewrite Eruns; reflexivity).
    cbn [length] in Hbound |- *. unfold is_uint64 in Hs.
    destruct calls as [| call calls'].
    + cbn [InMemory.auto_saves snd]. subst m1. cbn [InMemory.data length].
      destruct (Z.eq_dec k (InMemory.serialID m)) as [-> | Hne].
      * rewrite lookup_insert_eq.
        destruct (Z.leb_spec (InMemory.serialID m) (InMemory.serialID m));
          [| lia].
        destruct (Z.ltb_spec (InMemory.serialID m)
                             (InMemory.serialID m + Z.of_nat 1)); [| lia].
        rewrite Z.sub_diag. reflexivity.
      * rewrite lookup_insert_ne by congruence.
        destruct (Z.leb_spec (InMemory.serialID m) k);
          destruct (Z.ltb_spec k (InMemory.serialID m + Z.of_nat 1));
          cbn [andb]; try reflexivity; lia.
    + assert (Hnext : wrap64 (InMemory.serialID m + 1)
                      = InMemory.serialID m + 1).
      { apply wrap64_small. unfold is_uint64. cbn [length] in Hbound. lia. }
      rewrite IH; [| exact Hrest | apply wrap64_range
                   | subst m1; cbn [InMemory.serialID]; rewrite Hnext; lia].
      subst m1. cbn [InMemory.serialID InMemory.data]. rewrite Hnext.
      set (n := length (call :: calls')) in *.
      destruct (Z.leb_spec (InMemory.serialID m + 1) k) as [Hge | Hlt];
        destruct (Z.ltb_spec k (InMemory.serialID m + 1 + Z.of_nat n))
          as [Hin | Hout]; cbn [andb].
      * destruct (Z.leb_spec (InMemory.serialID m) k); [| lia].
        destruct (Z.ltb_spec k (InMemory.serialID m + Z.of_nat (S n)));
          [| lia].
        cbn [andb].
        replace (Z.to_nat (k - InMemory.serialID m))
          with (S (Z.to_nat (k - (InMemory.serialID m + 1)))) by lia.
        reflexivity.
      * rewrite lookup_insert_ne by lia.
        destruct (Z.leb_spec (InMemory.serialID m) k); [| lia].
        destruct (Z.ltb_spec k (InMemory.serialID m + Z.of_nat (S n)));
          [lia | reflexivity].
      * destruct (Z.eq_dec k (InMemory.serialID m)) as [-> | Hne].
        -- rewrite lookup_insert_eq.
           destruct (Z.leb_spec (InMemory.serialID m) (InMemory.serialID m));
             [| lia].
           destruct (Z.ltb_spec (InMemory.serialID m)
                        (InMemory.serialID m + Z.of_nat (S n))); [| lia].
           rewrite Z.sub_diag. reflexivity.
        -- rewrite lookup_insert_ne by congruence.
           destruct (Z.leb_spec (InMemory.serialID m) k); [lia |].
           reflexivity.
      * lia.
Qed.

(** X4. No auto-assigned Save is lost. After N auto-assigned Saves on a freshly
    constructed store (live contexts, N below 2^64) the map has exactly N
    entries, the [i]-th saved value is the one stored at identifier [i + 1],
    and GetAll returns N pairs. *)
Theorem auto_saves_lose_nothing (calls : list (Context * V)) :
  Forall (fun c => context.Err c.1 = None) calls ->
  Z.of_nat (length calls) < uint64_modulus ->
  let m := (InMemory.auto_saves calls InMemory.NewInMemory).2 in
  size (InMemory.data m) = length calls /\
  (forall (i : nat) c, calls !! i = Some c ->
     InMemory.data m !! (1 + Z.of_nat i) = Some c.2) /\
  length (InMemory.GetAll context.Background m).1.1 = length calls.
Proof.
  intros Hlive Hbound m.
  assert (Hone : is_uint64 (InMemory.serialID (@InMemory.NewInMemory V)))
    by (unfold is_uint64, uint64_modulus; simpl; lia).
  assert (Hlook : forall k,
    InMemory.data m !! k
    = if (1 <=? k) && (k <? 1 + Z.of_nat (length calls))
      then snd <$> calls !! Z.to_nat (k - 1) else None).
  { intros k. subst m.
    rewrite (auto_saves_data calls InMemory.NewInMemory k Hlive Hone)
      by (cbn [InMemory.NewInMemory InMemory.serialID]; lia).
    cbn [InMemory.NewInMemory InMemory.serialID InMemory.data].
    rewrite lookup_empty. reflexivity. }
  assert (Hsize : size (InMemory.data m) = length calls).
  { rewrite <- size_dom.
    assert (Hdom : dom (InMemory.data m)
                   = list_to_set (seqZ 1 (Z.of_nat (length calls)))).
    { apply set_eq. intros k.
      rewrite elem_of_dom, elem_of_list_to_set, elem_of_seqZ, Hlook.
      destruct (Z.leb_spec 1 k); destruct (Z.ltb_spec k (1 + Z.of_nat (length calls)));
        cbn [andb]; split; intros Hk; try lia;
        try (destruct Hk as [x Hx]; discriminate).
      destruct (lookup_lt_is_Some_2 calls (Z.to_nat (k - 1))) as [c Hc];
        [lia |].
      rewrite Hc. eexists. reflexivity. }
    rewrite Hdom, size_list_to_set by apply NoDup_seqZ.
    rewrite length_seqZ. lia. }
  split; [exact Hsize | split].
  - intros i c Hi. rewrite Hlook.
    pose proof (lookup_lt_Some _ _ _ Hi) as Hlt.
    destruct (Z.leb_spec 1 (1 + Z.of_nat i)); [| lia].
    destruct (Z.ltb_spec (1 + Z.of_nat i) (1 + Z.of_nat (length calls)));
      [| lia].
    cbn [andb]. replace (Z.to_nat (1 + Z.of_nat i - 1)) with i by lia.
    rewrite Hi. reflexivity.
  - unfold InMemory.GetAll. cbn [context.Err fst snd].
    rewrite length_map, length_map_to_list. exact Hsize.
Qed.

(** X5. Upsert is last-writer-wins: two Saves at one explicit identifier (live
    contexts) leave the store that the second Save alone would leave, and
    GetByID returns the second value. *)
Theorem Save_last_writer_wins ctx1 ctx2 ctx3 v1 v2 id m :
  id <> 0 ->
  context.Err ctx1 = None ->
  context.Err ctx2 = None ->
  context.Err ctx3 = None ->
  let m2 := (InMemory.Save ctx2 v2 id (InMemory.Save ctx1 v1 id m).2).2 in
  m2 = (InMemory.Save ctx2 v2 id m).2 /\
  InMemory.GetByID ctx3 id m2 = ((v2, None), m2).
Proof.
  intros Hid H1 H2 H3 m2. subst m2.
  rewrite (Save_explicit ctx1 v1 id m H1 Hid). cbn [snd].
  rewrite !(Save_explicit ctx2 v2 id _ H2 Hid).
  cbn [snd InMemory.serialID InMemory.data]. rewrite insert_insert_eq.
  split; [reflexivity |].
  rewrite (GetByID_live ctx3 id _ H3). cbn [InMemory.data].
  rewrite lookup_insert_eq. reflexivity.
Qed.

End StorageMore.

(** * Further properties of the task service over the in-memory store *)

Section ServiceMore.

Implicit Types (m : InMemory.InMemory domain.TaskSchema) (ctx : Context).

Lemma InMemory_GetAll_state ctx m : (InMemory.GetAll ctx m).2 = m.
Proof. unfold InMemory.GetAll. destruct (context.Err ctx); reflexivity. Qed.

Lemma InMemory_GetByID_state_service ctx id m :
  TaskService.serve m (TaskService.ReqGetByID ctx id) = m.
Proof.
  cbn [TaskService.serve]. unfold TaskService.GetByID.
  cbn [TaskStorage.GetByID InMemory_TaskStorage].
  pose proof (InMemory_GetByID_state ctx id m) as Hst.
  destruct (InMemory.GetByID ctx id m) as [[t [err |]] m1];
    cbn [snd] in *; exact Hst.
Qed.

Lemma InMemory_GetAll_state_service ctx m :
  TaskService.serve m (TaskService.ReqGetAll ctx) = m.
Proof.
  cbn [TaskService.serve]. unfold TaskService.GetAll.
  cbn [TaskStorage.GetAll InMemory_TaskStorage].
  pose proof (InMemory_GetAll_state ctx m) as Hst.
  destruct (InMemory.GetAll ctx m) as [[t [err |]] m1];
    cbn [snd] in *; exact Hst.
Qed.

Lemma service_Update_state ctx id title description isDone m :
  (TaskService.Update ctx id title description isDone m).2
  = match context.Err ctx with
    | Some _ => m
    | None =>
      match InMemory.data m !! id with
      | None => m
      | Some _ =>
        if String.eqb (GoStrings.TrimSpace title) "" then m
        else (InMemory.Save ctx {| domain.Title := title;
                                   domain.Description := description;
                                   domain.IsDone := isDone |} id m).2
      end
    end.
Proof.
  unfold TaskService.Update.
  cbn [TaskStorage.GetByID TaskStorage.Save InMemory_TaskStorage].
  unfold InMemory.GetByID. destruct (context.Err ctx) as [e |] eqn:Hctx;
    [reflexivity |].
  destruct (InMemory.data m !! id); [| reflexivity].
  cbn [fst snd]. rewrite Update_record. unfold utils.Validate.
  cbn [domain.Title].
  destruct (String.eqb (GoStrings.TrimSpace title) ""); [reflexivity |].
  unfold InMemory.Save. rewrite Hctx. destruct (id =? 0); reflexivity.
Qed.

Lemma Err_cases ctx :
  context.Err ctx = None \/ context.Err ctx = Some errors.Canceled \/
  context.Err ctx = Some errors.DeadlineExceeded.
Proof. destruct ctx; cbn; auto. Qed.

(** X6. A service call that returns an error returns the store as it was:
    rejected and failed requests change nothing. *)
Theorem service_failure_keeps_store ctx id title description isDone m :
  ((TaskService.Create ctx title description m).1.2 <> None ->
   (TaskService.Create ctx title description m).2 = m) /\
  ((TaskService.GetByID ctx id m).1.2 <> None ->
   (TaskService.GetByID ctx id m).2 = m) /\
  ((TaskService.GetAll ctx m).1.2 <> None ->
   (TaskService.GetAll ctx m).2 = m) /\
  ((TaskService.Update ctx id title description isDone m).1 <> None ->
   (TaskService.Update ctx id title description isDone m).2 = m) /\
  ((TaskService.Delete ctx id m).1 <> None ->
   (TaskService.Delete ctx id m).2 = m).
Proof.
  unfold TaskService.Create, TaskService.GetByID, TaskService.GetAll,
    TaskService.Update, TaskService.Delete.
  cbn [TaskStorage.Save TaskStorage.GetByID TaskStorage.GetAll
       TaskStorage.Delete InMemory_TaskStorage].
  pose proof (InMemory_GetByID_state ctx id m) as Hget.
  pose proof (InMemory_GetAll_state ctx m) as Hall.
  destruct (InMemory.GetByID ctx id m) as [[old gerr] mg].
  destruct (InMemory.GetAll ctx m) as [[elems aerr] ma].
  cbn [snd] in Hget, Hall. subst mg ma.
  split; [| split; [| split; [| split]]].
  - destruct (utils.Validate _); [reflexivity |].
    pose proof (Save_error_keeps_store ctx
                  {| domain.Title := title; domain.Description := description;
                     domain.IsDone := false |} 0 m) as Hsave.
    destruct (InMemory.Save ctx _ 0 m) as [[id1 [e |]] m1]; cbn [fst snd] in *.
    + intros _. apply Hsave. discriminate.
    + intros Hne. contradiction.
  - destruct gerr; reflexivity.
  - destruct aerr; reflexivity.
  - destruct gerr; [reflexivity |]. rewrite Update_record.
    destruct (utils.Validate _); [reflexivity |].
    pose proof (Save_error_keeps_store ctx
                  {| domain.Title := title; domain.Description := description;
                     domain.IsDone := isDone |} id m) as Hsave.
    destruct (InMemory.Save ctx _ id m) as [[id1 [e |]] m1]; cbn [fst snd] in *.
    + intros _. apply Hsave. discriminate.
    + intros Hne. contradiction.
  - pose proof (Delete_error_keeps_store ctx id m) as Hdel.
    destruct (InMemory.Delete ctx id m) as [[e |] m1]; cbn [fst snd] in *.
    + intros _. apply Hdel. discriminate.
    + intros Hne. contradiction.
Qed.

Lemma InMemory_error_kinds ctx (task : domain.TaskSchema) id m :
  (forall c, (InMemory.Save ctx task id m).1.2 = Some c ->
             c = errors.Canceled \/ c = errors.DeadlineExceeded) /\
  (forall c, (InMemory.GetByID ctx id m).1.2 = Some c ->
             c = domain.ErrNotExists \/
             (c = errors.Canceled \/ c = errors.DeadlineExceeded)) /\
  (forall c, (InMemory.GetAll ctx m).1.2 = Some c ->
             c = errors.Canceled \/ c = errors.DeadlineExceeded) /\
  (forall c, (InMemory.Delete ctx id m).1 = Some c ->
             c = domain.ErrNotExists \/
             (c = errors.Canceled \/ c = errors.DeadlineExceeded)).
Proof.
  unfold InMemory.Save, InMemory.GetByID, InMemory.GetAll, InMemory.Delete.
  destruct (Err_cases ctx) as [Hc | [Hc | Hc]]; rewrite Hc;
    split; [| split; [| split] | | split; [| split] | | split; [| split]];
    intros c Hres;
    try (destruct (id =? 0)); try (destruct (InMemory.data m !! id));
    cbn [fst snd] in Hres; inversion Hres; subst; auto.
Qed.

(** The in-memory store fails in the same ways when the context fires
    between two calls. *)
Lemma Firing_error_kinds :
  (forall ctx task id (f : Firing.Firing) c,
     (TaskStorage.Save ctx task id f).1.2 = Some c ->
     c = errors.Canceled \/ c = errors.DeadlineExceeded) /\
  (forall ctx id (f : Firing.Firing) c,
     (TaskStorage.GetByID ctx id f).1.2 = Some c ->
     c = domain.ErrNotExists \/
     (c = errors.Canceled \/ c = errors.DeadlineExceeded)) /\
  (forall ctx (f : Firing.Firing) c,
     (TaskStorage.GetAll ctx f).1.2 = Some c ->
     c = errors.Canceled \/ c = errors.DeadlineExceeded) /\
  (forall ctx id (f : Firing.Firing) c,
     (TaskStorage.Delete ctx id f).1 = Some c ->
     c = domain.ErrNotExists \/
     (c = errors.Canceled \/ c = errors.DeadlineExceeded)).
Proof.
  split; [| split; [| split]].
  - intros ctx task id f c.
    apply (InMemory_error_kinds (Firing.seen ctx f) task id (Firing.store f)).
  - intros ctx id f c.
    apply (InMemory_error_kinds (Firing.seen ctx f) zero id (Firing.store f)).
  - intros ctx f c.
    apply (InMemory_error_kinds (Firing.seen ctx f) zero 0 (Firing.store f)).
  - intros ctx id f c.
    apply (InMemory_error_kinds (Firing.seen ctx f) zero id (Firing.store f)).
Qed.

(** X7. The errors the service returns, all of them, over any backend that
    fails as the in-memory store does (Save and GetAll with the context's
    error, GetByID and Delete with NotFound or the context's error:
    [InMemory_error_kinds]), also when the context fires between two
    storage calls of one request ([Firing_error_kinds]):
    Create fails with the wrapped validation error or with the context's
    error wrapped by the save; GetByID and Delete fail with NotFound or the
    context's error, bare; GetAll fails with the context's error, wrapped;
    Update fails with NotFound or the context's error, bare, from its read,
    with the wrapped validation error, or with the context's error wrapped
    by its save. Every one matches exactly one of EmptyTitle, NotFound,
    Canceled and DeadlineExceeded under errors.Is. *)
Theorem service_errors_are_classified {R : Type} `{TaskStorage R}
  ctx id title description isDone (repo : R) e :
  let ctx_error c := c = errors.Canceled \/ c = errors.DeadlineExceeded in
  let one_kind e :=
    (if errors.Is e domain.ErrEmptyTitle then 1 else 0) +
    (if errors.Is e domain.ErrNotExists then 1 else 0) +
    (if errors.Is e errors.Canceled then 1 else 0) +
    (if errors.Is e errors.DeadlineExceeded then 1 else 0) = 1 in
  (forall ctx' task id' (r : R) c,
     (TaskStorage.Save ctx' task id' r).1.2 = Some c -> ctx_error c) ->
  (forall ctx' id' (r : R) c,
     (TaskStorage.GetByID ctx' id' r).1.2 = Some c ->
     c = domain.ErrNotExists \/ ctx_error c) ->
  (forall ctx' (r : R) c,
     (TaskStorage.GetAll ctx' r).1.2 = Some c -> ctx_error c) ->
  (forall ctx' id' (r : R) c,
     (TaskStorage.Delete ctx' id' r).1 = Some c ->
     c = domain.ErrNotExists \/ ctx_error c) ->
  ((TaskService.Create ctx title description repo).1.2 = Some e ->
   (e = errors.Errorf_w "validation failed: " domain.ErrEmptyTitle \/
    exists c, ctx_error c /\ e = errors.Errorf_w "failed to save task: " c)
   /\ one_kind e) /\
  ((TaskService.GetByID ctx id repo).1.2 = Some e ->
   (e = domain.ErrNotExists \/ ctx_error e) /\ one_kind e) /\
  ((TaskService.GetAll ctx repo).1.2 = Some e ->
   (exists c, ctx_error c /\ e = errors.Errorf_w "failed to get tasks: " c)
   /\ one_kind e) /\
  ((TaskService.Update ctx id title description isDone repo).1 = Some e ->
   (e = domain.ErrNotExists \/ ctx_error e \/
    e = errors.Errorf_w "validation failed: " domain.ErrEmptyTitle \/
    exists c, ctx_error c /\
              e = errors.Errorf_w "failed to update task: " c)
   /\ one_kind e) /\
  ((TaskService.Delete ctx id repo).1 = Some e ->
   (e = domain.ErrNotExists \/ ctx_error e) /\ one_kind e).
Proof.
  intros ctx_error one_kind HSave HGet HAll HDelete.
  subst ctx_error one_kind. cbv beta in *.
  unfold TaskService.Create, TaskService.GetByID, TaskService.GetAll,
    TaskService.Update, TaskService.Delete.
  split; [| split; [| split; [| split]]].
  - destruct (utils.Validate _) as [ve |] eqn:Hv.
    + apply Validate_error in Hv. subst ve. cbn [fst snd].
      intros He. inversion He; subst e. split; [left; reflexivity |].
      reflexivity.
    + specialize (HSave ctx {| domain.Title := title;
                               domain.Description := description;
                               domain.IsDone := false |} 0 repo).
      destruct (TaskStorage.Save ctx _ 0 repo) as [[id1 [c |]] repo1];
        cbn [fst snd] in *; [| discriminate].
      intros He. inversion He; subst e.
      destruct (HSave c eq_refl) as [-> | ->];
        (split; [right; eexists; split; [| reflexivity]; auto | reflexivity]).
  - specialize (HGet ctx id repo).
    destruct (TaskStorage.GetByID ctx id repo) as [[task [c |]] repo1];
      cbn [fst snd] in *; [| discriminate].
    intros He. inversion He; subst e.
    destruct (HGet c eq_refl) as [-> | [-> | ->]];
      (split; [auto | reflexivity]).
  - specialize (HAll ctx repo).
    destruct (TaskStorage.GetAll ctx repo) as [[elems [c |]] repo1];
      cbn [fst snd] in *; [| discriminate].
    intros He. inversion He; subst e.
    destruct (HAll c eq_refl) as [-> | ->];
      (split; [eexists; split; [| reflexivity]; auto | reflexivity]).
  - specialize (HGet ctx id repo).
    destruct (TaskStorage.GetByID ctx id repo) as [[task [c |]] repo1];
      cbn [fst snd] in *.
    + intros He. inversion He; subst e.
      destruct (HGet c eq_refl) as [-> | [-> | ->]];
        (split; [auto | reflexivity]).
    + rewrite Update_record.
      destruct (utils.Validate _) as [ve |] eqn:Hv.
      * apply Validate_error in Hv. subst ve.
        intros He. inversion He; subst e.
        split; [right; right; left |]; reflexivity.
      * specialize (HSave ctx {| domain.Title := title;
                                 domain.Description := description;
                                 domain.IsDone := isDone |} id repo1).
        destruct (TaskStorage.Save ctx _ id repo1) as [[id1 [c |]] repo2];
          cbn [fst snd] in *; [| discriminate].
        intros He. inversion He; subst e.
        destruct (HSave c eq_refl) as [-> | ->];
          (split; [right; right; right; eexists; split; [| reflexivity]; auto
                  | reflexivity]).
  - specialize (HDelete ctx id repo).
    destruct (TaskStorage.Delete ctx id repo) as [[c |] repo1];
      cbn [fst snd] in *; [| discriminate].
    intros He. inversion He; subst e.
    destruct (HDelete c eq_refl) as [-> | [-> | ->]];
      (split; [auto | reflexivity]).
Qed.

(** X8. Update is a full overwrite of one record. With a live context, a valid
    title and a present identifier other than 0, Update succeeds; GetByID
    then returns the task made of the identifier and exactly the three
    arguments, whatever the record held before; every other record, the
    counter and the number of records are as before. *)
Theorem Update_overwrites_one_record ctx ctx' id title description isDone m :
  GoStrings.TrimSpace title <> "" ->
  context.Err ctx = None ->
  context.Err ctx' = None ->
  is_Some (InMemory.data m !! id) ->
  id <> 0 ->
  let m' := (TaskService.Update ctx id title description isDone m).2 in
  (TaskService.Update ctx id title description isDone m).1 = None /\
  TaskService.GetByID ctx' id m'
  = (({| domain.ID := id;
         domain.Schema := {| domain.Title := title;
                             domain.Description := description;
                             domain.IsDone := isDone |} |}, None), m') /\
  (forall k, k <> id -> InMemory.data m' !! k = InMemory.data m !! k) /\
  InMemory.serialID m' = InMemory.serialID m /\
  size (InMemory.data m') = size (InMemory.data m).
Proof.
  intros Hvalid Hctx Hctx' Hpresent Hid m'. subst m'.
  rewrite (Update_valid ctx id title description isDone m Hvalid Hctx Hpresent).
  rewrite (Save_explicit ctx _ id m Hctx Hid).
  cbn [fst snd InMemory.data InMemory.serialID].
  split; [reflexivity |]. split; [| split; [| split]].
  - unfold TaskService.GetByID.
    cbn [TaskStorage.GetByID InMemory_TaskStorage].
    rewrite (GetByID_live ctx' id _ Hctx'). cbn [InMemory.data].
    rewrite lookup_insert_eq. reflexivity.
  - intros k Hk. apply lookup_insert_ne. congruence.
  - reflexivity.
  - destruct Hpresent as [old Hold].
    rewrite <- (insert_delete_id (InMemory.data m) id old Hold) at 2.
    rewrite <- (insert_delete_eq (InMemory.data m)).
    rewrite !map_size_insert_None by apply lookup_delete_eq. reflexivity.
Qed.

(** X9. The service's GetAll with a live context succeeds, leaves the store as
    it was and returns one task per stored record, carrying the record's
    identifier and fields: a task is listed exactly when it is stored, no
    identifier is listed twice, and the list is as long as the store is
    large, so it is empty for the empty store. *)
Theorem service_GetAll_lists_the_store ctx m :
  context.Err ctx = None ->
  let tasks := (TaskService.GetAll ctx m).1.1 in
  (TaskService.GetAll ctx m).1.2 = None /\
  (TaskService.GetAll ctx m).2 = m /\
  (forall id schema,
     In {| domain.ID := id; domain.Schema := schema |} tasks <->
     InMemory.data m !! id = Some schema) /\
  NoDup (map domain.ID tasks) /\
  length tasks = size (InMemory.data m) /\
  (InMemory.data m = ∅ -> tasks = []).
Proof.
  intros Hctx tasks. subst tasks. unfold TaskService.GetAll.
  cbn [TaskStorage.GetAll InMemory_TaskStorage].
  unfold InMemory.GetAll. rewrite Hctx. cbn [fst snd].
  split; [reflexivity | split; [reflexivity |]].
  rewrite map_map. cbn [domain.Elem_ID domain.Elem_Value].
  split; [| split; [| split]].
  - intros id schema. rewrite in_map_iff. split.
    + intros [[k x] [Heq Hin]]. inversion Heq; subst.
      apply list_elem_of_In, elem_of_map_to_list in Hin. exact Hin.
    + intros Hlook. exists (id, schema). split; [reflexivity |].
      apply list_elem_of_In, elem_of_map_to_list. exact Hlook.
  - rewrite map_map. cbn [domain.ID].
    apply (NoDup_fst_map_to_list (InMemory.data m)).
  - rewrite length_map. apply length_map_to_list.
  - intros Hempty. rewrite Hempty, map_to_list_empty. reflexivity.
Qed.

(** The identifiers in a store reached through the service lie below the
    counter, which has advanced at most once per request. *)
Lemma serve_keeps_ids_below_counter (n : Z) m req :
  0 <= n < uint64_modulus - 2 ->
  (1 <= InMemory.serialID m <= 1 + n /\
   forall k, is_Some (InMemory.data m !! k) ->
             1 <= k < InMemory.serialID m) ->
  let m' := TaskService.serve m req in
  1 <= InMemory.serialID m' <= 1 + (n + 1) /\
  forall k, is_Some (InMemory.data m' !! k) -> 1 <= k < InMemory.serialID m'.
Proof.
  intros Hn [Hs Hkeys] m'. subst m'.
  assert (Hnext : wrap64 (InMemory.serialID m + 1) = InMemory.serialID m + 1)
    by (apply wrap64_small; unfold is_uint64; lia).
  assert (Hsame : 1 <= InMemory.serialID m <= 1 + (n + 1) /\
                  forall k, is_Some (InMemory.data m !! k) ->
                            1 <= k < InMemory.serialID m)
    by (split; [lia | exact Hkeys]).
  destruct req as [ctx title description | ctx id0 | ctx
                  | ctx id0 title description isDone | ctx id0].
  - cbn [TaskService.serve]. unfold TaskService.Create.
    destruct (utils.Validate _); [exact Hsame |].
    cbn [TaskStorage.Save InMemory_TaskStorage]. unfold InMemory.Save.
    destruct (context.Err ctx); [exact Hsame |].
    cbn [Z.eqb fst snd InMemory.serialID InMemory.data]. rewrite Hnext.
    split; [lia |]. intros k Hk.
    destruct (Z.eq_dec k (InMemory.serialID m)) as [-> | Hne]; [lia |].
    rewrite lookup_insert_ne in Hk by congruence.
    specialize (Hkeys k Hk). lia.
  - rewrite InMemory_GetByID_state_service. exact Hsame.
  - rewrite InMemory_GetAll_state_service. exact Hsame.
  - cbn [TaskService.serve]. unfold TaskService.Update.
    cbn [TaskStorage.GetByID TaskStorage.Save InMemory_TaskStorage].
    unfold InMemory.GetByID. destruct (context.Err ctx) eqn:Hctx;
      [exact Hsame |].
    destruct (InMemory.data m !! id0) as [old |] eqn:Hold; [| exact Hsame].
    cbn [fst snd]. destruct (utils.Validate _); [exact Hsame |].
    assert (Hid : id0 <> 0)
      by (specialize (Hkeys id0 (ex_intro _ old Hold)); lia).
    rewrite (Save_explicit ctx _ id0 m Hctx Hid).
    cbn [fst snd InMemory.serialID InMemory.data].
    split; [lia |]. intros k Hk.
    destruct (Z.eq_dec k id0) as [-> | Hne].
    + apply Hkeys. eauto.
    + rewrite lookup_insert_ne in Hk by congruence. exact (Hkeys k Hk).
  - cbn [TaskService.serve]. unfold TaskService.Delete.
    cbn [TaskStorage.Delete InMemory_TaskStorage]. unfold InMemory.Delete.
    destruct (context.Err ctx); [exact Hsame |].
    destruct (InMemory.data m !! id0); [| exact Hsame].
    cbn [fst snd InMemory.serialID InMemory.data].
    split; [lia |]. intros k [x Hk].
    apply lookup_delete_Some in Hk as [_ Hk]. apply Hkeys. eauto.
Qed.

Lemma serve_all_keeps_ids_below_counter reqs : forall (n : Z) m,
  0 <= n ->
  n + Z.of_nat (length reqs) < uint64_modulus - 1 ->
  (1 <= InMemory.serialID m <= 1 + n /\
   forall k, is_Some (InMemory.data m !! k) ->
             1 <= k < InMemory.serialID m) ->
  let m' := TaskService.serve_all reqs m in
  1 <= InMemory.serialID m' <= 1 + (n + Z.of_nat (length reqs)) /\
  forall k, is_Some (InMemory.data m' !! k) -> 1 <= k < InMemory.serialID m'.
Proof.
  induction reqs as [| req reqs IH]; intros n m Hn Hbound Hinv m'; subst m'.
  - cbn [TaskService.serve_all fold_left length]. rewrite Z.add_0_r.
    exact Hinv.
  - unfold TaskService.serve_all. cbn [fold_left length] in *.
    pose proof (serve_keeps_ids_below_counter n m req) as Hstep.
    cbv zeta in Hstep.
    specialize (IH (n + 1) (TaskService.serve m req)).
    cbv zeta in IH. unfold TaskService.serve_all in IH.
    replace (n + Z.of_nat (S (length reqs)))
      with (n + 1 + Z.of_nat (length reqs)) by lia.
    apply IH; [lia | lia |]. apply Hstep; [lia | exact Hinv].
Qed.

(** One request moves the counter forward by at most one step, and a
    Create that succeeds returns the counter's value and moves it by one. *)
Lemma serve_moves_counter_forward m req :
  0 <= InMemory.serialID m ->
  InMemory.serialID m + 1 < uint64_modulus ->
  let m' := TaskService.serve m req in
  InMemory.serialID m <= InMemory.serialID m' <= InMemory.serialID m + 1 /\
  forall ctx title description task,
    req = TaskService.ReqCreate ctx title description ->
    (TaskService.Create ctx title description m).1 = (task, None) ->
    domain.ID task = InMemory.serialID m /\
    InMemory.serialID m' = InMemory.serialID m + 1.
Proof.
  intros Hlo Hhi m'. subst m'.
  assert (Hnext : wrap64 (InMemory.serialID m + 1) = InMemory.serialID m + 1)
    by (apply wrap64_small; unfold is_uint64; lia).
  assert (Hsave : forall ctx (task : domain.TaskSchema) id,
    InMemory.serialID m <= InMemory.serialID (InMemory.Save ctx task id m).2
    <= InMemory.serialID m + 1).
  { intros ctx task id. unfold InMemory.Save.
    destruct (context.Err ctx); [cbn [snd]; lia |].
    destruct (id =? 0); cbn [snd InMemory.serialID]; lia. }
  destruct req as [ctx title description | ctx id0 | ctx
                  | ctx id0 title description isDone | ctx id0].
  - cbn [TaskService.serve].
    assert (Hcreate : forall task,
      (TaskService.Create ctx title description m).1 = (task, None) ->
      domain.ID task = InMemory.serialID m /\
      InMemory.serialID (TaskService.Create ctx title description m).2
      = InMemory.serialID m + 1).
    { intros task. unfold TaskService.Create.
      destruct (utils.Validate _) as [verr |]; [discriminate |].
      cbn [TaskStorage.Save InMemory_TaskStorage]. unfold InMemory.Save.
      destruct (context.Err ctx); [discriminate |].
      cbn [Z.eqb fst snd InMemory.serialID]. intros Hres.
      inversion Hres. cbn [domain.ID]. split; [reflexivity | exact Hnext]. }
    split.
    + unfold TaskService.Create.
      destruct (utils.Validate _) as [verr |]; [cbn [snd]; lia |].
      cbn [TaskStorage.Save InMemory_TaskStorage].
      specialize (Hsave ctx {| domain.Title := title;
                               domain.Description := description;
                               domain.IsDone := false |} 0).
      destruct (InMemory.Save ctx _ 0 m) as [[id1 [err |]] m1];
        cbn [fst snd] in *; exact Hsave.
    + intros ctx' t' d' task Hreq. inversion Hreq; subst ctx' t' d'.
      apply Hcreate.
  - rewrite InMemory_GetByID_state_service. split; [lia |].
    intros ctx' t' d' task Hreq. discriminate Hreq.
  - rewrite InMemory_GetAll_state_service. split; [lia |].
    intros ctx' t' d' task Hreq. discriminate Hreq.
  - split; [| intros ctx' t' d' task Hreq; discriminate Hreq].
    cbn [TaskService.serve]. rewrite service_Update_state.
    destruct (context.Err ctx); [lia |].
    destruct (InMemory.data m !! id0); [| lia].
    destruct (String.eqb _ _); [lia | apply Hsave].
  - split; [| intros ctx' t' d' task Hreq; discriminate Hreq].
    cbn [TaskService.serve]. unfold TaskService.Delete.
    cbn [TaskStorage.Delete InMemory_TaskStorage]. unfold InMemory.Delete.
    destruct (context.Err ctx); [cbn [snd]; lia |].
    destruct (InMemory.data m !! id0); cbn [snd InMemory.serialID]; lia.
Qed.

(** The identifiers that the Creates of a request sequence return go up
    strictly, from the counter's value at the start to below its value at
    the end. *)
Lemma created_ids_increase reqs : forall (n : Z) m,
  0 <= n ->
  n + Z.of_nat (length reqs) < uint64_modulus - 1 ->
  1 <= InMemory.serialID m <= 1 + n ->
  StronglySorted Z.lt (created_ids reqs m) /\
  Forall (fun k => InMemory.serialID m <= k
                   < InMemory.serialID (TaskService.serve_all reqs m))
         (created_ids reqs m) /\
  InMemory.serialID m <= InMemory.serialID (TaskService.serve_all reqs m).
Proof.
  induction reqs as [| req reqs IH]; intros n m Hn Hbound Hs.
  - cbn [created_ids TaskService.serve_all fold_left].
    split; [constructor | split; [constructor | lia]].
  - cbn [length] in Hbound.
    destruct (serve_moves_counter_forward m req) as [Hstep Hcreate];
      [lia | lia |].
    destruct (IH (n + 1) (TaskService.serve m req)) as (Hsorted & Hrange & Hle);
      [lia | lia | lia |].
    unfold TaskService.serve_all in *. cbn [fold_left].
    set (m1 := TaskService.serve m req) in *.
    set (final := fold_left TaskService.serve reqs m1) in *.
    assert (Htail : StronglySorted Z.lt (created_ids reqs m1) /\
                    Forall (fun k => InMemory.serialID m <= k
                                     < InMemory.serialID final)
                           (created_ids reqs m1) /\
                    InMemory.serialID m <= InMemory.serialID final).
    { split; [exact Hsorted | split; [| lia]].
      eapply Forall_impl; [exact Hrange |]. cbv beta. intros k Hk. lia. }
    cbn [created_ids]. fold m1.
    destruct req as [ctx title description | ctx id0 | ctx
                    | ctx id0 title description isDone | ctx id0];
      try exact Htail.
    destruct (TaskService.Create ctx title description m).1
      as [task [err |]] eqn:Hres; [exact Htail |].
    destruct (Hcreate ctx title description task eq_refl Hres)
      as [Hid Hnext].
    split; [| split; [| lia]].
    + constructor; [exact Hsorted |].
      eapply Forall_impl; [exact Hrange |]. cbv beta. intros k Hk. lia.
    + constructor; [lia |]. exact (proj1 (proj2 Htail)).
Qed.

(** X10. The service never reuses an identifier. Over any sequence of fewer
    than 2^64 - 1 requests on the empty store, the identifiers that the
    successful Creates return go up strictly in the order of the requests,
    Deletes in between or not, and all lie from 1 to below the counter; so
    do the identifiers stored at the end. A further Create (valid title,
    live context) succeeds with an identifier above every identifier handed
    out before, which no stored task has; all stored tasks stay as they
    are, and the store grows by one task. *)
Theorem service_never_reuses_an_identifier (reqs : list TaskService.Request) :
  Z.of_nat (length reqs) < uint64_modulus - 1 ->
  let m := TaskService.serve_all reqs InMemory.NewInMemory in
  let ids := created_ids reqs InMemory.NewInMemory in
  StronglySorted Z.lt ids /\
  Forall (fun k => 1 <= k < InMemory.serialID m) ids /\
  (forall k, is_Some (InMemory.data m !! k) ->
             1 <= k < InMemory.serialID m) /\
  1 <= InMemory.serialID m <= 1 + Z.of_nat (length reqs) /\
  forall ctx title description,
    GoStrings.TrimSpace title <> "" ->
    context.Err ctx = None ->
    let created := TaskService.Create ctx title description m in
    created.1.2 = None /\
    Forall (fun k => k < domain.ID created.1.1) ids /\
    InMemory.data m !! domain.ID created.1.1 = None /\
    (forall k, is_Some (InMemory.data m !! k) ->
               InMemory.data created.2 !! k = InMemory.data m !! k) /\
    size (InMemory.data created.2) = S (size (InMemory.data m)).
Proof.
  intros Hbound m ids.
  destruct (serve_all_keeps_ids_below_counter reqs 0 InMemory.NewInMemory)
    as [Hs Hkeys]; [lia | lia | |].
  { cbn [InMemory.NewInMemory InMemory.serialID InMemory.data].
    split; [lia |]. intros k [x Hx]. rewrite lookup_empty in Hx.
    discriminate. }
  fold m in Hs, Hkeys. rewrite Z.add_0_l in Hs.
  destruct (created_ids_increase reqs 0 InMemory.NewInMemory)
    as (Hsorted & Hrange & _);
    [lia | lia | cbn [InMemory.NewInMemory InMemory.serialID]; lia |].
  fold m in Hrange. fold ids in Hsorted, Hrange.
  cbn [InMemory.NewInMemory InMemory.serialID] in Hrange.
  split; [exact Hsorted | split; [exact Hrange |]].
  split; [exact Hkeys | split; [exact Hs |]].
  intros ctx title description Hvalid Hctx created. subst created.
  rewrite (Create_valid ctx title description m Hvalid Hctx).
  cbn [fst snd domain.ID InMemory.data].
  assert (Hfree : InMemory.data m !! InMemory.serialID m = None).
  { destruct (InMemory.data m !! InMemory.serialID m) eqn:E; [| reflexivity].
    specialize (Hkeys (InMemory.serialID m) (ex_intro _ _ E)). lia. }
  split; [reflexivity |].
  split; [eapply Forall_impl; [exact Hrange |]; cbv beta; intros k Hk; lia |].
  split; [exact Hfree | split].
  - intros k Hk. apply lookup_insert_ne. specialize (Hkeys k Hk). lia.
  - apply map_size_insert_None. exact Hfree.
Qed.

End ServiceMore.

(** * Properties of the HTTP transport *)

Section PathIdentifier.

Lemma decimal_from_ge s : forall a,
  strconv.all_digits s = true -> 0 <= a -> a <= strconv.decimal_from a s.
Proof.
  induction s as [| c s IH]; intros a Hd Ha; cbn [strconv.decimal_from];
    [lia |].
  cbn [strconv.all_digits] in Hd. apply andb_true_iff in Hd as [Hc Hs].
  unfold strconv.is_digit in Hc. apply andb_true_iff in Hc as [Hlo Hhi].
  apply Z.leb_le in Hlo, Hhi.
  specialize (IH (a * 10 + (byte c - 48)) Hs). lia.
Qed.

(** The loop of ParseUint, started at a value in range, ends without an
    error exactly on a string of decimal digits whose value, read on from
    the start value, is in range; it then returns that value. *)
Lemma ParseUint_loop_spec s : forall n0 n,
  0 <= n0 <= strconv.maxUint64 ->
  strconv.ParseUint_loop 10 (strconv.maxUint64 / 10 + 1) (2 ^ 64 - 1) s n0
  = (n, None) <->
  strconv.all_digits s = true /\ strconv.decimal_from n0 s = n /\
  n <= strconv.maxUint64.
Proof.
  change (strconv.maxUint64 / 10 + 1) with 1844674407370955162.
  change (2 ^ 64 - 1) with 18446744073709551615.
  change strconv.maxUint64 with 18446744073709551615.
  induction s as [| c s IH]; intros n0 n Hn0;
    cbn [strconv.ParseUint_loop strconv.all_digits strconv.decimal_from].
  - split.
    + intros Heq. inversion Heq; subst. split; [reflexivity | lia].
    + intros (_ & <- & _). reflexivity.
  - unfold strconv.is_digit. pose proof (byte_range c) as Hb.
    destruct (Z.leb_spec 48 (byte c)) as [Hlo | Hlo];
      destruct (Z.leb_spec (byte c) 57) as [Hhi | Hhi]; cbn [andb].
    2-4: (split; [| intros (Hd & _); discriminate]).
    + destruct (Z.leb_spec 10 (byte c - 48)) as [Hbig | _]; [lia |].
      destruct (Z.leb_spec 1844674407370955162 n0) as [Hcut | Hcut].
      * split; [discriminate |]. intros (Hd & Hval & Hmax).
        pose proof (decimal_from_ge s (n0 * 10 + (byte c - 48)) Hd) as Hge.
        lia.
      * assert (Hmul : wrap64 (n0 * 10) = n0 * 10)
          by (apply wrap64_small; unfold is_uint64, uint64_modulus; lia).
        rewrite Hmul.
        destruct (Z.le_gt_cases (n0 * 10 + (byte c - 48))
                                18446744073709551615) as [Hfit | Hover].
        -- assert (Hadd : wrap64 (n0 * 10 + (byte c - 48))
                          = n0 * 10 + (byte c - 48))
             by (apply wrap64_small; unfold is_uint64, uint64_modulus; lia).
           rewrite Hadd.
           destruct (Z.ltb_spec (n0 * 10 + (byte c - 48)) (n0 * 10)); [lia |].
           destruct (Z.ltb_spec 18446744073709551615
                                (n0 * 10 + (byte c - 48))); [lia |].
           cbn [orb]. apply IH. lia.
        -- assert (Hadd : wrap64 (n0 * 10 + (byte c - 48))
                          = n0 * 10 + (byte c - 48) - 2 ^ 64).
           { unfold wrap64, uint64_modulus.
             symmetry. apply (Z.mod_unique _ _ 1); lia. }
           rewrite Hadd.
           destruct (Z.ltb_spec (n0 * 10 + (byte c - 48) - 2 ^ 64) (n0 * 10));
             [| lia].
           cbn [orb]. split; [discriminate |]. intros (Hd & Hval & Hmax).
           pose proof (decimal_from_ge s (n0 * 10 + (byte c - 48)) Hd) as Hge.
           lia.
    + destruct ((97 <=? strconv.lower (byte c))
                && (strconv.lower (byte c) <=? 122)) eqn:Hletter.
      * apply andb_true_iff in Hletter as [Hl _]. apply Z.leb_le in Hl.
        destruct (Z.leb_spec 10 (strconv.lower (byte c) - 97 + 10));
          [discriminate | lia].
      * discriminate.
    + destruct ((97 <=? strconv.lower (byte c))
                && (strconv.lower (byte c) <=? 122)) eqn:Hletter.
      * apply andb_true_iff in Hletter as [Hl _]. apply Z.leb_le in Hl.
        destruct (Z.leb_spec 10 (strconv.lower (byte c) - 97 + 10));
          [discriminate | lia].
      * discriminate.
    + lia.
Qed.

(** X12. parseIDFromPath accepts exactly the path values that are non-empty
    strings of decimal digits with a value below 2^64, leading zeros
    allowed, and returns that value: no sign, no blank, no other base, and
    no numeral that would wrap around. Every other path value is refused
    with one of its two messages and the identifier 0. *)
Theorem parseIDFromPath_accepts_decimal_uint64 {B : Type}
  (r : handlers.Request B) (n : Z) :
  let s := handlers.PathValue_id r in
  (handlers.parseIDFromPath r = (n, None) <->
   s <> "" /\ strconv.all_digits s = true /\
   strconv.decimal_value s = n /\ n < uint64_modulus) /\
  ((handlers.parseIDFromPath r).2 = None \/
   handlers.parseIDFromPath r
   = (0, Some (errors.errorString
                 (if String.eqb s "" then "task id is required"
                  else "invalid task id format")))).
Proof.
  intros s. subst s. unfold handlers.parseIDFromPath, strconv.ParseUint.
  cbv zeta.
  destruct (String.eqb_spec (handlers.PathValue_id r) "") as [He | Hne].
  - split; [| right; reflexivity]. split; [discriminate |].
    intros (Hs & _). contradiction.
  - destruct (strconv.ParseUint_loop _ _ _ _ _) as [v [e |]] eqn:Eloop.
    + split; [| right; reflexivity]. split; [discriminate |].
      intros (_ & Hd & Hval & Hmax).
      assert (Hok : strconv.ParseUint_loop 10 (strconv.maxUint64 / 10 + 1)
                      (2 ^ 64 - 1) (handlers.PathValue_id r) 0 = (n, None)).
      { apply ParseUint_loop_spec; [unfold strconv.maxUint64; lia |].
        split; [exact Hd | split; [exact Hval |]].
        unfold strconv.maxUint64, uint64_modulus in *. lia. }
      rewrite Hok in Eloop. discriminate.
    + split; [| left; reflexivity].
      apply ParseUint_loop_spec in Eloop as (Hd & Hval & Hmax);
        [| unfold strconv.maxUint64; lia].
      split.
      * intros Heq. injection Heq as Hvn. rewrite <- Hvn.
        split; [exact Hne | split; [exact Hd | split; [exact Hval |]]].
        unfold strconv.maxUint64, uint64_modulus in *. lia.
      * intros (_ & _ & Hval' & _). unfold strconv.decimal_value in Hval'.
        congruence.
Qed.

End PathIdentifier.

(** ** The service over the in-memory store, case by case *)

Section ServiceCases.

Implicit Types (m : InMemory.InMemory domain.TaskSchema) (ctx : Context).

Lemma Validate_blank title description isDone :
  GoStrings.TrimSpace title = "" ->
  utils.Validate {| domain.Title := title; domain.Description := description;
                    domain.IsDone := isDone |} = Some domain.ErrEmptyTitle.
Proof.
  intros Hblank. unfold utils.Validate. cbn [domain.Title].
  rewrite Hblank. reflexivity.
Qed.

Lemma Validate_not_blank title description isDone :
  GoStrings.TrimSpace title <> "" ->
  utils.Validate {| domain.Title := title; domain.Description := description;
                    domain.IsDone := isDone |} = None.
Proof. intros Hvalid. apply Validate_ok_iff. exact Hvalid. Qed.

Lemma service_Create_blank ctx title description m :
  GoStrings.TrimSpace title = "" ->
  TaskService.Create ctx title description m
  = ((zero, Some (errors.Errorf_w "validation failed: "
                                  domain.ErrEmptyTitle)), m).
Proof.
  intros Hblank. unfold TaskService.Create.
  rewrite (Validate_blank title description false Hblank). reflexivity.
Qed.

Lemma service_Create_fired ctx title description m e :
  GoStrings.TrimSpace title <> "" ->
  context.Err ctx = Some e ->
  TaskService.Create ctx title description m
  = ((zero, Some (errors.Errorf_w "failed to save task: " e)), m).
Proof.
  intros Hvalid Hctx. unfold TaskService.Create.
  rewrite (Validate_not_blank title description false Hvalid).
  cbn [TaskStorage.Save InMemory_TaskStorage]. unfold InMemory.Save.
  rewrite Hctx. reflexivity.
Qed.

Lemma service_GetByID_eq ctx id m :
  TaskService.GetByID ctx id m
  = (match context.Err ctx with
     | Some e => (zero, Some e)
     | None =>
       match InMemory.data m !! id with
       | Some schema =>
         ({| domain.ID := id; domain.Schema := schema |}, None)
       | None => (zero, Some domain.ErrNotExists)
       end
     end, m).
Proof.
  unfold TaskService.GetByID. cbn [TaskStorage.GetByID InMemory_TaskStorage].
  unfold InMemory.GetByID. destruct (context.Err ctx); [reflexivity |].
  destruct (InMemory.data m !! id); reflexivity.
Qed.

Lemma service_Update_eq ctx id title description isDone m :
  TaskService.Update ctx id title description isDone m
  = match context.Err ctx with
    | Some e => (Some e, m)
    | None =>
      match InMemory.data m !! id with
      | None => (Some domain.ErrNotExists, m)
      | Some _ =>
        if String.eqb (GoStrings.TrimSpace title) "" then
          (Some (errors.Errorf_w "validation failed: " domain.ErrEmptyTitle),
           m)
        else
          (None,
           (InMemory.Save ctx {| domain.Title := title;
                                 domain.Description := description;
                                 domain.IsDone := isDone |} id m).2)
      end
    end.
Proof.
  unfold TaskService.Update.
  cbn [TaskStorage.GetByID TaskStorage.Save InMemory_TaskStorage].
  unfold InMemory.GetByID. destruct (context.Err ctx) as [e |] eqn:Hctx;
    [reflexivity |].
  destruct (InMemory.data m !! id); [| reflexivity].
  cbn [fst snd]. rewrite Update_record. unfold utils.Validate.
  cbn [domain.Title].
  destruct (String.eqb (GoStrings.TrimSpace title) ""); [reflexivity |].
  unfold InMemory.Save. rewrite Hctx. destruct (id =? 0); reflexivity.
Qed.

Lemma service_Delete_eq ctx id m :
  TaskService.Delete ctx id m = InMemory.Delete ctx id m.
Proof.
  unfold TaskService.Delete. cbn [TaskStorage.Delete InMemory_TaskStorage].
  destruct (InMemory.Delete ctx id m) as [[e |] m1]; reflexivity.
Qed.

Lemma ctx_error_is_internal ctx e :
  context.Err ctx = Some e ->
  errors.Is e domain.ErrNotExists = false /\
  errors.Is e domain.ErrEmptyTitle = false /\
  (forall prefix,
     errors.Is (errors.Errorf_w prefix e) domain.ErrEmptyTitle = false /\
     errors.Is (errors.Errorf_w prefix e) domain.ErrNotExists = false).
Proof.
  intros Hctx. destruct ctx; cbn in Hctx; inversion Hctx; subst;
    repeat split; reflexivity.
Qed.

End ServiceCases.

(** ** The handlers over the service and the in-memory store *)

Section HandlerFacts.

Implicit Types (m : InMemory.InMemory domain.TaskSchema).

(** X13. POST /todos. A body that does not decode gives 400 "invalid request
    body"; a decoded body with a blank title gives 400 with the validation
    message, whatever the context; a valid title with a fired context gives
    500 "internal server error"; these three leave the store as it was. A
    valid title with a live context gives 201 with the created task, whose
    identifier is the counter's value and whose fields are the request's,
    not done, and the task is stored under that identifier. *)
Theorem POST_todos_responses (r : handlers.Request dto.CreateTaskRequest) m :
  let req := (handlers.Decode r).1 in
  let title := dto.CreateTaskRequest_Title req in
  let description := dto.CreateTaskRequest_Description req in
  let resp := (TaskHandler.Create r m).1 in
  let m' := (TaskHandler.Create r m).2 in
  ((handlers.Decode r).2 <> None ->
   resp = handlers.errorJSON "invalid request body" 400 /\ m' = m) /\
  ((handlers.Decode r).2 = None -> GoStrings.TrimSpace title = "" ->
   resp = handlers.errorJSON
            "validation failed: task must have non empty title" 400 /\
   m' = m) /\
  ((handlers.Decode r).2 = None -> GoStrings.TrimSpace title <> "" ->
   context.Err (handlers.Ctx r) <> None ->
   resp = handlers.errorJSON "internal server error" 500 /\ m' = m) /\
  ((handlers.Decode r).2 = None -> GoStrings.TrimSpace title <> "" ->
   context.Err (handlers.Ctx r) = None ->
   resp = handlers.writeJSON
            (handlers.TaskBody
               {| dto.TaskResponse_ID := InMemory.serialID m;
                  dto.TaskResponse_Title := title;
                  dto.TaskResponse_Description := description;
                  dto.TaskResponse_IsDone := false |}) 201 /\
   InMemory.data m' !! InMemory.serialID m
   = Some {| domain.Title := title; domain.Description := description;
             domain.IsDone := false |}).
Proof.
  intros req title description resp m'. subst req title description resp m'.
  unfold TaskHandler.Create.
  destruct (handlers.Decode r) as [req [derr |]]; cbn [fst snd].
  - split; [intros _; split; reflexivity |].
    split; [| split]; intros Hd; discriminate Hd.
  - cbn [handlers.Create usecases_TaskService].
    split; [intros Hd; contradiction |].
    split; [| split].
    + intros _ Hblank. rewrite (service_Create_blank _ _ _ m Hblank).
      split; reflexivity.
    + intros _ Hvalid Hfired.
      destruct (context.Err (handlers.Ctx r)) as [e |] eqn:Hctx;
        [| contradiction].
      rewrite (service_Create_fired _ _ _ m e Hvalid Hctx).
      destruct (ctx_error_is_internal _ e Hctx) as (_ & _ & Hwrapped).
      destruct (Hwrapped "failed to save task: ") as [Hnot _].
      rewrite Hnot. split; reflexivity.
    + intros _ Hvalid Hctx. rewrite (Create_valid _ _ _ m Hvalid Hctx).
      cbn [fst snd InMemory.data]. split; [reflexivity |].
      apply lookup_insert_eq.
Qed.

(** X14. GET /todos/{id} never changes the store. A path value that is not an
    identifier gives 400 with the parser's message; an identifier with a
    fired context gives 500 "internal server error"; with a live context an
    absent identifier gives 404 "task not found" and a present one gives
    200 with the stored task and its identifier. *)
Theorem GET_todo_responses {B : Type} (r : handlers.Request B) m :
  let resp := (TaskHandler.GetByID r m).1 in
  (TaskHandler.GetByID r m).2 = m /\
  (forall e, (handlers.parseIDFromPath r).2 = Some e ->
     resp = handlers.errorJSON (errors.Error e) 400) /\
  (forall id, handlers.parseIDFromPath r = (id, None) ->
     (context.Err (handlers.Ctx r) <> None ->
      resp = handlers.errorJSON "internal server error" 500) /\
     (context.Err (handlers.Ctx r) = None ->
      InMemory.data m !! id = None ->
      resp = handlers.errorJSON "task not found" 404) /\
     (forall schema, context.Err (handlers.Ctx r) = None ->
      InMemory.data m !! id = Some schema ->
      resp = handlers.writeJSON
               (handlers.TaskBody
                  {| dto.TaskResponse_ID := id;
                     dto.TaskResponse_Title := domain.Title schema;
                     dto.TaskResponse_Description := domain.Description schema;
                     dto.TaskResponse_IsDone := domain.IsDone schema |}) 200)).
Proof.
  intros resp. subst resp. unfold TaskHandler.GetByID.
  destruct (handlers.parseIDFromPath r) as [id [perr |]]; cbn [fst snd].
  - split; [reflexivity |]. split.
    + intros e He. inversion He; subst. reflexivity.
    + intros id' Hp. discriminate Hp.
  - cbn [handlers.GetByID usecases_TaskService].
    rewrite service_GetByID_eq.
    split.
    { destruct (context.Err (handlers.Ctx r)) as [e |];
        [destruct (errors.Is e domain.ErrNotExists); reflexivity |].
      destruct (InMemory.data m !! id); reflexivity. }
    split; [intros e He; discriminate He |].
    intros id' Hp. inversion Hp; subst id'. split; [| split].
    + intros Hfired.
      destruct (context.Err (handlers.Ctx r)) as [e |] eqn:Hctx;
        [| contradiction].
      destruct (ctx_error_is_internal _ e Hctx) as (Hnot & _).
      cbn [fst snd]. rewrite Hnot. reflexivity.
    + intros Hctx Habsent. rewrite Hctx, Habsent. reflexivity.
    + intros schema Hctx Hpresent. rewrite Hctx, Hpresent. reflexivity.
Qed.

(** X15. GET /todos never changes the store. With a fired context it gives 500
    "internal server error". With a live context it gives 200 with a list
    that holds one entry per stored task, with the task's identifier and
    fields, no identifier twice, and a total equal to the length of the
    list and to the number of stored tasks. *)
Theorem GET_todos_responses {B : Type} (r : handlers.Request B) m :
  let resp := (TaskHandler.GetAll r m).1 in
  (TaskHandler.GetAll r m).2 = m /\
  (context.Err (handlers.Ctx r) <> None ->
   resp = handlers.errorJSON "internal server error" 500) /\
  (context.Err (handlers.Ctx r) = None ->
   exists l,
     resp = handlers.writeJSON (handlers.TaskListBody l) 200 /\
     dto.TaskListResponse_Total l
     = Z.of_nat (length (dto.TaskListResponse_Tasks l)) /\
     dto.TaskListResponse_Total l = Z.of_nat (size (InMemory.data m)) /\
     NoDup (map dto.TaskResponse_ID (dto.TaskListResponse_Tasks l)) /\
     forall id title description isDone,
       In {| dto.TaskResponse_ID := id; dto.TaskResponse_Title := title;
             dto.TaskResponse_Description := description;
             dto.TaskResponse_IsDone := isDone |}
          (dto.TaskListResponse_Tasks l) <->
       InMemory.data m !! id
       = Some {| domain.Title := title; domain.Description := description;
                 domain.IsDone := isDone |}).
Proof.
  intros resp. subst resp. unfold TaskHandler.GetAll.
  cbn [handlers.GetAll usecases_TaskService]. unfold TaskService.GetAll.
  cbn [TaskStorage.GetAll InMemory_TaskStorage]. unfold InMemory.GetAll.
  destruct (context.Err (handlers.Ctx r)) as [e |]; cbn [fst snd].
  - split; [reflexivity |]. split; [reflexivity |].
    intros Hctx. discriminate Hctx.
  - split; [reflexivity |]. split; [intros Hctx; contradiction |].
    intros _. rewrite map_map. cbn [domain.Elem_ID domain.Elem_Value].
    set (tasks := map _ (map_to_list (InMemory.data m))).
    set (responses := map (fun task => dto.ToTaskResponse (Some task)) tasks).
    assert (Hlist : dto.ToTaskListResponse tasks
                    = {| dto.TaskListResponse_Tasks := responses;
                         dto.TaskListResponse_Total
                         := Z.of_nat (length responses) |}).
    { subst responses. destruct tasks; reflexivity. }
    rewrite Hlist. eexists. split; [reflexivity |].
    cbn [dto.TaskListResponse_Tasks dto.TaskListResponse_Total].
    assert (Hresp : responses
              = map (fun kv : Z * domain.TaskSchema =>
                       {| dto.TaskResponse_ID := kv.1;
                          dto.TaskResponse_Title := domain.Title kv.2;
                          dto.TaskResponse_Description
                          := domain.Description kv.2;
                          dto.TaskResponse_IsDone := domain.IsDone kv.2 |})
                    (map_to_list (InMemory.data m))).
    { subst responses tasks. rewrite map_map. reflexivity. }
    split; [reflexivity |]. split; [| split].
    + rewrite Hresp, length_map, length_map_to_list. reflexivity.
    + rewrite Hresp, map_map. cbn [dto.TaskResponse_ID].
      apply (NoDup_fst_map_to_list (InMemory.data m)).
    + intros id title description isDone. rewrite Hresp, in_map_iff. split.
      * intros [[k [t d b]] [Heq Hin]]. cbn in Heq. inversion Heq; subst.
        apply list_elem_of_In, elem_of_map_to_list in Hin. exact Hin.
      * intros Hlook. eexists (id, _). split; [| apply list_elem_of_In,
          elem_of_map_to_list; exact Hlook]. reflexivity.
Qed.

Lemma handler_GetByID_eq {B : Type} (r : handlers.Request B) m id :
  handlers.parseIDFromPath r = (id, None) ->
  TaskHandler.GetByID r m
  = (match context.Err (handlers.Ctx r) with
     | Some _ => handlers.errorJSON "internal server error" 500
     | None =>
       match InMemory.data m !! id with
       | None => handlers.errorJSON "task not found" 404
       | Some schema =>
         handlers.writeJSON
           (handlers.TaskBody
              {| dto.TaskResponse_ID := id;
                 dto.TaskResponse_Title := domain.Title schema;
                 dto.TaskResponse_Description := domain.Description schema;
                 dto.TaskResponse_IsDone := domain.IsDone schema |}) 200
       end
     end, m).
Proof.
  intros Hparse. unfold TaskHandler.GetByID. rewrite Hparse.
  cbn [handlers.GetByID usecases_TaskService]. rewrite service_GetByID_eq.
  destruct (context.Err (handlers.Ctx r)) as [e |] eqn:Hctx.
  - destruct (ctx_error_is_internal _ e Hctx) as (Hnf & _).
    rewrite Hnf. reflexivity.
  - destruct (InMemory.data m !! id); reflexivity.
Qed.

Lemma handler_Delete_eq {B : Type} (r : handlers.Request B) m id :
  handlers.parseIDFromPath r = (id, None) ->
  TaskHandler.Delete r m
  = match context.Err (handlers.Ctx r) with
    | Some _ => (handlers.errorJSON "internal server error" 500, m)
    | None =>
      match InMemory.data m !! id with
      | None => (handlers.errorJSON "task not found" 404, m)
      | Some _ =>
        (handlers.WriteHeader 204,
         {| InMemory.serialID := InMemory.serialID m;
            InMemory.data := delete id (InMemory.data m) |})
      end
    end.
Proof.
  intros Hparse. unfold TaskHandler.Delete. rewrite Hparse.
  cbn [handlers.Delete usecases_TaskService]. rewrite service_Delete_eq.
  destruct (context.Err (handlers.Ctx r)) as [e |] eqn:Hctx.
  - unfold InMemory.Delete. rewrite Hctx.
    destruct (ctx_error_is_internal _ e Hctx) as (Hnf & _).
    rewrite Hnf. reflexivity.
  - rewrite (Delete_live _ id m Hctx).
    destruct (InMemory.data m !! id); reflexivity.
Qed.

(** X16. PUT /todos/{id}. The path value is checked first, then the body, then
    the record is read, and only then is the title validated: a path value
    that is not an identifier gives 400 with the parser's message; a body
    that does not decode gives 400 "invalid request body"; a fired context
    gives 500; an absent identifier gives 404 "task not found", also when
    the title is blank; a present identifier with a blank title gives 400
    with the validation message. All of these leave the store as it was.
    A present identifier with a valid title gives 204 without a body, and
    the store is the one that Save of the request's record leaves. *)
Theorem PUT_todo_responses (r : handlers.Request dto.UpdateTaskRequest) m :
  let req := (handlers.Decode r).1 in
  let title := dto.UpdateTaskRequest_Title req in
  let record := {| domain.Title := title;
                   domain.Description := dto.UpdateTaskRequest_Description req;
                   domain.IsDone := dto.UpdateTaskRequest_IsDone req |} in
  let ctx := handlers.Ctx r in
  let resp := (TaskHandler.Update r m).1 in
  let m' := (TaskHandler.Update r m).2 in
  (forall e, (handlers.parseIDFromPath r).2 = Some e ->
     resp = handlers.errorJSON (errors.Error e) 400 /\ m' = m) /\
  (forall id, handlers.parseIDFromPath r = (id, None) ->
     ((handlers.Decode r).2 <> None ->
      resp = handlers.errorJSON "invalid request body" 400 /\ m' = m) /\
     ((handlers.Decode r).2 = None ->
      (context.Err ctx <> None ->
       resp = handlers.errorJSON "internal server error" 500 /\ m' = m) /\
      (context.Err ctx = None -> InMemory.data m !! id = None ->
       resp = handlers.errorJSON "task not found" 404 /\ m' = m) /\
      (context.Err ctx = None -> is_Some (InMemory.data m !! id) ->
       GoStrings.TrimSpace title = "" ->
       resp = handlers.errorJSON
                "validation failed: task must have non empty title" 400 /\
       m' = m) /\
      (context.Err ctx = None -> is_Some (InMemory.data m !! id) ->
       GoStrings.TrimSpace title <> "" ->
       resp = handlers.WriteHeader 204 /\
       m' = (InMemory.Save ctx record id m).2 /\
       (id <> 0 -> InMemory.data m' !! id = Some record)))).
Proof.
  intros req title record ctx resp m'.
  subst req title record ctx resp m'. unfold TaskHandler.Update.
  destruct (handlers.parseIDFromPath r) as [id [perr |]]; cbn [fst snd].
  - split.
    + intros e He. inversion He; subst. split; reflexivity.
    + intros id' Hp. discriminate Hp.
  - split; [intros e He; discriminate He |].
    intros id' Hp. inversion Hp; subst id'.
    destruct (handlers.Decode r) as [req [derr |]]; cbn [fst snd].
    + split; [intros _; split; reflexivity | intros Hd; discriminate Hd].
    + split; [intros Hd; contradiction |]. intros _.
      cbn [handlers.Update usecases_TaskService].
      rewrite service_Update_eq.
      destruct (context.Err (handlers.Ctx r)) as [e |] eqn:Hctx.
      * destruct (ctx_error_is_internal _ e Hctx) as (Hnf & Hnv & _).
        rewrite Hnf, Hnv.
        split; [intros _; split; reflexivity |].
        split; [| split]; intros Hlive; discriminate Hlive.
      * split; [intros Hfired; contradiction |].
        destruct (InMemory.data m !! id) as [old |] eqn:Hold.
        -- split; [intros _ Habsent; discriminate Habsent |].
           destruct (String.eqb_spec
                       (GoStrings.TrimSpace (dto.UpdateTaskRequest_Title req))
                       "") as [Hblank | Hvalid].
           ++ split; [intros _ _ _; split; reflexivity |].
              intros _ _ Hv. contradiction.
           ++ split; [intros _ _ Hb; contradiction |].
              intros _ _ _. split; [reflexivity |]. split; [reflexivity |].
              intros Hid. rewrite (Save_explicit _ _ id m Hctx Hid).
              cbn [snd InMemory.data]. apply lookup_insert_eq.
        -- split; [intros _ _; split; reflexivity |].
           split; intros _ [x Hx]; discriminate Hx.
Qed.

(** X17. DELETE /todos/{id}. A path value that is not an identifier gives 400; a
    fired context gives 500; an absent identifier gives 404 "task not
    found"; these leave the store as it was. A present identifier gives 204
    without a body and removes that one record, the counter unchanged; the
    same request repeated, and a GET of the identifier, then give 404. *)
Theorem DELETE_todo_responses {B : Type} (r : handlers.Request B) m :
  let ctx := handlers.Ctx r in
  let resp := (TaskHandler.Delete r m).1 in
  let m' := (TaskHandler.Delete r m).2 in
  (forall e, (handlers.parseIDFromPath r).2 = Some e ->
     resp = handlers.errorJSON (errors.Error e) 400 /\ m' = m) /\
  (forall id, handlers.parseIDFromPath r = (id, None) ->
     (context.Err ctx <> None ->
      resp = handlers.errorJSON "internal server error" 500 /\ m' = m) /\
     (context.Err ctx = None -> InMemory.data m !! id = None ->
      resp = handlers.errorJSON "task not found" 404 /\ m' = m) /\
     (context.Err ctx = None -> is_Some (InMemory.data m !! id) ->
      resp = handlers.WriteHeader 204 /\
      InMemory.data m' = delete id (InMemory.data m) /\
      InMemory.serialID m' = InMemory.serialID m /\
      (TaskHandler.Delete r m').1 = handlers.errorJSON "task not found" 404 /\
      (TaskHandler.GetByID r m').1
      = handlers.errorJSON "task not found" 404)).
Proof.
  intros ctx resp m'. subst ctx resp m'. split.
  - intros e He. unfold TaskHandler.Delete.
    destruct (handlers.parseIDFromPath r) as [id [perr |]]; cbn [fst snd] in *;
      inversion He; subst. split; reflexivity.
  - intros id Hparse. rewrite (handler_Delete_eq r m id Hparse).
    destruct (context.Err (handlers.Ctx r)) as [e |] eqn:Hctx.
    + split; [intros _; split; reflexivity |].
      split; intros Hlive; discriminate Hlive.
    + split; [intros Hfired; contradiction |].
      destruct (InMemory.data m !! id) as [old |] eqn:Hold.
      * split; [intros _ Habsent; discriminate Habsent |].
        intros _ _. cbn [fst snd InMemory.data InMemory.serialID].
        split; [reflexivity |]. split; [reflexivity |].
        split; [reflexivity |].
        rewrite (handler_Delete_eq r _ id Hparse),
          (handler_GetByID_eq r _ id Hparse), Hctx.
        cbn [InMemory.data]. rewrite lookup_delete_eq.
        split; reflexivity.
      * split; [intros _ _; split; reflexivity |].
        intros _ [x Hx]. discriminate Hx.
Qed.

(** X18. A task that POST /todos created is the task that GET /todos/{id}
    returns for the identifier in the 201 response: the two responses carry
    the same JSON task. *)
Theorem POST_then_GET_returns_the_task {B : Type}
  (rc : handlers.Request dto.CreateTaskRequest) (rg : handlers.Request B) m :
  (handlers.Decode rc).2 = None ->
  GoStrings.TrimSpace (dto.CreateTaskRequest_Title (handlers.Decode rc).1)
  <> "" ->
  context.Err (handlers.Ctx rc) = None ->
  context.Err (handlers.Ctx rg) = None ->
  handlers.parseIDFromPath rg = (InMemory.serialID m, None) ->
  let posted := TaskHandler.Create rc m in
  handlers.Status posted.1 = 201 /\
  (exists t, handlers.Written posted.1 = handlers.TaskBody t /\
             dto.TaskResponse_ID t = InMemory.serialID m) /\
  (TaskHandler.GetByID rg posted.2).1
  = handlers.writeJSON (handlers.Written posted.1) 200.
Proof.
  intros Hdecode Hvalid Hctx Hctx' Hparse posted. subst posted.
  unfold TaskHandler.Create, TaskHandler.GetByID. rewrite Hparse.
  destruct (handlers.Decode rc) as [req derr]. cbn [fst snd] in *.
  subst derr. cbn [handlers.Create handlers.GetByID usecases_TaskService].
  rewrite (Create_valid _ _ _ m Hvalid Hctx). cbn [fst snd].
  rewrite service_GetByID_eq, Hctx'. cbn [InMemory.data].
  rewrite lookup_insert_eq. cbn [fst snd handlers.Status handlers.Written
                                 handlers.writeJSON].
  split; [reflexivity |]. split; [| reflexivity].
  eexists. split; reflexivity.
Qed.

End HandlerFacts.

(** ** The handlers over any service *)

Section AnyService.

Context {S : Type} `{handlers.TaskService S}.

(** X19. Whatever the service behind the handlers does, each handler answers
    with one of its own statuses, a 500 response carries the fixed text
    "internal server error" and nothing of the error that caused it, a 204
    response has no body and no Content-Type, and every other response is
    written as JSON. *)
Theorem handlers_hide_internal_errors {B : Type}
  (rc : handlers.Request dto.CreateTaskRequest)
  (ru : handlers.Request dto.UpdateTaskRequest)
  (r : handlers.Request B) (h : S) :
  let well_formed resp :=
    (handlers.Status resp = 500 ->
     resp = handlers.errorJSON "internal server error" 500) /\
    (handlers.Status resp = 204 -> resp = handlers.WriteHeader 204) /\
    (handlers.Status resp <> 204 ->
     handlers.ContentType resp = Some "application/json" /\
     handlers.Written resp <> handlers.NoBody) in
  (In (handlers.Status (TaskHandler.Create rc h).1) [201; 400; 500] /\
   well_formed (TaskHandler.Create rc h).1) /\
  (In (handlers.Status (TaskHandler.GetByID r h).1) [200; 400; 404; 500] /\
   well_formed (TaskHandler.GetByID r h).1) /\
  (In (handlers.Status (TaskHandler.GetAll r h).1) [200; 500] /\
   well_formed (TaskHandler.GetAll r h).1) /\
  (In (handlers.Status (TaskHandler.Update ru h).1) [204; 400; 404; 500] /\
   well_formed (TaskHandler.Update ru h).1) /\
  (In (handlers.Status (TaskHandler.Delete r h).1) [204; 400; 404; 500] /\
   well_formed (TaskHandler.Delete r h).1).
Proof.
  intros well_formed. subst well_formed. cbv beta.
  unfold TaskHandler.Create, TaskHandler.GetByID, TaskHandler.GetAll,
    TaskHandler.Update, TaskHandler.Delete.
  split; [| split; [| split; [| split]]];
    repeat match goal with
           | |- context [handlers.parseIDFromPath ?a] =>
             destruct (handlers.parseIDFromPath a) as [? [? |]]
           | |- context [handlers.Decode ?a] =>
             destruct (handlers.Decode a) as [? [? |]]
           | |- context [handlers.Create ?a ?b ?c ?d] =>
             destruct (handlers.Create a b c d) as [[? [? |]] ?]
           | |- context [handlers.GetByID ?a ?b ?c] =>
             destruct (handlers.GetByID a b c) as [[? [? |]] ?]
           | |- context [handlers.GetAll ?a ?b] =>
             destruct (handlers.GetAll a b) as [[? [? |]] ?]
           | |- context [handlers.Update ?a ?b ?c ?d ?e ?f] =>
             destruct (handlers.Update a b c d e f) as [[? |] ?]
           | |- context [handlers.Delete ?a ?b ?c] =>
             destruct (handlers.Delete a b c) as [[? |] ?]
           | |- context [if ?t then _ else _] => destruct t
           end;
    cbn [fst snd handlers.Status handlers.ContentType handlers.Written
         handlers.errorJSON handlers.writeJSON handlers.WriteHeader In];
    (split; [tauto |]);
    (split; [intros Hst; try discriminate Hst; reflexivity |]);
    (split; [intros Hst; try discriminate Hst; reflexivity |]);
    intros Hst; try (exfalso; apply Hst; reflexivity);
    (split; [reflexivity | discriminate]).
Qed.

End AnyService.

(** * The further theorems at concrete inputs *)

Section MoreInstances.

Lemma GetAll_lists_every_entry_once_witness :
  context.Err context.Background = None /\
  (InMemory.GetAll context.Background one_task).1.2 = None /\
  In {| domain.Elem_ID := 1; domain.Elem_Value := milk |}
     (InMemory.GetAll context.Background one_task).1.1 /\
  length (InMemory.GetAll context.Background one_task).1.1 = 1%nat.
Proof.
  destruct (GetAll_lists_every_entry_once context.Background one_task eq_refl)
    as (Hok & _ & Hin & _ & Hlen).
  split; [reflexivity | split; [exact Hok | split]].
  - apply Hin. reflexivity.
  - rewrite Hlen. reflexivity.
Defined.

Lemma Delete_removes_exactly_one_entry_witness :
  context.Err context.Background = None /\
  (InMemory.Delete context.Background 1 one_task).1 = None /\
  InMemory.data (InMemory.Delete context.Background 1 one_task).2 !! 1 = None /\
  (InMemory.Delete context.Background 2 one_task).1
  = Some domain.ErrNotExists /\
  (InMemory.Delete context.Background 2 one_task).2 = one_task.
Proof.
  destruct (Delete_removes_exactly_one_entry context.Background 1 one_task
              eq_refl) as [Hpresent _].
  destruct (Delete_removes_exactly_one_entry context.Background 2 one_task
              eq_refl) as [_ Habsent].
  destruct (Hpresent (ex_intro _ milk eq_refl)) as (Hok & Hgone & _).
  destruct (Habsent eq_refl) as [Herr Hsame].
  split; [reflexivity | split; [exact Hok | split; [exact Hgone |]]].
  split; [exact Herr | exact Hsame].
Defined.

Lemma storage_failure_keeps_store_witness :
  (InMemory.Save context.WithCancel_cancelled bob 1 one_task).1.2 <> None /\
  (InMemory.Save context.WithCancel_cancelled bob 1 one_task).2 = one_task /\
  (InMemory.Delete context.Background 5 one_task).1 <> None /\
  (InMemory.Delete context.Background 5 one_task).2 = one_task.
Proof.
  destruct (storage_failure_keeps_store context.WithCancel_cancelled bob 1
              one_task) as (Hsave & _).
  destruct (storage_failure_keeps_store context.Background bob 5 one_task)
    as (_ & _ & _ & Hdelete).
  assert (H1 : (InMemory.Save context.WithCancel_cancelled bob 1 one_task).1.2
               <> None) by discriminate.
  assert (H2 : (InMemory.Delete context.Background 5 one_task).1 <> None)
    by discriminate.
  split; [exact H1 | split; [exact (Hsave H1) | split; [exact H2 |]]].
  exact (Hdelete H2).
Defined.

Lemma auto_saves_lose_nothing_witness :
  let calls := [(context.Background, milk); (context.Background, bob)] in
  Forall (fun c => context.Err c.1 = None) calls /\
  Z.of_nat (length calls) < uint64_modulus /\
  size (InMemory.data (InMemory.auto_saves calls fresh).2) = 2%nat /\
  InMemory.data (InMemory.auto_saves calls fresh).2 !! 2 = Some bob.
Proof.
  intros calls.
  assert (Hlive : Forall (fun c : Context * domain.TaskSchema =>
                            context.Err c.1 = None) calls)
    by (repeat constructor).
  assert (Hbound : Z.of_nat (length calls) < uint64_modulus) by reflexivity.
  destruct (auto_saves_lose_nothing calls Hlive Hbound) as (Hsize & Hat & _).
  split; [exact Hlive | split; [exact Hbound | split; [exact Hsize |]]].
  exact (Hat 1%nat (context.Background, bob) eq_refl).
Defined.

Lemma Save_last_writer_wins_witness :
  7 <> 0 /\
  context.Err context.Background = None /\
  InMemory.GetByID context.Background 7
    (InMemory.Save context.Background bob 7
       (InMemory.Save context.Background milk 7 fresh).2).2
  = ((bob, None),
     (InMemory.Save context.Background bob 7
        (InMemory.Save context.Background milk 7 fresh).2).2).
Proof.
  assert (Hid : 7 <> 0) by discriminate.
  split; [exact Hid | split; [reflexivity |]].
  exact (proj2 (Save_last_writer_wins context.Background context.Background
                  context.Background milk bob 7 fresh Hid eq_refl eq_refl
                  eq_refl)).
Defined.

Lemma service_failure_keeps_store_witness :
  (TaskService.Create context.Background "  " "blank" one_task).1.2 <> None /\
  (TaskService.Create context.Background "  " "blank" one_task).2 = one_task /\
  (TaskService.Update context.WithDeadline_expired 1 "Call Bob" "" true
                      one_task).1 <> None /\
  (TaskService.Update context.WithDeadline_expired 1 "Call Bob" "" true
                      one_task).2 = one_task.
Proof.
  destruct (service_failure_keeps_store context.Background 1 "  " "blank"
              true one_task) as (Hcreate & _).
  destruct (service_failure_keeps_store context.WithDeadline_expired 1
              "Call Bob" "" true one_task) as (_ & _ & _ & Hupdate & _).
  assert (H1 : (TaskService.Create context.Background "  " "blank"
                                   one_task).1.2 <> None) by discriminate.
  assert (H2 : (TaskService.Update context.WithDeadline_expired 1 "Call Bob"
                                   "" true one_task).1 <> None)
    by discriminate.
  split; [exact H1 | split; [exact (Hcreate H1) | split; [exact H2 |]]].
  exact (Hupdate H2).
Defined.

Lemma service_errors_are_classified_witness :
  let f := {| Firing.store := one_task; Firing.live_calls := 1 |} in
  let e := errors.wrapError "failed to update task: context canceled"
                            errors.Canceled in
  (forall ctx task id (r : Firing.Firing) c,
     (TaskStorage.Save ctx task id r).1.2 = Some c ->
     c = errors.Canceled \/ c = errors.DeadlineExceeded) /\
  (TaskService.Update context.Background 1 "Call Bob" "" true f).1 = Some e /\
  (TaskService.Update context.Background 1 "Call Bob" "" true f).2
  = {| Firing.store := one_task; Firing.live_calls := 0 |} /\
  (if errors.Is e domain.ErrEmptyTitle then 1 else 0) +
  (if errors.Is e domain.ErrNotExists then 1 else 0) +
  (if errors.Is e errors.Canceled then 1 else 0) +
  (if errors.Is e errors.DeadlineExceeded then 1 else 0) = 1 /\
  (TaskService.Delete context.Background 9 one_task).1
  = Some domain.ErrNotExists.
Proof.
  intros f e.
  destruct Firing_error_kinds as (HSave & HGet & HAll & HDelete).
  pose proof (service_errors_are_classified context.Background 1 "Call Bob"
                "" true f e HSave HGet HAll HDelete) as Hclassified.
  cbv zeta in Hclassified.
  destruct Hclassified as (_ & _ & _ & Hupdate & _).
  destruct (Hupdate eq_refl) as [_ Hkind].
  split; [exact HSave | split; [reflexivity | split; [reflexivity |]]].
  split; [exact Hkind | reflexivity].
Defined.

Lemma Update_overwrites_one_record_witness :
  GoStrings.TrimSpace "Call Bob" <> "" /\
  context.Err context.Background = None /\
  is_Some (InMemory.data one_task !! 1) /\
  1 <> 0 /\
  (TaskService.Update context.Background 1 "Call Bob" "" true one_task).1
  = None /\
  TaskService.GetByID context.Background 1
    (TaskService.Update context.Background 1 "Call Bob" "" true one_task).2
  = (({| domain.ID := 1; domain.Schema := bob |}, None),
     (TaskService.Update context.Background 1 "Call Bob" "" true one_task).2).
Proof.
  assert (Hvalid : GoStrings.TrimSpace "Call Bob" <> "") by discriminate.
  assert (Hpresent : is_Some (InMemory.data one_task !! 1))
    by (exists milk; reflexivity).
  assert (Hid : 1 <> 0) by discriminate.
  destruct (Update_overwrites_one_record context.Background context.Background
              1 "Call Bob" "" true one_task Hvalid eq_refl eq_refl Hpresent
              Hid) as (Hok & Hget & _).
  split; [exact Hvalid | split; [reflexivity | split; [exact Hpresent |]]].
  split; [exact Hid | split; [exact Hok | exact Hget]].
Defined.

Lemma service_GetAll_lists_the_store_witness :
  context.Err context.Background = None /\
  In {| domain.ID := 1; domain.Schema := milk |}
     (TaskService.GetAll context.Background one_task).1.1 /\
  (TaskService.GetAll context.Background fresh).1 = ([], None).
Proof.
  destruct (service_GetAll_lists_the_store context.Background one_task eq_refl)
    as (_ & _ & Hin & _).
  destruct (service_GetAll_lists_the_store context.Background fresh eq_refl)
    as (Hok & _ & _ & _ & _ & Hempty).
  split; [reflexivity | split].
  - apply Hin. reflexivity.
  - specialize (Hempty eq_refl).
    destruct (TaskService.GetAll context.Background fresh) as [[tasks err] m'].
    cbn [fst snd] in *. rewrite Hempty, Hok. reflexivity.
Defined.

Lemma service_never_reuses_an_identifier_witness :
  let reqs := [TaskService.ReqCreate context.Background "Buy milk" "2 l";
               TaskService.ReqDelete context.Background 1;
               TaskService.ReqCreate context.Background "Call Bob" "";
               TaskService.ReqCreate context.Background "  " "blank"] in
  let m := TaskService.serve_all reqs fresh in
  Z.of_nat (length reqs) < uint64_modulus - 1 /\
  created_ids reqs fresh = [1; 2] /\
  StronglySorted Z.lt (created_ids reqs fresh) /\
  (TaskService.Create context.Background "Pay rent" "" m).1.2 = None /\
  domain.ID (TaskService.Create context.Background "Pay rent" "" m).1.1 = 3 /\
  Forall (fun k => k < domain.ID (TaskService.Create context.Background
                                    "Pay rent" "" m).1.1)
         (created_ids reqs fresh).
Proof.
  intros reqs m.
  assert (Hbound : Z.of_nat (length reqs) < uint64_modulus - 1)
    by reflexivity.
  pose proof (service_never_reuses_an_identifier reqs Hbound) as Hfresh.
  cbv zeta in Hfresh. destruct Hfresh as (Hsorted & _ & _ & _ & Hcreate).
  assert (Hvalid : GoStrings.TrimSpace "Pay rent" <> "") by discriminate.
  destruct (Hcreate context.Background "Pay rent" "" Hvalid eq_refl)
    as (Hok & Habove & _).
  split; [exact Hbound | split; [reflexivity |]].
  split; [exact Hsorted | split; [exact Hok |]].
  split; [reflexivity | exact Habove].
Defined.

Lemma parseIDFromPath_accepts_decimal_uint64_witness :
  handlers.parseIDFromPath at_1 = (1, None) /\
  strconv.decimal_value "1" = 1.
Proof.
  destruct (parseIDFromPath_accepts_decimal_uint64 at_1 1) as [Hiff _].
  cbv zeta in Hiff.
  assert (Hgood : handlers.PathValue_id at_1 <> "" /\
                  strconv.all_digits (handlers.PathValue_id at_1) = true /\
                  strconv.decimal_value (handlers.PathValue_id at_1) = 1 /\
                  1 < uint64_modulus).
  { split; [discriminate | split; [reflexivity | split; reflexivity]]. }
  split; [exact (proj2 Hiff Hgood) | reflexivity].
Defined.

Lemma POST_todos_responses_witness :
  (TaskHandler.Create post_milk fresh).1
  = handlers.writeJSON
      (handlers.TaskBody
         {| dto.TaskResponse_ID := 1; dto.TaskResponse_Title := "Buy milk";
            dto.TaskResponse_Description := "2 l";
            dto.TaskResponse_IsDone := false |}) 201 /\
  InMemory.data (TaskHandler.Create post_milk fresh).2 !! 1 = Some milk.
Proof.
  pose proof (POST_todos_responses post_milk fresh) as Hpost.
  cbv zeta in Hpost. destruct Hpost as (_ & _ & _ & Hcreated).
  assert (Hvalid : GoStrings.TrimSpace "Buy milk" <> "") by discriminate.
  exact (Hcreated eq_refl Hvalid eq_refl).
Defined.

Lemma GET_todo_responses_witness :
  (TaskHandler.GetByID at_1 fresh).1
  = handlers.errorJSON "task not found" 404 /\
  (TaskHandler.GetByID at_1 one_task).1
  = handlers.writeJSON
      (handlers.TaskBody
         {| dto.TaskResponse_ID := 1; dto.TaskResponse_Title := "Buy milk";
            dto.TaskResponse_Description := "2 l";
            dto.TaskResponse_IsDone := false |}) 200.
Proof.
  pose proof (GET_todo_responses at_1 fresh) as Hfresh.
  pose proof (GET_todo_responses at_1 one_task) as Hone.
  cbv zeta in Hfresh, Hone.
  destruct Hfresh as (_ & _ & Hfresh). destruct Hone as (_ & _ & Hone).
  destruct (Hfresh 1 eq_refl) as (_ & Habsent & _).
  destruct (Hone 1 eq_refl) as (_ & _ & Hpresent).
  split; [exact (Habsent eq_refl eq_refl) |].
  exact (Hpresent milk eq_refl eq_refl).
Defined.

Lemma GET_todos_responses_witness :
  context.Err (handlers.Ctx at_1) = None /\
  handlers.Status (TaskHandler.GetAll at_1 one_task).1 = 200 /\
  exists l,
    handlers.Written (TaskHandler.GetAll at_1 one_task).1
    = handlers.TaskListBody l /\
    dto.TaskListResponse_Total l = 1.
Proof.
  pose proof (GET_todos_responses at_1 one_task) as Hall.
  cbv zeta in Hall. destruct Hall as (_ & _ & Hlive).
  destruct (Hlive eq_refl) as [l (Hresp & _ & Htotal & _)].
  split; [reflexivity |]. rewrite Hresp.
  split; [reflexivity |]. exists l. split; [reflexivity | exact Htotal].
Defined.

Lemma PUT_todo_responses_witness :
  (TaskHandler.Update put_bob_at_1 fresh).1
  = handlers.errorJSON "task not found" 404 /\
  (TaskHandler.Update put_bob_at_1 one_task).1 = handlers.WriteHeader 204 /\
  InMemory.data (TaskHandler.Update put_bob_at_1 one_task).2 !! 1 = Some bob.
Proof.
  pose proof (PUT_todo_responses put_bob_at_1 fresh) as Hfresh.
  pose proof (PUT_todo_responses put_bob_at_1 one_task) as Hone.
  cbv zeta in Hfresh, Hone.
  destruct Hfresh as (_ & Hfresh). destruct Hone as (_ & Hone).
  destruct (Hfresh 1 eq_refl) as (_ & Hdecoded).
  destruct (Hdecoded eq_refl) as (_ & Habsent & _).
  destruct (Hone 1 eq_refl) as (_ & Hdecoded').
  destruct (Hdecoded' eq_refl) as (_ & _ & _ & Hvalid).
  assert (Htitle : GoStrings.TrimSpace "Call Bob" <> "") by discriminate.
  assert (Hid : 1 <> 0) by discriminate.
  destruct (Hvalid eq_refl (ex_intro _ milk eq_refl) Htitle)
    as (Hresp & _ & Hstored).
  split; [exact (proj1 (Habsent eq_refl eq_refl)) |].
  split; [exact Hresp | exact (Hstored Hid)].
Defined.

Lemma DELETE_todo_responses_witness :
  (TaskHandler.Delete at_1 one_task).1 = handlers.WriteHeader 204 /\
  (TaskHandler.Delete at_1 (TaskHandler.Delete at_1 one_task).2).1
  = handlers.errorJSON "task not found" 404.
Proof.
  pose proof (DELETE_todo_responses at_1 one_task) as Hdelete.
  cbv zeta in Hdelete. destruct Hdelete as (_ & Hdelete).
  destruct (Hdelete 1 eq_refl) as (_ & _ & Hpresent).
  destruct (Hpresent eq_refl (ex_intro _ milk eq_refl))
    as (Hresp & _ & _ & Hagain & _).
  split; [exact Hresp | exact Hagain].
Defined.

Lemma POST_then_GET_returns_the_task_witness :
  (handlers.Decode post_milk).2 = None /\
  handlers.parseIDFromPath at_1 = (InMemory.serialID fresh, None) /\
  handlers.Status (TaskHandler.Create post_milk fresh).1 = 201 /\
  (TaskHandler.GetByID at_1 (TaskHandler.Create post_milk fresh).2).1
  = handlers.writeJSON (handlers.Written (TaskHandler.Create post_milk fresh).1)
                       200.
Proof.
  assert (Hvalid : GoStrings.TrimSpace
                     (dto.CreateTaskRequest_Title (handlers.Decode post_milk).1)
                   <> "") by discriminate.
  destruct (POST_then_GET_returns_the_task post_milk at_1 fresh eq_refl Hvalid
              eq_refl eq_refl eq_refl) as (Hstatus & _ & Hget).
  split; [reflexivity | split; [reflexivity |]].
  split; [exact Hstatus | exact Hget].
Defined.

Lemma handlers_hide_internal_errors_witness :
  In (handlers.Status (TaskHandler.Create post_milk fresh).1) [201; 400; 500]
  /\
  In (handlers.Status (TaskHandler.Delete at_1 fresh).1) [204; 400; 404; 500].
Proof.
  pose proof (handlers_hide_internal_errors post_milk put_bob_at_1 at_1 fresh)
    as Hall.
  cbv zeta in Hall.
  destruct Hall as ((Hcreate & _) & _ & _ & _ & (Hdelete & _)).
  split; [exact Hcreate | exact Hdelete].
Defined.

End MoreInstances.
